(** * ASPEED System Control Unit: register emulation engine

    Shallow embedding of [hw/misc/aspeed_scu.c]: the register file, the
    read/write dispatch of the three generations (AST2400, AST2500,
    AST2600), reset, and the H-PLL / APB frequency derivation.

    Conventions.
    - A [uint32_t] or [uint64_t] is a [Z]; every narrowing conversion of
      the C code is written out with [wrap32] / [to_int].
    - [s->regs] is a [list Z]; [s->regs[i]] is {!reg_get} and
      [s->regs[i] = v] is {!reg_set}.
    - [qemu_log_mask] and the trace point are recorded in a log that the
      access functions return next to the new state.
    - [aspeed_scu_get_random()] is an oracle: the value it would return is
      an argument of the read functions. *)

From Stdlib Require Import ZArith Lia Bool List.
From stdpp Require Import base list.
Import ListNotations.

Local Open Scope Z_scope.

(** ** Machine integers *)

(** Conversion to [uint32_t]. *)
Definition wrap32 (x : Z) : Z := x mod 2 ^ 32.

(** Conversion to [int] (two's complement, 32 bits). *)
Definition to_int (x : Z) : Z := (x + 2 ^ 31) mod 2 ^ 32 - 2 ^ 31.

Definition INT_MAX : Z := 2 ^ 31 - 1.

(** [~x] on a value that is then stored in a [uint32_t]. *)
Definition not32 (x : Z) : Z := wrap32 (Z.lnot x).

Definition is_uint32 (x : Z) : Prop := 0 <= x < 2 ^ 32.

(** [#define BIT(n)] *)
Definition BIT (n : Z) : Z := Z.shiftl 1 n.

(** ** Register map *)

(** [#define TO_REG(offset) ((offset) >> 2)] *)
Definition TO_REG (offset : Z) : Z := Z.shiftr offset 2.

Definition PROT_KEY : Z := Eval cbv in TO_REG 0x00.
Definition SYS_RST_CTRL : Z := Eval cbv in TO_REG 0x04.
Definition CLK_SEL : Z := Eval cbv in TO_REG 0x08.
Definition CLK_STOP_CTRL : Z := Eval cbv in TO_REG 0x0C.
Definition FREQ_CNTR_CTRL : Z := Eval cbv in TO_REG 0x10.
Definition FREQ_CNTR_EVAL : Z := Eval cbv in TO_REG 0x14.
Definition IRQ_CTRL : Z := Eval cbv in TO_REG 0x18.
Definition D2PLL_PARAM : Z := Eval cbv in TO_REG 0x1C.
Definition MPLL_PARAM : Z := Eval cbv in TO_REG 0x20.
Definition HPLL_PARAM : Z := Eval cbv in TO_REG 0x24.
Definition FREQ_CNTR_RANGE : Z := Eval cbv in TO_REG 0x28.
Definition MISC_CTRL1 : Z := Eval cbv in TO_REG 0x2C.
Definition PCI_CTRL1 : Z := Eval cbv in TO_REG 0x30.
Definition PCI_CTRL2 : Z := Eval cbv in TO_REG 0x34.
Definition PCI_CTRL3 : Z := Eval cbv in TO_REG 0x38.
Definition SYS_RST_STATUS : Z := Eval cbv in TO_REG 0x3C.
Definition SOC_SCRATCH1 : Z := Eval cbv in TO_REG 0x40.
Definition SOC_SCRATCH2 : Z := Eval cbv in TO_REG 0x44.
Definition MAC_CLK_DELAY : Z := Eval cbv in TO_REG 0x48.
Definition MISC_CTRL2 : Z := Eval cbv in TO_REG 0x4C.
Definition VGA_SCRATCH1 : Z := Eval cbv in TO_REG 0x50.
Definition VGA_SCRATCH2 : Z := Eval cbv in TO_REG 0x54.
Definition VGA_SCRATCH3 : Z := Eval cbv in TO_REG 0x58.
Definition VGA_SCRATCH4 : Z := Eval cbv in TO_REG 0x5C.
Definition VGA_SCRATCH5 : Z := Eval cbv in TO_REG 0x60.
Definition VGA_SCRATCH6 : Z := Eval cbv in TO_REG 0x64.
Definition VGA_SCRATCH7 : Z := Eval cbv in TO_REG 0x68.
Definition VGA_SCRATCH8 : Z := Eval cbv in TO_REG 0x6C.
Definition HW_STRAP1 : Z := Eval cbv in TO_REG 0x70.
Definition RNG_CTRL : Z := Eval cbv in TO_REG 0x74.
Definition RNG_DATA : Z := Eval cbv in TO_REG 0x78.
Definition SILICON_REV : Z := Eval cbv in TO_REG 0x7C.
Definition PINMUX_CTRL1 : Z := Eval cbv in TO_REG 0x80.
Definition PINMUX_CTRL2 : Z := Eval cbv in TO_REG 0x84.
Definition PINMUX_CTRL3 : Z := Eval cbv in TO_REG 0x88.
Definition PINMUX_CTRL4 : Z := Eval cbv in TO_REG 0x8C.
Definition PINMUX_CTRL5 : Z := Eval cbv in TO_REG 0x90.
Definition PINMUX_CTRL6 : Z := Eval cbv in TO_REG 0x94.
Definition WDT_RST_CTRL : Z := Eval cbv in TO_REG 0x9C.
Definition PINMUX_CTRL7 : Z := Eval cbv in TO_REG 0xA0.
Definition PINMUX_CTRL8 : Z := Eval cbv in TO_REG 0xA4.
Definition PINMUX_CTRL9 : Z := Eval cbv in TO_REG 0xA8.
Definition WAKEUP_EN : Z := Eval cbv in TO_REG 0xC0.
Definition WAKEUP_CTRL : Z := Eval cbv in TO_REG 0xC4.
Definition HW_STRAP2 : Z := Eval cbv in TO_REG 0xD0.
Definition FREE_CNTR4 : Z := Eval cbv in TO_REG 0xE0.
Definition FREE_CNTR4_EXT : Z := Eval cbv in TO_REG 0xE4.
Definition CPU2_CTRL : Z := Eval cbv in TO_REG 0x100.
Definition CPU2_BASE_SEG1 : Z := Eval cbv in TO_REG 0x104.
Definition CPU2_BASE_SEG2 : Z := Eval cbv in TO_REG 0x108.
Definition CPU2_BASE_SEG3 : Z := Eval cbv in TO_REG 0x10C.
Definition CPU2_BASE_SEG4 : Z := Eval cbv in TO_REG 0x110.
Definition CPU2_BASE_SEG5 : Z := Eval cbv in TO_REG 0x114.
Definition CPU2_CACHE_CTRL : Z := Eval cbv in TO_REG 0x118.
Definition CHIP_ID0 : Z := Eval cbv in TO_REG 0x150.
Definition CHIP_ID1 : Z := Eval cbv in TO_REG 0x154.
Definition UART_HPLL_CLK : Z := Eval cbv in TO_REG 0x160.
Definition PCIE_CTRL : Z := Eval cbv in TO_REG 0x180.
Definition BMC_MMIO_CTRL : Z := Eval cbv in TO_REG 0x184.
Definition RELOC_DECODE_BASE1 : Z := Eval cbv in TO_REG 0x188.
Definition RELOC_DECODE_BASE2 : Z := Eval cbv in TO_REG 0x18C.
Definition MAILBOX_DECODE_BASE : Z := Eval cbv in TO_REG 0x190.
Definition SRAM_DECODE_BASE1 : Z := Eval cbv in TO_REG 0x194.
Definition SRAM_DECODE_BASE2 : Z := Eval cbv in TO_REG 0x198.
Definition BMC_REV : Z := Eval cbv in TO_REG 0x19C.
Definition BMC_DEV_ID : Z := Eval cbv in TO_REG 0x1A4.

Definition AST2600_PROT_KEY : Z := Eval cbv in TO_REG 0x00.
Definition AST2600_SILICON_REV : Z := Eval cbv in TO_REG 0x04.
Definition AST2600_SILICON_REV2 : Z := Eval cbv in TO_REG 0x14.
Definition AST2600_SYS_RST_CTRL : Z := Eval cbv in TO_REG 0x40.
Definition AST2600_SYS_RST_CTRL_CLR : Z := Eval cbv in TO_REG 0x44.
Definition AST2600_SYS_RST_CTRL2 : Z := Eval cbv in TO_REG 0x50.
Definition AST2600_SYS_RST_CTRL2_CLR : Z := Eval cbv in TO_REG 0x54.
Definition AST2600_CLK_STOP_CTRL : Z := Eval cbv in TO_REG 0x80.
Definition AST2600_CLK_STOP_CTRL_CLR : Z := Eval cbv in TO_REG 0x84.
Definition AST2600_CLK_STOP_CTRL2 : Z := Eval cbv in TO_REG 0x90.
Definition AST2600_CLK_STOP_CTRL2_CLR : Z := Eval cbv in TO_REG 0x94.
Definition AST2600_SDRAM_HANDSHAKE : Z := Eval cbv in TO_REG 0x100.
Definition AST2600_HPLL_PARAM : Z := Eval cbv in TO_REG 0x200.
Definition AST2600_HPLL_EXT : Z := Eval cbv in TO_REG 0x204.
Definition AST2600_MPLL_EXT : Z := Eval cbv in TO_REG 0x224.
Definition AST2600_EPLL_EXT : Z := Eval cbv in TO_REG 0x244.
Definition AST2600_CLK_SEL : Z := Eval cbv in TO_REG 0x300.
Definition AST2600_CLK_SEL2 : Z := Eval cbv in TO_REG 0x304.
Definition AST2600_CLK_SEL3 : Z := Eval cbv in TO_REG 0x310.
Definition AST2600_HW_STRAP1 : Z := Eval cbv in TO_REG 0x500.
Definition AST2600_HW_STRAP1_CLR : Z := Eval cbv in TO_REG 0x504.
Definition AST2600_HW_STRAP1_PROT : Z := Eval cbv in TO_REG 0x508.
Definition AST2600_HW_STRAP2 : Z := Eval cbv in TO_REG 0x510.
Definition AST2600_HW_STRAP2_CLR : Z := Eval cbv in TO_REG 0x514.
Definition AST2600_HW_STRAP2_PROT : Z := Eval cbv in TO_REG 0x518.
Definition AST2600_RNG_CTRL : Z := Eval cbv in TO_REG 0x524.
Definition AST2600_RNG_DATA : Z := Eval cbv in TO_REG 0x540.
Definition AST2600_CHIP_ID0 : Z := Eval cbv in TO_REG 0x5B0.
Definition AST2600_CHIP_ID1 : Z := Eval cbv in TO_REG 0x5B4.

Definition AST2600_CLK : Z := Eval cbv in TO_REG 0x40.

(** [#define SCU_IO_REGION_SIZE 0x1000]: the size of the MMIO window that
    [aspeed_scu_realize] installs; the bus delivers offsets below it. *)
Definition SCU_IO_REGION_SIZE : Z := 0x1000.

(** ** The constants of [hw/misc/aspeed_scu.h]

    The header that [aspeed_scu.c] includes fixes the sizes of the register
    files, the unlock key and the bit fields of the PLL and strap
    registers.  The development is parametric in them; the laws are the
    constraints that the C file itself puts on them. *)

Class aspeed_scu_h : Type := {
  ASPEED_SCU_NR_REGS : Z;
  ASPEED_AST2600_SCU_NR_REGS : Z;
  ASPEED_SCU_PROT_KEY : Z;
  AST2600_A1_SILICON_REV : Z;
  SCU_HW_STRAP_CLK_25M_IN : Z;
  SCU_HW_STRAP_CLK_48M_IN : Z;
  SCU_AST2400_H_PLL_OFF : Z;
  SCU_AST2400_H_PLL_PROGRAMMED : Z;
  SCU_AST2400_H_PLL_BYPASS_EN : Z;
  SCU_H_PLL_OFF : Z;
  SCU_H_PLL_BYPASS_EN : Z;
  SCU_CLK_GET_PCLK_DIV : Z -> Z;
  SCU_AST2400_HW_STRAP_GET_H_PLL_CLK : Z -> Z;
  (* the designated initialisers of the reset tables fit the tables *)
  nr_regs_resets : BMC_DEV_ID < ASPEED_SCU_NR_REGS;
  nr_regs_ast2600_resets : AST2600_CHIP_ID1 < ASPEED_AST2600_SCU_NR_REGS;
  (* [memcpy(s->regs, asc->resets, asc->nr_regs * 4)] fits [s->regs],
     which is declared with ASPEED_AST2600_SCU_NR_REGS words *)
  nr_regs_le : ASPEED_SCU_NR_REGS <= ASPEED_AST2600_SCU_NR_REGS;
  prot_key_uint32 : is_uint32 ASPEED_SCU_PROT_KEY;
  a1_silicon_rev_uint32 : is_uint32 AST2600_A1_SILICON_REV;
  (* the PCLK divider field is unsigned and [+ 1] does not wrap *)
  pclk_div_range : forall x, 0 <= SCU_CLK_GET_PCLK_DIV x < 2 ^ 32 - 1;
  (* the strapped H-PLL selector indexes a row of four frequencies *)
  h_pll_clk_range : forall x, 0 <= SCU_AST2400_HW_STRAP_GET_H_PLL_CLK x < 4
}.

(** ** Device state *)

(** [AspeedSCUState]: the register file and the four qdev properties
    ([aspeed_scu_properties]). *)
Record AspeedSCUState : Type := mkAspeedSCUState {
  regs : list Z;
  silicon_rev : Z;
  hw_strap1 : Z;
  hw_strap2 : Z;
  hw_prot_key : Z
}.

(** [s->regs[i]].  The C code indexes with an [int] that it has checked
    against the register count from above only; the model is meant for
    indices [0 <= i], which is what every offset with {!offset_ok} yields. *)
Definition reg_get (s : AspeedSCUState) (i : Z) : Z :=
  default 0 (regs s !! Z.to_nat i).

(** [s->regs[i] = v] *)
Definition reg_set (s : AspeedSCUState) (i v : Z) : AspeedSCUState :=
  {| regs := <[Z.to_nat i := v]> (regs s);
     silicon_rev := silicon_rev s;
     hw_strap1 := hw_strap1 s;
     hw_strap2 := hw_strap2 s;
     hw_prot_key := hw_prot_key s |}.

Definition with_regs (s : AspeedSCUState) (r : list Z) : AspeedSCUState :=
  {| regs := r;
     silicon_rev := silicon_rev s;
     hw_strap1 := hw_strap1 s;
     hw_strap2 := hw_strap2 s;
     hw_prot_key := hw_prot_key s |}.

(** ** Diagnostics *)

Inductive guest_error : Type :=
| OutOfBoundsRead (offset : Z)
| OutOfBoundsWrite (offset : Z)
| ScuLocked
| ReadOnlyWrite (offset : Z)
| WriteOnlyRead (offset : Z).

Inductive log_event : Type :=
| LOG_GUEST_ERROR (e : guest_error)
| trace_aspeed_scu_write (offset size data : Z).

(** A [case A ... B:] range label. *)
Definition in_case_range (lo hi reg : Z) : bool := (lo <=? reg) && (reg <=? hi).

Section SCU.
Context {hdr : aspeed_scu_h}.

(** ** Read dispatch *)

Definition aspeed_scu_read (rnd : Z) (s : AspeedSCUState) (offset size : Z)
  : Z * AspeedSCUState * list log_event :=
  let reg := to_int (TO_REG offset) in
  if ASPEED_SCU_NR_REGS <=? reg then
    (0, s, [LOG_GUEST_ERROR (OutOfBoundsRead offset)])
  else
    let '(s1, lg) :=
      if reg =? RNG_DATA then (reg_set s RNG_DATA (wrap32 rnd), [])
      else if reg =? WAKEUP_EN then (s, [LOG_GUEST_ERROR (WriteOnlyRead offset)])
      else (s, []) in
    (reg_get s1 reg, s1, lg).

Definition aspeed_ast2600_scu_read (rnd : Z) (s : AspeedSCUState) (offset size : Z)
  : Z * AspeedSCUState * list log_event :=
  let reg := to_int (TO_REG offset) in
  if ASPEED_AST2600_SCU_NR_REGS <=? reg then
    (0, s, [LOG_GUEST_ERROR (OutOfBoundsRead offset)])
  else if (reg =? AST2600_HPLL_EXT) || (reg =? AST2600_EPLL_EXT)
          || (reg =? AST2600_MPLL_EXT) then
    (* PLLs are always "locked" *)
    (Z.lor (reg_get s reg) (BIT 31), s, [])
  else
    let s1 := if reg =? AST2600_RNG_DATA
              then reg_set s AST2600_RNG_DATA (wrap32 rnd) else s in
    (reg_get s1 reg, s1, []).

(** ** Write dispatch *)

(** The groups of [case] labels of the three [switch (reg)] statements. *)
Definition ast2400_ro_case (reg : Z) : bool :=
  (reg =? SILICON_REV) || (reg =? FREQ_CNTR_EVAL)
  || in_case_range VGA_SCRATCH1 VGA_SCRATCH8 reg
  || (reg =? RNG_DATA) || (reg =? FREE_CNTR4) || (reg =? FREE_CNTR4_EXT).

Definition ast2500_ro_case (reg : Z) : bool :=
  (reg =? FREQ_CNTR_EVAL)
  || in_case_range VGA_SCRATCH1 VGA_SCRATCH8 reg
  || (reg =? RNG_DATA) || (reg =? FREE_CNTR4) || (reg =? FREE_CNTR4_EXT)
  || (reg =? CHIP_ID0) || (reg =? CHIP_ID1).

Definition ast2600_strap_case (reg : Z) : bool :=
  (reg =? AST2600_HW_STRAP1) || (reg =? AST2600_HW_STRAP2).

Definition ast2600_w1s_case (reg : Z) : bool :=
  (reg =? AST2600_SYS_RST_CTRL) || (reg =? AST2600_SYS_RST_CTRL2)
  || (reg =? AST2600_CLK_STOP_CTRL) || (reg =? AST2600_CLK_STOP_CTRL2).

Definition ast2600_w1c_case (reg : Z) : bool :=
  (reg =? AST2600_SYS_RST_CTRL_CLR) || (reg =? AST2600_SYS_RST_CTRL2_CLR)
  || (reg =? AST2600_CLK_STOP_CTRL_CLR) || (reg =? AST2600_CLK_STOP_CTRL2_CLR)
  || (reg =? AST2600_HW_STRAP1_CLR) || (reg =? AST2600_HW_STRAP2_CLR).

Definition ast2600_ro_case (reg : Z) : bool :=
  (reg =? AST2600_RNG_DATA) || (reg =? AST2600_SILICON_REV)
  || (reg =? AST2600_SILICON_REV2) || (reg =? AST2600_CHIP_ID0)
  || (reg =? AST2600_CHIP_ID1).

(** The lock check of the two older generations: it only logs. *)
Definition scu_locked_diag (s : AspeedSCUState) (reg : Z) : list log_event :=
  if (PROT_KEY <? reg) && (reg <? CPU2_BASE_SEG1) && (reg_get s PROT_KEY =? 0)
  then [LOG_GUEST_ERROR ScuLocked] else [].

Definition aspeed_ast2400_scu_write (s : AspeedSCUState) (offset data size : Z)
  : AspeedSCUState * list log_event :=
  let reg := to_int (TO_REG offset) in
  if ASPEED_SCU_NR_REGS <=? reg then
    (s, [LOG_GUEST_ERROR (OutOfBoundsWrite offset)])
  else
    let lg := scu_locked_diag s reg ++ [trace_aspeed_scu_write offset size data] in
    if reg =? PROT_KEY then
      (reg_set s reg (if data =? ASPEED_SCU_PROT_KEY then 1 else 0), lg)
    else if ast2400_ro_case reg then
      (s, lg ++ [LOG_GUEST_ERROR (ReadOnlyWrite offset)])
    else
      (reg_set s reg (wrap32 data), lg).

Definition aspeed_ast2500_scu_write (s : AspeedSCUState) (offset data size : Z)
  : AspeedSCUState * list log_event :=
  let reg := to_int (TO_REG offset) in
  if ASPEED_SCU_NR_REGS <=? reg then
    (s, [LOG_GUEST_ERROR (OutOfBoundsWrite offset)])
  else
    (* the [return] after the lock diagnostic is commented out *)
    let lg := scu_locked_diag s reg ++ [trace_aspeed_scu_write offset size data] in
    if reg =? PROT_KEY then
      (reg_set s reg (if data =? ASPEED_SCU_PROT_KEY then 1 else 0), lg)
    else if reg =? HW_STRAP1 then
      (reg_set s HW_STRAP1 (wrap32 (Z.lor (reg_get s HW_STRAP1) data)), lg)
    else if reg =? SILICON_REV then
      (reg_set s HW_STRAP1
         (wrap32 (Z.land (reg_get s HW_STRAP1) (Z.lnot data mod 2 ^ 64))), lg)
    else if ast2500_ro_case reg then
      (s, lg ++ [LOG_GUEST_ERROR (ReadOnlyWrite offset)])
    else
      (reg_set s reg (wrap32 data), lg).

Definition aspeed_ast2600_scu_write (s : AspeedSCUState) (offset data64 size : Z)
  : AspeedSCUState * list log_event :=
  let reg := to_int (TO_REG offset) in
  (* Truncate here so bitwise operations below behave as expected *)
  let data := wrap32 data64 in
  if ASPEED_AST2600_SCU_NR_REGS <=? reg then
    (s, [LOG_GUEST_ERROR (OutOfBoundsWrite offset)])
  else
    let lg :=
      (if (PROT_KEY <? reg) && (reg_get s PROT_KEY =? 0)
       then [LOG_GUEST_ERROR ScuLocked] else [])
      ++ [trace_aspeed_scu_write offset size data] in
    let w1s := (reg_set s reg (Z.lor (reg_get s reg) data), lg) in
    if reg =? AST2600_PROT_KEY then
      (reg_set s reg (if data =? ASPEED_SCU_PROT_KEY then 1 else 0), lg)
    else if ast2600_strap_case reg then
      if negb (reg_get s (reg + 2) =? 0) then (s, lg)
      else (* fall through *) w1s
    else if ast2600_w1s_case reg then
      (* W1S (Write 1 to set) registers *)
      w1s
    else if ast2600_w1c_case reg then
      (* W1C (Write 1 to clear) registers are offset by one address from
         the data register *)
      (reg_set s (reg - 1) (Z.land (reg_get s (reg - 1)) (not32 data)), lg)
    else if ast2600_ro_case reg then
      (s, lg ++ [LOG_GUEST_ERROR (ReadOnlyWrite offset)])
    else
      (reg_set s reg data, lg).

(** ** H-PLL and APB frequency *)

Definition aspeed_scu_get_clkin (s : AspeedSCUState) : Z :=
  if negb (Z.land (hw_strap1 s) SCU_HW_STRAP_CLK_25M_IN =? 0) then 25000000
  else if negb (Z.land (hw_strap1 s) SCU_HW_STRAP_CLK_48M_IN =? 0) then 48000000
  else 24000000.

(** Strapped frequencies for the AST2400 in MHz. They depend on the
    clkin frequency. *)
Definition hpll_ast2400_freqs : list (list Z) :=
  [ [384; 360; 336; 408];   (* 24MHz or 48MHz *)
    [400; 375; 350; 425] ]. (* 25MHz *)

Definition aspeed_2400_scu_calc_hpll (s : AspeedSCUState) (hpll_reg : Z) : Z :=
  let clkin := aspeed_scu_get_clkin s in
  if negb (Z.land hpll_reg SCU_AST2400_H_PLL_OFF =? 0) then 0
  else if negb (Z.land hpll_reg SCU_AST2400_H_PLL_PROGRAMMED =? 0) then
    let multiplier :=
      if Z.land hpll_reg SCU_AST2400_H_PLL_BYPASS_EN =? 0 then
        let n := Z.land (Z.shiftr hpll_reg 5) 0x3f in
        let od := Z.land (Z.shiftr hpll_reg 4) 0x1 in
        let d := Z.land hpll_reg 0xf in
        wrap32 ((2 - od) * ((n + 2) / (d + 1)))
      else 1 in
    wrap32 (clkin * multiplier)
  else
    (* HW strapping *)
    let clk_25m_in : nat :=
      if negb (Z.land (hw_strap1 s) SCU_HW_STRAP_CLK_25M_IN =? 0)
      then 1%nat else 0%nat in
    let freq_select := SCU_AST2400_HW_STRAP_GET_H_PLL_CLK (hw_strap1 s) mod 2 ^ 8 in
    wrap32 (nth (Z.to_nat freq_select) (nth clk_25m_in hpll_ast2400_freqs []) 0
            * 1000000).

Definition aspeed_2500_scu_calc_hpll (s : AspeedSCUState) (hpll_reg : Z) : Z :=
  let clkin := aspeed_scu_get_clkin s in
  if negb (Z.land hpll_reg SCU_H_PLL_OFF =? 0) then 0
  else
    let multiplier :=
      if Z.land hpll_reg SCU_H_PLL_BYPASS_EN =? 0 then
        let p := Z.land (Z.shiftr hpll_reg 13) 0x3f in
        let m := Z.land (Z.shiftr hpll_reg 5) 0xff in
        let n := Z.land hpll_reg 0x1f in
        ((m + 1) / (n + 1)) / (p + 1)
      else 1 in
    wrap32 (clkin * multiplier).

(** ** Reset tables *)

Definition ast2400_a0_resets_init : list (Z * Z) :=
  [ (SYS_RST_CTRL,    0xFFCFFEDC);
    (CLK_SEL,         0xF3F40000);
    (CLK_STOP_CTRL,   0x19FC3E8B);
    (D2PLL_PARAM,     0x00026108);
    (MPLL_PARAM,      0x00030291);
    (HPLL_PARAM,      0x00000291);
    (MISC_CTRL1,      0x00000010);
    (PCI_CTRL1,       0x20001A03);
    (PCI_CTRL2,       0x20001A03);
    (PCI_CTRL3,       0x04000030);
    (SYS_RST_STATUS,  0x00000001);
    (SOC_SCRATCH1,    0x000000C0);
    (MISC_CTRL2,      0x00000023);
    (RNG_CTRL,        0x0000000E);
    (PINMUX_CTRL2,    0x0000F000);
    (PINMUX_CTRL3,    0x01000000);
    (PINMUX_CTRL4,    0x000000FF);
    (PINMUX_CTRL5,    0x0000A000);
    (WDT_RST_CTRL,    0x003FFFF3);
    (PINMUX_CTRL8,    0xFFFF0000);
    (PINMUX_CTRL9,    0x000FFFFF);
    (FREE_CNTR4,      0x000000FF);
    (FREE_CNTR4_EXT,  0x000000FF);
    (CPU2_BASE_SEG1,  0x80000000);
    (CPU2_BASE_SEG4,  0x1E600000);
    (CPU2_BASE_SEG5,  0xC0000000);
    (UART_HPLL_CLK,   0x00001903);
    (PCIE_CTRL,       0x0000007B);
    (BMC_DEV_ID,      0x00002402) ].

Definition ast2500_a1_resets_init : list (Z * Z) :=
  [ (SYS_RST_CTRL,    0xFFCFFEDC);
    (CLK_SEL,         0xF3F40000);
    (CLK_STOP_CTRL,   0x19FC3E8B);
    (D2PLL_PARAM,     0x00026108);
    (MPLL_PARAM,      0x00030291);
    (HPLL_PARAM,      0x93000400);
    (MISC_CTRL1,      0x00000010);
    (PCI_CTRL1,       0x20001A03);
    (PCI_CTRL2,       0x20001A03);
    (PCI_CTRL3,       0x04000030);
    (SYS_RST_STATUS,  0x00000001);
    (SOC_SCRATCH1,    0x000000C0);
    (MISC_CTRL2,      0x00000023);
    (RNG_CTRL,        0x0000000E);
    (PINMUX_CTRL2,    0x0000F000);
    (PINMUX_CTRL3,    0x03000000);
    (PINMUX_CTRL4,    0x00000000);
    (PINMUX_CTRL5,    0x0000A000);
    (WDT_RST_CTRL,    0x023FFFF3);
    (PINMUX_CTRL8,    0xFFFF0000);
    (PINMUX_CTRL9,    0x000FFFFF);
    (FREE_CNTR4,      0x000000FF);
    (FREE_CNTR4_EXT,  0x000000FF);
    (CPU2_BASE_SEG1,  0x80000000);
    (CPU2_BASE_SEG4,  0x1E600000);
    (CPU2_BASE_SEG5,  0xC0000000);
    (CHIP_ID0,        0x1234ABCD);
    (CHIP_ID1,        0x88884444);
    (UART_HPLL_CLK,   0x00001903);
    (PCIE_CTRL,       0x0000007B);
    (BMC_DEV_ID,      0x00002402) ].

Definition ast2600_a1_resets_init : list (Z * Z) :=
  [ (AST2600_SYS_RST_CTRL,     0xF7C3FED8);
    (AST2600_SYS_RST_CTRL2,    0xFFFFFFFC);
    (AST2600_CLK_STOP_CTRL,    0xFFFF7F8A);
    (AST2600_CLK_STOP_CTRL2,   0xFFF0FFF0);
    (AST2600_SDRAM_HANDSHAKE,  0x00000000);
    (AST2600_HPLL_PARAM,       0x1000405F);
    (AST2600_CHIP_ID0,         0x1234ABCD);
    (AST2600_CHIP_ID1,         0x88884444) ].

(** A C array of [n] words with designated initialisers
    [[i] = v]: zero everywhere else, a later designator wins. *)
Definition designated_init (n : Z) (init : list (Z * Z)) : list Z :=
  foldl (fun a p => <[Z.to_nat (fst p) := snd p]> a)
        (replicate (Z.to_nat n) 0) init.

Definition ast2400_a0_resets : list Z :=
  designated_init ASPEED_SCU_NR_REGS ast2400_a0_resets_init.
Definition ast2500_a1_resets : list Z :=
  designated_init ASPEED_SCU_NR_REGS ast2500_a1_resets_init.
Definition ast2600_a1_resets : list Z :=
  designated_init ASPEED_AST2600_SCU_NR_REGS ast2600_a1_resets_init.

(** ** The class of a generation *)

Record MemoryRegionOps : Type := {
  mr_read : Z -> AspeedSCUState -> Z -> Z -> Z * AspeedSCUState * list log_event;
  mr_write : AspeedSCUState -> Z -> Z -> Z -> AspeedSCUState * list log_event;
  min_access_size : Z;
  max_access_size : Z
}.

Record AspeedSCUClass : Type := {
  resets : list Z;
  calc_hpll : AspeedSCUState -> Z -> Z;
  apb_divider : Z;
  nr_regs : Z;
  ops : MemoryRegionOps
}.

Definition aspeed_ast2400_scu_ops : MemoryRegionOps :=
  {| mr_read := aspeed_scu_read;
     mr_write := aspeed_ast2400_scu_write;
     min_access_size := 1;
     max_access_size := 4 |}.

Definition aspeed_ast2500_scu_ops : MemoryRegionOps :=
  {| mr_read := aspeed_scu_read;
     mr_write := aspeed_ast2500_scu_write;
     min_access_size := 4;
     max_access_size := 4 |}.

Definition aspeed_ast2600_scu_ops : MemoryRegionOps :=
  {| mr_read := aspeed_ast2600_scu_read;
     mr_write := aspeed_ast2600_scu_write;
     min_access_size := 4;
     max_access_size := 4 |}.

(** [memcpy(dst, src, n * 4)] on arrays of words. *)
Definition memcpy_words (dst src : list Z) (n : Z) : list Z :=
  take (Z.to_nat n) src ++ drop (Z.to_nat n) dst.

Definition aspeed_scu_reset (asc : AspeedSCUClass) (s : AspeedSCUState)
  : AspeedSCUState :=
  let s := with_regs s (memcpy_words (regs s) (resets asc) (nr_regs asc)) in
  let s := reg_set s SILICON_REV (silicon_rev s) in
  let s := reg_set s HW_STRAP1 (hw_strap1 s) in
  let s := reg_set s HW_STRAP2 (hw_strap2 s) in
  reg_set s PROT_KEY (hw_prot_key s).

Definition aspeed_ast2600_scu_reset (asc : AspeedSCUClass) (s : AspeedSCUState)
  : AspeedSCUState :=
  let s := with_regs s (memcpy_words (regs s) (resets asc) (nr_regs asc)) in
  (* A0 reports A0 in _REV, but subsequent revisions report A1 regardless
     of actual revision. *)
  let s := reg_set s AST2600_SILICON_REV AST2600_A1_SILICON_REV in
  let s := reg_set s AST2600_SILICON_REV2 (silicon_rev s) in
  let s := reg_set s AST2600_HW_STRAP1 (hw_strap1 s) in
  let s := reg_set s AST2600_HW_STRAP2 (hw_strap2 s) in
  reg_set s PROT_KEY (hw_prot_key s).

Definition aspeed_scu_get_apb_freq (asc : AspeedSCUClass) (s : AspeedSCUState) : Z :=
  let hpll := calc_hpll asc s (reg_get s HPLL_PARAM) in
  hpll / wrap32 (SCU_CLK_GET_PCLK_DIV (reg_get s CLK_SEL) + 1) / apb_divider asc.

(** The three concrete types: what [aspeed_2400_scu_class_init],
    [aspeed_2500_scu_class_init] and [aspeed_2600_scu_class_init] put in
    the class, and the [dc->reset] handler in force. *)
Record scu_type : Type := {
  asc : AspeedSCUClass;
  dc_reset : AspeedSCUClass -> AspeedSCUState -> AspeedSCUState
}.

Definition aspeed_2400_scu_info : scu_type :=
  {| asc := {| resets := ast2400_a0_resets;
               calc_hpll := aspeed_2400_scu_calc_hpll;
               apb_divider := 2;
               nr_regs := ASPEED_SCU_NR_REGS;
               ops := aspeed_ast2400_scu_ops |};
     dc_reset := aspeed_scu_reset |}.

Definition aspeed_2500_scu_info : scu_type :=
  {| asc := {| resets := ast2500_a1_resets;
               calc_hpll := aspeed_2500_scu_calc_hpll;
               apb_divider := 4;
               nr_regs := ASPEED_SCU_NR_REGS;
               ops := aspeed_ast2500_scu_ops |};
     dc_reset := aspeed_scu_reset |}.

Definition aspeed_2600_scu_info : scu_type :=
  {| asc := {| resets := ast2600_a1_resets;
               calc_hpll := aspeed_2500_scu_calc_hpll; (* No change since AST2500 *)
               apb_divider := 4;
               nr_regs := ASPEED_AST2600_SCU_NR_REGS;
               ops := aspeed_ast2600_scu_ops |};
     dc_reset := aspeed_ast2600_scu_reset |}.

Inductive revision : Type := AST2400 | AST2500 | AST2600.

Definition scu_info (rev : revision) : scu_type :=
  match rev with
  | AST2400 => aspeed_2400_scu_info
  | AST2500 => aspeed_2500_scu_info
  | AST2600 => aspeed_2600_scu_info
  end.

(** The device operations of a revision, as the rest of the machine sees
    them. *)
Definition scu_reset (rev : revision) (s : AspeedSCUState) : AspeedSCUState :=
  dc_reset (scu_info rev) (asc (scu_info rev)) s.

Definition scu_read (rev : revision) (rnd : Z) (s : AspeedSCUState) (offset size : Z)
  : Z * AspeedSCUState * list log_event :=
  mr_read (ops (asc (scu_info rev))) rnd s offset size.

Definition scu_write (rev : revision) (s : AspeedSCUState) (offset data size : Z)
  : AspeedSCUState * list log_event :=
  mr_write (ops (asc (scu_info rev))) s offset data size.

Definition scu_nr_regs (rev : revision) : Z := nr_regs (asc (scu_info rev)).

Definition scu_get_apb_freq (rev : revision) (s : AspeedSCUState) : Z :=
  aspeed_scu_get_apb_freq (asc (scu_info rev)) s.

End SCU.

(** ** Well-formed states and the accesses the bus delivers *)

Section Reachability.
Context {hdr : aspeed_scu_h}.

(** [uint32_t regs[ASPEED_AST2600_SCU_NR_REGS]] and four [uint32_t]
    properties. *)
Definition scu_state_ok (s : AspeedSCUState) : Prop :=
  length (regs s) = Z.to_nat ASPEED_AST2600_SCU_NR_REGS
  /\ Forall is_uint32 (regs s)
  /\ is_uint32 (silicon_rev s) /\ is_uint32 (hw_strap1 s)
  /\ is_uint32 (hw_strap2 s) /\ is_uint32 (hw_prot_key s).

(** Executable form of {!scu_state_ok}. *)
Definition is_uint32b (x : Z) : bool := (0 <=? x) && (x <? 2 ^ 32).

Definition scu_state_okb (s : AspeedSCUState) : bool :=
  (Z.of_nat (length (regs s)) =? ASPEED_AST2600_SCU_NR_REGS)
  && forallb is_uint32b (regs s)
  && is_uint32b (silicon_rev s) && is_uint32b (hw_strap1 s)
  && is_uint32b (hw_strap2 s) && is_uint32b (hw_prot_key s).

(** The word index of [offset] is representable in [int reg].  Every
    offset inside the SCU_IO_REGION_SIZE window is of this kind. *)
Definition offset_ok (offset : Z) : Prop :=
  0 <= offset /\ TO_REG offset <= INT_MAX.

(** The instance as QOM hands it out (zero-filled), with the properties
    set by the board. *)
Definition constructed (s : AspeedSCUState) : Prop :=
  regs s = replicate (Z.to_nat ASPEED_AST2600_SCU_NR_REGS) 0
  /\ is_uint32 (silicon_rev s) /\ is_uint32 (hw_strap1 s)
  /\ is_uint32 (hw_strap2 s) /\ is_uint32 (hw_prot_key s).

Inductive scu_step (rev : revision) : AspeedSCUState -> AspeedSCUState -> Prop :=
| step_reset s :
    scu_step rev s (scu_reset rev s)
| step_read s rnd offset size :
    offset_ok offset ->
    scu_step rev s (snd (fst (scu_read rev rnd s offset size)))
| step_write s offset data size :
    offset_ok offset ->
    scu_step rev s (fst (scu_write rev s offset data size)).

Inductive reachable (rev : revision) : AspeedSCUState -> Prop :=
| reach_constructed s : constructed s -> reachable rev s
| reach_step s s' : reachable rev s -> scu_step rev s s' -> reachable rev s'.

(** ** The reset table as the sparse mapping it is written as *)

(** [reset_values[index]], 0 when the index has no designator. *)
Fixpoint designator_value (d : Z) (init : list (Z * Z)) (i : Z) : Z :=
  match init with
  | [] => d
  | (j, v) :: init' => if j =? i then v else designator_value d init' i
  end.

Definition reset_value (init : list (Z * Z)) (i : Z) : Z :=
  designator_value 0 init i.

(** Executable check of a table: every designator is an index in
    [0 .. bound] and carries a 32-bit value. *)
Definition designators_okb (bound : Z) (init : list (Z * Z)) : bool :=
  forallb (fun p => (0 <=? fst p) && (fst p <=? bound) && is_uint32b (snd p)) init.

Definition reset_table (rev : revision) : list (Z * Z) :=
  match rev with
  | AST2400 => ast2400_a0_resets_init
  | AST2500 => ast2500_a1_resets_init
  | AST2600 => ast2600_a1_resets_init
  end.

(** What a register holds right after reset: the seeded fields, else the
    table. *)
Definition expected_after_reset (rev : revision) (s : AspeedSCUState) (i : Z) : Z :=
  match rev with
  | AST2400 | AST2500 =>
      if i =? PROT_KEY then hw_prot_key s
      else if i =? SILICON_REV then silicon_rev s
      else if i =? HW_STRAP1 then hw_strap1 s
      else if i =? HW_STRAP2 then hw_strap2 s
      else reset_value (reset_table rev) i
  | AST2600 =>
      if i =? PROT_KEY then hw_prot_key s
      else if i =? AST2600_SILICON_REV then AST2600_A1_SILICON_REV
      else if i =? AST2600_SILICON_REV2 then silicon_rev s
      else if i =? AST2600_HW_STRAP1 then hw_strap1 s
      else if i =? AST2600_HW_STRAP2 then hw_strap2 s
      else reset_value (reset_table rev) i
  end.

(** A register of the older generations whose [switch] falls through to
    the plain store [s->regs[reg] = data]. *)
Definition plain_register (rev : revision) (reg : Z) : bool :=
  match rev with
  | AST2400 => negb (ast2400_ro_case reg)
  | AST2500 =>
      negb ((reg =? HW_STRAP1) || (reg =? SILICON_REV) || ast2500_ro_case reg)
  | AST2600 =>
      negb (ast2600_strap_case reg || ast2600_w1s_case reg
            || ast2600_w1c_case reg || ast2600_ro_case reg)
  end.

(** The "off" and "bypass" bits of the H-PLL parameter register, per
    formula variant. *)
Definition h_pll_off (rev : revision) : Z :=
  match rev with
  | AST2400 => SCU_AST2400_H_PLL_OFF
  | AST2500 | AST2600 => SCU_H_PLL_OFF
  end.

Definition h_pll_bypass_en (rev : revision) : Z :=
  match rev with
  | AST2400 => SCU_AST2400_H_PLL_BYPASS_EN
  | AST2500 | AST2600 => SCU_H_PLL_BYPASS_EN
  end.

(** The two AST2600 strap registers, each with its clear register and
    its protection register. *)
Definition ast2600_strap_regs : list (Z * Z * Z) :=
  [ (AST2600_HW_STRAP1, AST2600_HW_STRAP1_CLR, AST2600_HW_STRAP1_PROT);
    (AST2600_HW_STRAP2, AST2600_HW_STRAP2_CLR, AST2600_HW_STRAP2_PROT) ].

End Reachability.

(** ** One set of header values

    The values QEMU's [include/hw/misc/aspeed_scu.h] gives the constants.
    The properties below hold for every header that satisfies the laws of
    [aspeed_scu_h]; this instance shows that the laws can be met and
    serves to run the model on concrete inputs. *)

Lemma land_7_range (x : Z) : 0 <= Z.land x 7 < 2 ^ 32 - 1.
Proof.
  change 7 with (Z.ones 3). rewrite Z.land_ones by lia.
  pose proof (Z.mod_pos_bound x (2 ^ 3)). lia.
Qed.

Lemma land_3_range (x : Z) : 0 <= Z.land x 3 < 4.
Proof.
  change 3 with (Z.ones 2). rewrite Z.land_ones by lia.
  pose proof (Z.mod_pos_bound x (2 ^ 2)). lia.
Qed.

Definition qemu_aspeed_scu_h : aspeed_scu_h :=
  {| ASPEED_SCU_NR_REGS := Z.shiftr 0x1A8 2;
     ASPEED_AST2600_SCU_NR_REGS := Z.shiftr 0xE20 2;
     ASPEED_SCU_PROT_KEY := 0x1688A8A8;
     AST2600_A1_SILICON_REV := 0x05010303;
     SCU_HW_STRAP_CLK_25M_IN := Z.shiftl 0x1 23;
     SCU_HW_STRAP_CLK_48M_IN := Z.shiftl 0x1 18;
     SCU_AST2400_H_PLL_OFF := Z.shiftl 0x1 16;
     SCU_AST2400_H_PLL_PROGRAMMED := Z.shiftl 0x1 18;
     SCU_AST2400_H_PLL_BYPASS_EN := Z.shiftl 0x1 17;
     SCU_H_PLL_OFF := Z.shiftl 0x1 19;
     SCU_H_PLL_BYPASS_EN := Z.shiftl 0x1 20;
     SCU_CLK_GET_PCLK_DIV := fun x => Z.land (Z.shiftr x 23) 0x7;
     SCU_AST2400_HW_STRAP_GET_H_PLL_CLK := fun x => Z.land (Z.shiftr x 8) 0x3;
     nr_regs_resets := eq_refl;
     nr_regs_ast2600_resets := eq_refl;
     nr_regs_le := ltac:(discriminate);
     prot_key_uint32 := ltac:(split; [discriminate | reflexivity]);
     a1_silicon_rev_uint32 := ltac:(split; [discriminate | reflexivity]);
     pclk_div_range := fun x => land_7_range (Z.shiftr x 23);
     h_pll_clk_range := fun x => land_3_range (Z.shiftr x 8) |}.


(** A freshly constructed device under these header values: zero-filled
    register file, the given silicon revision and initial key state, both
    strap words 0. *)
Definition power_on (rev_id key : Z) : AspeedSCUState :=
  {| regs := replicate (Z.to_nat (@ASPEED_AST2600_SCU_NR_REGS qemu_aspeed_scu_h)) 0;
     silicon_rev := rev_id;
     hw_strap1 := 0;
     hw_strap2 := 0;
     hw_prot_key := key |}.

(** ** Further vocabulary: registers by role, runs, realize *)

Section Roles.
Context {hdr : aspeed_scu_h}.

(** The random-data register of a revision. *)
Definition rng_data_reg (rev : revision) : Z :=
  match rev with
  | AST2400 | AST2500 => RNG_DATA
  | AST2600 => AST2600_RNG_DATA
  end.

(** The [case] labels of [aspeed_ast2600_scu_read] that force the PLL lock
    bit. *)
Definition ast2600_pll_ext_case (reg : Z) : bool :=
  (reg =? AST2600_HPLL_EXT) || (reg =? AST2600_EPLL_EXT)
  || (reg =? AST2600_MPLL_EXT).

(** The read-only [case] group of the write path of a revision. *)
Definition read_only_register (rev : revision) (reg : Z) : bool :=
  match rev with
  | AST2400 => ast2400_ro_case reg
  | AST2500 => ast2500_ro_case reg
  | AST2600 => ast2600_ro_case reg
  end.

(** The one slot of [s->regs] that the write path of a revision assigns
    for a write addressed to [reg]: [reg] itself, except for the AST2500
    SILICON_REV alias ([s->regs[HW_STRAP1] &= ~data]) and the AST2600 W1C
    registers ([s->regs[reg - 1] &= ~data]). *)
Definition write_target (rev : revision) (reg : Z) : Z :=
  match rev with
  | AST2400 => reg
  | AST2500 => if reg =? SILICON_REV then HW_STRAP1 else reg
  | AST2600 => if ast2600_w1c_case reg then reg - 1 else reg
  end.

(** Any number of device operations, one after the other. *)
Inductive scu_run (rev : revision) : AspeedSCUState -> AspeedSCUState -> Prop :=
| run_nil s : scu_run rev s s
| run_step s s' s'' : scu_run rev s s' -> scu_step rev s' s'' -> scu_run rev s s''.

End Roles.

(** *** Silicon revisions and [aspeed_scu_realize] *)

(** The silicon-revision identifiers of [hw/misc/aspeed_scu.h] other than
    AST2600_A1_SILICON_REV. *)
Class aspeed_silicon_revs_h : Type := {
  AST2400_A0_SILICON_REV : Z;
  AST2400_A1_SILICON_REV : Z;
  AST2500_A0_SILICON_REV : Z;
  AST2500_A1_SILICON_REV : Z;
  AST2600_A0_SILICON_REV : Z
}.

Inductive Error : Type :=
| UnknownSiliconRevision (silicon_rev : Z).

(** What [memory_region_init_io] records of the window. *)
Record MemoryRegion : Type := {
  mr_ops : MemoryRegionOps;
  mr_size : Z
}.

Section Realize.
Context {hdr : aspeed_scu_h} {revs : aspeed_silicon_revs_h}.

Definition aspeed_silicon_revs : list Z :=
  [ AST2400_A0_SILICON_REV;
    AST2400_A1_SILICON_REV;
    AST2500_A0_SILICON_REV;
    AST2500_A1_SILICON_REV;
    AST2600_A0_SILICON_REV;
    AST2600_A1_SILICON_REV ].

(** The [for] loop of [is_supported_silicon_rev] over the elements from
    index [i] on. *)
Fixpoint silicon_rev_loop (rest : list Z) (silicon_rev : Z) : bool :=
  match rest with
  | [] => false
  | r :: rest' =>
      if silicon_rev =? r then true else silicon_rev_loop rest' silicon_rev
  end.

Definition is_supported_silicon_rev (silicon_rev : Z) : bool :=
  silicon_rev_loop aspeed_silicon_revs silicon_rev.

(** [aspeed_scu_realize]: the error set through [errp], or the MMIO
    window handed to [sysbus_init_mmio]. *)
Definition aspeed_scu_realize (asc : AspeedSCUClass) (s : AspeedSCUState)
  : Error + MemoryRegion :=
  if negb (is_supported_silicon_rev (silicon_rev s)) then
    inl (UnknownSiliconRevision (silicon_rev s))
  else
    inr {| mr_ops := ops asc; mr_size := SCU_IO_REGION_SIZE |}.

(** [aspeed_soc_ast2600_class_init]: [sc->silicon_rev] and
    [sc->num_cpus]. *)
Definition aspeed_soc_ast2600_silicon_rev : Z := AST2600_A1_SILICON_REV.
Definition aspeed_soc_ast2600_num_cpus : Z := 2.

(** The SCU child as [aspeed_soc_ast2600_init] sets it up: the
    "silicon-rev" property is [sc->silicon_rev]; "hw-strap1", "hw-strap2"
    and "hw-prot-key" are aliased to the SoC and set by the board. *)
Definition aspeed_soc_ast2600_scu (strap1 strap2 prot_key : Z) : AspeedSCUState :=
  {| regs := replicate (Z.to_nat ASPEED_AST2600_SCU_NR_REGS) 0;
     silicon_rev := aspeed_soc_ast2600_silicon_rev;
     hw_strap1 := strap1;
     hw_strap2 := strap2;
     hw_prot_key := prot_key |}.

End Realize.

(** *** [aspeed_calc_affinity] *)

(** [ARM_AFF1_SHIFT] of [target/arm/cpu.h]; [0xf << ARM_AFF1_SHIFT] is an
    [int]. *)
Class arm_cpu_h : Type := {
  ARM_AFF1_SHIFT : Z;
  aff1_shift_range : 0 <= ARM_AFF1_SHIFT <= 27
}.

(** [(0xf << ARM_AFF1_SHIFT) | cpu], returned as [uint64_t]. *)
Definition aspeed_calc_affinity {cpu_h : arm_cpu_h} (cpu : Z) : Z :=
  to_int (Z.lor (Z.shiftl 0xf ARM_AFF1_SHIFT) cpu) mod 2 ^ 64.

(** The values of the two headers in QEMU. *)
Definition qemu_aspeed_silicon_revs_h : aspeed_silicon_revs_h :=
  {| AST2400_A0_SILICON_REV := 0x02000303;
     AST2400_A1_SILICON_REV := 0x02010303;
     AST2500_A0_SILICON_REV := 0x04000303;
     AST2500_A1_SILICON_REV := 0x04010303;
     AST2600_A0_SILICON_REV := 0x05000303 |}.

Definition qemu_arm_cpu_h : arm_cpu_h :=
  {| ARM_AFF1_SHIFT := 8;
     aff1_shift_range := ltac:(split; discriminate) |}.

Arguments wrap32 : simpl never.
Arguments not32 : simpl never.
Arguments to_int : simpl never.
Arguments TO_REG : simpl never.

(** * Properties *)

(** ** Machine integers and bit operations *)

Lemma wrap32_range (x : Z) : is_uint32 (wrap32 x).
Proof. unfold is_uint32, wrap32. apply Z.mod_pos_bound. lia. Qed.

Lemma wrap32_small (x : Z) : is_uint32 x -> wrap32 x = x.
Proof. unfold is_uint32, wrap32. intros H. apply Z.mod_small. lia. Qed.

Lemma is_uint32b_spec (x : Z) : is_uint32b x = true <-> is_uint32 x.
Proof. unfold is_uint32b, is_uint32. rewrite andb_true_iff. lia. Qed.

Lemma uint32_testbit_high (x n : Z) : is_uint32 x -> 32 <= n -> Z.testbit x n = false.
Proof.
  intros [H0 H1] Hn. destruct (Z.eq_dec x 0) as [->|Hx].
  - apply Z.testbit_0_l.
  - apply Z.bits_above_log2; [lia|].
    assert (Z.log2 x < 32) by (apply Z.log2_lt_pow2; lia). lia.
Qed.

Lemma uint32_of_bits (x : Z) :
  0 <= x -> (forall n, 32 <= n -> Z.testbit x n = false) -> is_uint32 x.
Proof.
  intros H0 Hb. split; [lia|].
  destruct (Z.eq_dec x 0) as [->|Hx]; [reflexivity|].
  apply Z.log2_lt_pow2; [lia|].
  destruct (Z_lt_le_dec (Z.log2 x) 32) as [|Hge]; [assumption|].
  specialize (Hb (Z.log2 x) Hge).
  rewrite Z.bit_log2 in Hb by lia. discriminate.
Qed.

Lemma wrap32_testbit (x n : Z) :
  Z.testbit (wrap32 x) n = if n <? 32 then Z.testbit x n else false.
Proof.
  unfold wrap32. destruct (Z.ltb_spec n 32).
  - destruct (Z_lt_le_dec n 0).
    + rewrite !Z.testbit_neg_r by lia. reflexivity.
    + apply Z.mod_pow2_bits_low. lia.
  - apply Z.mod_pow2_bits_high. lia.
Qed.

Lemma lor_uint32 (x y : Z) : is_uint32 x -> is_uint32 y -> is_uint32 (Z.lor x y).
Proof.
  intros Hx Hy. apply uint32_of_bits.
  - apply Z.lor_nonneg. unfold is_uint32 in *. lia.
  - intros n Hn. rewrite Z.lor_spec, !uint32_testbit_high by assumption. reflexivity.
Qed.

Lemma land_uint32_l (x y : Z) : is_uint32 x -> is_uint32 (Z.land x y).
Proof.
  intros Hx. apply uint32_of_bits.
  - apply Z.land_nonneg. unfold is_uint32 in *. lia.
  - intros n Hn. rewrite Z.land_spec, uint32_testbit_high by assumption. reflexivity.
Qed.

(** [old & ~data] on 32 bits is [old & ~v] whatever the upper bits of [v]. *)
Lemma land_not32 (old v : Z) :
  is_uint32 old -> Z.land old (not32 (wrap32 v)) = Z.land old (Z.lnot v).
Proof.
  intros Ho. apply Z.bits_inj'. intros n Hn.
  rewrite !Z.land_spec. unfold not32. rewrite wrap32_testbit.
  destruct (Z.ltb_spec n 32).
  - rewrite !Z.lnot_spec by lia. rewrite wrap32_testbit.
    destruct (Z.ltb_spec n 32); [reflexivity|lia].
  - rewrite uint32_testbit_high by (assumption || lia). reflexivity.
Qed.

(** The same for the 64-bit complement of the AST2500 path. *)
Lemma land_not64 (old v : Z) :
  is_uint32 old ->
  wrap32 (Z.land old (Z.lnot v mod 2 ^ 64)) = Z.land old (Z.lnot v).
Proof.
  intros Ho. apply Z.bits_inj'. intros n Hn.
  rewrite wrap32_testbit, !Z.land_spec.
  destruct (Z.ltb_spec n 32).
  - rewrite Z.mod_pow2_bits_low by lia. reflexivity.
  - rewrite uint32_testbit_high by (assumption || lia). reflexivity.
Qed.

Lemma lor_wrap32 (old v : Z) :
  is_uint32 old -> wrap32 (Z.lor old v) = Z.lor old (wrap32 v).
Proof.
  intros Ho. apply Z.bits_inj'. intros n Hn.
  rewrite wrap32_testbit, !Z.lor_spec, wrap32_testbit.
  destruct (Z.ltb_spec n 32); [reflexivity|].
  rewrite uint32_testbit_high by (assumption || lia). reflexivity.
Qed.

(** ** Offsets and register indices *)

Lemma TO_REG_div (offset : Z) : TO_REG offset = offset / 4.
Proof. unfold TO_REG. rewrite Z.shiftr_div_pow2 by lia. reflexivity. Qed.

Section OffsetFacts.
Context {hdr : aspeed_scu_h}.

Lemma offset_ok_reg (offset : Z) :
  offset_ok offset ->
  to_int (TO_REG offset) = TO_REG offset /\ 0 <= TO_REG offset.
Proof.
  intros [H0 H1]. unfold INT_MAX in H1.
  assert (0 <= TO_REG offset) by (rewrite TO_REG_div; apply Z.div_pos; lia).
  split; [|assumption].
  unfold to_int. rewrite Z.mod_small by lia. lia.
Qed.

Lemma window_offset_ok (offset : Z) :
  0 <= offset < SCU_IO_REGION_SIZE -> offset_ok offset.
Proof.
  unfold SCU_IO_REGION_SIZE, offset_ok, INT_MAX. intros H. split; [lia|].
  rewrite TO_REG_div.
  assert (offset / 4 <= offset) by (apply Z.div_le_upper_bound; lia). lia.
Qed.

End OffsetFacts.

(** ** The register file *)

Lemma regs_reg_set (s : AspeedSCUState) (i v : Z) :
  regs (reg_set s i v) = <[Z.to_nat i := v]> (regs s).
Proof. reflexivity. Qed.

Lemma reg_get_set_eq (s : AspeedSCUState) (i v : Z) :
  (Z.to_nat i < length (regs s))%nat -> reg_get (reg_set s i v) i = v.
Proof.
  intros H. unfold reg_get. rewrite regs_reg_set.
  rewrite list_lookup_insert_eq by assumption. reflexivity.
Qed.

Lemma reg_get_set_ne (s : AspeedSCUState) (i j v : Z) :
  0 <= i -> 0 <= j -> i <> j -> reg_get (reg_set s i v) j = reg_get s j.
Proof.
  intros Hi Hj Hne. unfold reg_get. rewrite regs_reg_set.
  rewrite list_lookup_insert_ne by lia. reflexivity.
Qed.

Lemma reg_get_uint32 (s : AspeedSCUState) (i : Z) :
  Forall is_uint32 (regs s) -> is_uint32 (reg_get s i).
Proof.
  intros H. unfold reg_get.
  destruct (regs s !! Z.to_nat i) as [x|] eqn:E; simpl.
  - exact (proj1 (Forall_lookup _ _) H _ _ E).
  - unfold is_uint32. lia.
Qed.

(** ** Access dispatch *)

Section Dispatch.
Context {hdr : aspeed_scu_h}.

Lemma nr_regs_bounds :
  105 < ASPEED_SCU_NR_REGS /\ 365 < ASPEED_AST2600_SCU_NR_REGS
  /\ ASPEED_SCU_NR_REGS <= ASPEED_AST2600_SCU_NR_REGS.
Proof.
  pose proof nr_regs_resets. pose proof nr_regs_ast2600_resets.
  pose proof nr_regs_le. unfold BMC_DEV_ID, AST2600_CHIP_ID1 in *. lia.
Qed.

Lemma scu_nr_regs_le (rev : revision) :
  105 < scu_nr_regs rev <= ASPEED_AST2600_SCU_NR_REGS.
Proof. pose proof nr_regs_bounds. destruct rev; unfold scu_nr_regs; simpl; lia. Qed.

(** A register below the register count of the revision is inside
    [s->regs]. *)
Lemma reg_in_file (s : AspeedSCUState) (i : Z) :
  scu_state_ok s -> 0 <= i < ASPEED_AST2600_SCU_NR_REGS ->
  (Z.to_nat i < length (regs s))%nat.
Proof. intros [Hl _] Hi. rewrite Hl. lia. Qed.

Lemma scu_state_okb_ok (s : AspeedSCUState) :
  scu_state_okb s = true -> scu_state_ok s.
Proof.
  unfold scu_state_okb, scu_state_ok. rewrite !andb_true_iff, !is_uint32b_spec.
  rewrite forallb_forall, Forall_forall, Z.eqb_eq.
  intros (((((Hl & Hr) & H1) & H2) & H3) & H4).
  repeat split; try (apply H1 || apply H2 || apply H3 || apply H4).
  - lia.
  - apply is_uint32b_spec, Hr, list_elem_of_In; assumption.
  - apply is_uint32b_spec, Hr, list_elem_of_In; assumption.
Qed.

(** C10. For every revision, an access whose word index [offset / 4] is
    at or beyond the register count of the revision is inert: the read
    returns 0, the write returns, both leave the whole state as it was and
    only log an out-of-bounds diagnostic; no error value reaches the
    caller. *)
Theorem out_of_bounds_access_inert
    (rev : revision) (rnd : Z) (s : AspeedSCUState) (offset size data : Z) :
  offset_ok offset ->
  scu_nr_regs rev <= offset / 4 ->
  scu_read rev rnd s offset size
    = (0, s, [LOG_GUEST_ERROR (OutOfBoundsRead offset)])
  /\ scu_write rev s offset data size
    = (s, [LOG_GUEST_ERROR (OutOfBoundsWrite offset)]).
Proof.
  intros Hok Hge. destruct (offset_ok_reg _ Hok) as [Hreg _].
  rewrite <- TO_REG_div in Hge.
  destruct rev; unfold scu_read, scu_write, scu_nr_regs in *; simpl in *;
    unfold aspeed_scu_read, aspeed_ast2600_scu_read, aspeed_ast2400_scu_write,
      aspeed_ast2500_scu_write, aspeed_ast2600_scu_write;
    rewrite Hreg; apply Z.leb_le in Hge; rewrite Hge; split; reflexivity.
Qed.

(** C4. For every revision, a write to the protection-key register stores
    1 when the written value is the unlock constant and 0 otherwise; the
    register file changes in that slot only, and a written value other
    than 0 or 1 is never what the register holds afterwards.  (The AST2600
    path first narrows the value to 32 bits, which is what a 4-byte access
    carries.) *)
Theorem prot_key_write_stores_flag
    (rev : revision) (s : AspeedSCUState) (offset v size : Z) :
  scu_state_ok s ->
  offset_ok offset ->
  TO_REG offset = PROT_KEY ->
  (rev = AST2600 -> is_uint32 v) ->
  let flag := if v =? ASPEED_SCU_PROT_KEY then 1 else 0 in
  let s' := fst (scu_write rev s offset v size) in
  reg_get s' PROT_KEY = flag
  /\ regs s' = <[Z.to_nat PROT_KEY := flag]> (regs s)
  /\ (forall i, 0 <= i -> i <> PROT_KEY -> reg_get s' i = reg_get s i)
  /\ (v <> 0 -> v <> 1 -> reg_get s' PROT_KEY <> v).
Proof.
  intros Hs Hok Hreg Hv flag s'.
  destruct (offset_ok_reg _ Hok) as [Hint _].
  pose proof nr_regs_bounds as (Hn1 & Hn2 & Hn3).
  assert (Hlen : (Z.to_nat PROT_KEY < length (regs s))%nat)
    by (apply reg_in_file; [assumption | unfold PROT_KEY; lia]).
  assert (Hs' : s' = reg_set s PROT_KEY flag).
  { subst s' flag.
    destruct rev; unfold scu_write; simpl;
      unfold aspeed_ast2400_scu_write, aspeed_ast2500_scu_write,
        aspeed_ast2600_scu_write;
      rewrite Hint, Hreg.
    - replace (ASPEED_SCU_NR_REGS <=? PROT_KEY) with false
        by (symmetry; apply Z.leb_gt; unfold PROT_KEY; lia).
      reflexivity.
    - replace (ASPEED_SCU_NR_REGS <=? PROT_KEY) with false
        by (symmetry; apply Z.leb_gt; unfold PROT_KEY; lia).
      reflexivity.
    - replace (ASPEED_AST2600_SCU_NR_REGS <=? PROT_KEY) with false
        by (symmetry; apply Z.leb_gt; unfold PROT_KEY; lia).
      rewrite (wrap32_small v) by (apply Hv; reflexivity).
      reflexivity. }
  rewrite Hs'. repeat split.
  - apply reg_get_set_eq; assumption.
  - intros i Hi Hne. apply reg_get_set_ne; [unfold PROT_KEY; lia | lia | congruence].
  - intros Hv0 Hv1. rewrite reg_get_set_eq by assumption.
    subst flag. destruct (v =? ASPEED_SCU_PROT_KEY); congruence.
Qed.

Lemma in_file_2400 (i : Z) : i <= 105 -> (ASPEED_SCU_NR_REGS <=? i) = false.
Proof. pose proof nr_regs_bounds. intros. apply Z.leb_gt. lia. Qed.

Lemma in_file_2600 (i : Z) : i <= 365 -> (ASPEED_AST2600_SCU_NR_REGS <=? i) = false.
Proof. pose proof nr_regs_bounds. intros. apply Z.leb_gt. lia. Qed.

Lemma reg_set_ok (s : AspeedSCUState) (i v : Z) :
  scu_state_ok s -> is_uint32 v -> scu_state_ok (reg_set s i v).
Proof.
  intros (Hl & Hr & Hp) Hv. unfold scu_state_ok. rewrite regs_reg_set.
  rewrite length_insert. split; [assumption|]. split; [|exact Hp].
  apply Forall_insert; assumption.
Qed.

Lemma state_ok_uint32 (s : AspeedSCUState) (i : Z) :
  scu_state_ok s -> is_uint32 (reg_get s i).
Proof. intros (_ & Hr & _). apply reg_get_uint32. assumption. Qed.

(** *** AST2600: W1S and W1C registers *)

Lemma ast2600_w1c_case_inv (reg : Z) :
  ast2600_w1c_case reg = true ->
  reg = AST2600_SYS_RST_CTRL_CLR \/ reg = AST2600_SYS_RST_CTRL2_CLR
  \/ reg = AST2600_CLK_STOP_CTRL_CLR \/ reg = AST2600_CLK_STOP_CTRL2_CLR
  \/ reg = AST2600_HW_STRAP1_CLR \/ reg = AST2600_HW_STRAP2_CLR.
Proof.
  unfold ast2600_w1c_case. rewrite !orb_true_iff, !Z.eqb_eq. tauto.
Qed.

Lemma ast2600_w1s_case_inv (reg : Z) :
  ast2600_w1s_case reg = true ->
  reg = AST2600_SYS_RST_CTRL \/ reg = AST2600_SYS_RST_CTRL2
  \/ reg = AST2600_CLK_STOP_CTRL \/ reg = AST2600_CLK_STOP_CTRL2.
Proof.
  unfold ast2600_w1s_case. rewrite !orb_true_iff, !Z.eqb_eq. tauto.
Qed.

Lemma ast2600_write_w1c (s : AspeedSCUState) (offset v size : Z) :
  offset_ok offset ->
  ast2600_w1c_case (TO_REG offset) = true ->
  fst (aspeed_ast2600_scu_write s offset v size)
  = reg_set s (TO_REG offset - 1)
      (Z.land (reg_get s (TO_REG offset - 1)) (not32 (wrap32 v))).
Proof.
  intros Hok Hc. destruct (offset_ok_reg _ Hok) as [Hint _].
  unfold aspeed_ast2600_scu_write. rewrite Hint.
  destruct (ast2600_w1c_case_inv _ Hc) as [H|[H|[H|[H|[H|H]]]]]; rewrite H;
    rewrite in_file_2600 by (vm_compute; discriminate); reflexivity.
Qed.

Lemma ast2600_write_w1s (s : AspeedSCUState) (offset v size : Z) :
  offset_ok offset ->
  ast2600_w1s_case (TO_REG offset) = true ->
  fst (aspeed_ast2600_scu_write s offset v size)
  = reg_set s (TO_REG offset) (Z.lor (reg_get s (TO_REG offset)) (wrap32 v)).
Proof.
  intros Hok Hc. destruct (offset_ok_reg _ Hok) as [Hint _].
  unfold aspeed_ast2600_scu_write. rewrite Hint.
  destruct (ast2600_w1s_case_inv _ Hc) as [H|[H|[H|H]]]; rewrite H;
    rewrite in_file_2600 by (vm_compute; discriminate); reflexivity.
Qed.

Lemma ast2600_read_plain (rnd : Z) (s : AspeedSCUState) (offset size : Z) :
  offset_ok offset ->
  ast2600_w1s_case (TO_REG offset) = true ->
  aspeed_ast2600_scu_read rnd s offset size = (reg_get s (TO_REG offset), s, []).
Proof.
  intros Hok Hc. destruct (offset_ok_reg _ Hok) as [Hint _].
  unfold aspeed_ast2600_scu_read. rewrite Hint.
  destruct (ast2600_w1s_case_inv _ Hc) as [H|[H|[H|H]]]; rewrite H;
    rewrite in_file_2600 by (vm_compute; discriminate); reflexivity.
Qed.

Lemma testbit_one (n : Z) : Z.testbit 1 n = (n =? 0).
Proof.
  destruct (Z_lt_le_dec n 0).
  - rewrite Z.testbit_neg_r by lia. symmetry. apply Z.eqb_neq. lia.
  - change 1 with (2 ^ 0). rewrite Z.pow2_bits_eqb by lia. apply Z.eqb_sym.
Qed.

(** C5. On the AST2600, a write of [v] to any W1C register clears the
    bits of [v] in the set register one word below (new = old & ~v), changes
    no other slot of the register file, and in particular not the slot of
    the clear register.  Setting bit 0 of AST2600_SYS_RST_CTRL and then
    clearing it through AST2600_SYS_RST_CTRL_CLR reads back bit 0 as 0 and
    every other bit as it was before the two writes. *)
Theorem ast2600_w1c_clears_set_register
    (s : AspeedSCUState) (offset v size : Z) :
  scu_state_ok s ->
  offset_ok offset ->
  ast2600_w1c_case (TO_REG offset) = true ->
  let clr := TO_REG offset in
  let set := clr - 1 in
  let s' := fst (aspeed_ast2600_scu_write s offset v size) in
  reg_get s' set = Z.land (reg_get s set) (Z.lnot v)
  /\ regs s' = <[Z.to_nat set := Z.land (reg_get s set) (Z.lnot v)]> (regs s)
  /\ reg_get s' clr = reg_get s clr
  /\ (forall rnd,
       let s1 := fst (aspeed_ast2600_scu_write s (4 * AST2600_SYS_RST_CTRL) 0x1 4) in
       let s2 := fst (aspeed_ast2600_scu_write s1 (4 * AST2600_SYS_RST_CTRL_CLR) 0x1 4) in
       let r := fst (fst (aspeed_ast2600_scu_read rnd s2 (4 * AST2600_SYS_RST_CTRL) 4)) in
       Z.testbit r 0 = false
       /\ forall n, n <> 0 ->
            Z.testbit r n = Z.testbit (reg_get s AST2600_SYS_RST_CTRL) n).
Proof.
  intros Hs Hok Hc clr set s'.
  assert (Hs' : s' = reg_set s set (Z.land (reg_get s set) (Z.lnot v))).
  { subst s'. rewrite ast2600_write_w1c by assumption.
    rewrite land_not32 by (apply state_ok_uint32; assumption). reflexivity. }
  assert (Hset : 0 <= set < 365)
    by (subst set clr;
        destruct (ast2600_w1c_case_inv _ Hc) as [H|[H|[H|[H|[H|H]]]]];
        rewrite H; vm_compute; split; congruence).
  pose proof nr_regs_bounds as (_ & Hn & _).
  split; [|split; [|split]].
  - rewrite Hs'. apply reg_get_set_eq. apply reg_in_file; [assumption|lia].
  - rewrite Hs'. reflexivity.
  - rewrite Hs'. apply reg_get_set_ne; subst set; lia.
  - intros rnd s1 s2 r.
    assert (Hok1 : offset_ok (4 * AST2600_SYS_RST_CTRL))
      by (split; vm_compute; discriminate).
    assert (Hok2 : offset_ok (4 * AST2600_SYS_RST_CTRL_CLR))
      by (split; vm_compute; discriminate).
    assert (Hs1 : s1 = reg_set s AST2600_SYS_RST_CTRL
                         (Z.lor (reg_get s AST2600_SYS_RST_CTRL) 1))
      by (subst s1; rewrite ast2600_write_w1s by (assumption || reflexivity);
          reflexivity).
    assert (Hs2 : s2 = reg_set s1 AST2600_SYS_RST_CTRL
                         (Z.land (reg_get s1 AST2600_SYS_RST_CTRL) (not32 (wrap32 1))))
      by (subst s2; rewrite ast2600_write_w1c by (assumption || reflexivity);
          reflexivity).
    assert (Hin : (Z.to_nat AST2600_SYS_RST_CTRL < length (regs s))%nat)
      by (apply reg_in_file; [assumption | unfold AST2600_SYS_RST_CTRL; lia]).
    assert (Hr : r = Z.land (Z.lor (reg_get s AST2600_SYS_RST_CTRL) 1) (Z.lnot 1)).
    { subst r. rewrite ast2600_read_plain by (assumption || reflexivity).
      simpl fst. change (TO_REG (4 * AST2600_SYS_RST_CTRL)) with AST2600_SYS_RST_CTRL.
      rewrite Hs2, reg_get_set_eq
        by (rewrite Hs1, regs_reg_set, length_insert; assumption).
      rewrite Hs1, reg_get_set_eq by assumption.
      apply land_not32. apply lor_uint32;
        [apply state_ok_uint32; assumption | split; [discriminate|reflexivity]]. }
    rewrite Hr. split.
    + rewrite Z.land_spec, Z.lnot_spec by lia. rewrite testbit_one. simpl.
      apply andb_false_r.
    + intros n Hn0. destruct (Z_lt_le_dec n 0).
      * rewrite !Z.testbit_neg_r by lia. reflexivity.
      * rewrite Z.land_spec, Z.lor_spec, Z.lnot_spec by lia.
        rewrite testbit_one. apply Z.eqb_neq in Hn0. rewrite Hn0. simpl.
        rewrite orb_false_r, andb_true_r. reflexivity.
Qed.

(** *** AST2600: the strap registers *)

Lemma ast2600_strap_regs_inv (strap clr prot : Z) :
  In (strap, clr, prot) ast2600_strap_regs ->
  (strap = AST2600_HW_STRAP1 \/ strap = AST2600_HW_STRAP2)
  /\ clr = strap + 1 /\ prot = strap + 2.
Proof.
  intros [H|[H|[]]]; inversion H; subst; (split; [tauto | split; reflexivity]).
Qed.

Lemma ast2600_write_strap (s : AspeedSCUState) (offset v size : Z) :
  offset_ok offset ->
  TO_REG offset = AST2600_HW_STRAP1 \/ TO_REG offset = AST2600_HW_STRAP2 ->
  fst (aspeed_ast2600_scu_write s offset v size)
  = if negb (reg_get s (TO_REG offset + 2) =? 0) then s
    else reg_set s (TO_REG offset) (Z.lor (reg_get s (TO_REG offset)) (wrap32 v)).
Proof.
  intros Hok Hc. destruct (offset_ok_reg _ Hok) as [Hint _].
  unfold aspeed_ast2600_scu_write. rewrite Hint.
  destruct Hc as [H|H]; rewrite H;
    rewrite in_file_2600 by (vm_compute; discriminate); simpl;
    match goal with |- context [negb ?b] => destruct b end; reflexivity.
Qed.

Lemma ast2600_write_strap_log (s : AspeedSCUState) (offset v size : Z) :
  offset_ok offset ->
  TO_REG offset = AST2600_HW_STRAP1 \/ TO_REG offset = AST2600_HW_STRAP2 ->
  snd (aspeed_ast2600_scu_write s offset v size)
  = (if reg_get s PROT_KEY =? 0 then [LOG_GUEST_ERROR ScuLocked] else [])
    ++ [trace_aspeed_scu_write offset size (wrap32 v)].
Proof.
  intros Hok Hc. destruct (offset_ok_reg _ Hok) as [Hint _].
  unfold aspeed_ast2600_scu_write. rewrite Hint.
  destruct Hc as [H|H]; rewrite H;
    rewrite in_file_2600 by (vm_compute; discriminate); simpl;
    match goal with |- context [negb ?b] => destruct b end; reflexivity.
Qed.

(** C7. On the AST2600, a write to a strap register whose protection
    register is nonzero leaves the whole state unchanged and logs no
    diagnostic of its own (only the trace point and, when the key register
    is 0, the lock diagnostic every write gets); when the protection
    register is zero the written value is ORed into the strap register and
    no other slot changes. *)
Theorem ast2600_strap_write_gated
    (s : AspeedSCUState) (offset v size strap clr prot : Z) :
  scu_state_ok s ->
  offset_ok offset ->
  In (strap, clr, prot) ast2600_strap_regs ->
  TO_REG offset = strap ->
  let s' := fst (aspeed_ast2600_scu_write s offset v size) in
  (reg_get s prot <> 0 ->
   s' = s
   /\ snd (aspeed_ast2600_scu_write s offset v size)
      = (if reg_get s PROT_KEY =? 0 then [LOG_GUEST_ERROR ScuLocked] else [])
        ++ [trace_aspeed_scu_write offset size (wrap32 v)])
  /\ (reg_get s prot = 0 ->
      reg_get s' strap = Z.lor (reg_get s strap) (wrap32 v)
      /\ regs s' = <[Z.to_nat strap := Z.lor (reg_get s strap) (wrap32 v)]> (regs s)
      /\ (is_uint32 v -> reg_get s' strap = Z.lor (reg_get s strap) v)).
Proof.
  intros Hs Hok Hin Hreg s'.
  destruct (ast2600_strap_regs_inv _ _ _ Hin) as (Hstrap & -> & ->).
  pose proof nr_regs_bounds as (_ & Hn & _).
  assert (Hfile : (Z.to_nat strap < length (regs s))%nat)
    by (apply reg_in_file; [assumption|];
        destruct Hstrap as [-> | ->];
        unfold AST2600_HW_STRAP1, AST2600_HW_STRAP2; lia).
  subst s'. rewrite ast2600_write_strap by (assumption || (rewrite Hreg; assumption)).
  rewrite ast2600_write_strap_log by (assumption || (rewrite Hreg; assumption)).
  rewrite Hreg. split.
  - intros Hp. apply Z.eqb_neq in Hp. rewrite Hp. split; reflexivity.
  - intros Hp. rewrite Hp. simpl.
    rewrite reg_get_set_eq by assumption.
    split; [reflexivity | split; [reflexivity|]].
    intros Hv. rewrite wrap32_small by assumption. reflexivity.
Qed.

(** C8. On the AST2600, the protection register gates only the set path
    of a strap register: with the protection register nonzero, a write to
    the strap register is ignored, while a write of [v] to its clear
    register still clears the bits of [v] in the strap register. *)
Theorem ast2600_strap_clear_not_gated
    (s : AspeedSCUState) (offset_set offset_clr v size strap clr prot : Z) :
  scu_state_ok s ->
  offset_ok offset_set ->
  offset_ok offset_clr ->
  In (strap, clr, prot) ast2600_strap_regs ->
  TO_REG offset_set = strap ->
  TO_REG offset_clr = clr ->
  reg_get s prot <> 0 ->
  fst (aspeed_ast2600_scu_write s offset_set v size) = s
  /\ let s' := fst (aspeed_ast2600_scu_write s offset_clr v size) in
     reg_get s' strap = Z.land (reg_get s strap) (Z.lnot v)
     /\ regs s' = <[Z.to_nat strap := Z.land (reg_get s strap) (Z.lnot v)]> (regs s)
     /\ reg_get s' prot = reg_get s prot.
Proof.
  intros Hs Hoks Hokc Hin Hset Hclr Hp.
  destruct (ast2600_strap_regs_inv _ _ _ Hin) as (Hstrap & Hc & Hpr).
  pose proof nr_regs_bounds as (_ & Hn & _).
  assert (Hrange : 0 <= strap < 365)
    by (destruct Hstrap as [-> | ->]; vm_compute; split; congruence).
  split.
  - rewrite ast2600_write_strap by (assumption || (rewrite Hset; assumption)).
    rewrite Hset, <- Hpr. apply Z.eqb_neq in Hp. rewrite Hp. reflexivity.
  - intros s'.
    assert (Hcase : ast2600_w1c_case (TO_REG offset_clr) = true)
      by (rewrite Hclr, Hc; destruct Hstrap as [-> | ->]; reflexivity).
    assert (Hs' : s' = reg_set s strap (Z.land (reg_get s strap) (Z.lnot v))).
    { subst s'. rewrite ast2600_write_w1c by assumption.
      rewrite Hclr, Hc. replace (strap + 1 - 1) with strap by lia.
      rewrite land_not32 by (apply state_ok_uint32; assumption). reflexivity. }
    rewrite Hs'. split; [|split].
    + apply reg_get_set_eq. apply reg_in_file; [assumption|lia].
    + reflexivity.
    + apply reg_get_set_ne; lia.
Qed.

(** *** AST2400 and AST2500: the write paths below the register count *)

Lemma reg_set_commute (s : AspeedSCUState) (i j v w : Z) :
  0 <= i -> 0 <= j -> i <> j ->
  reg_set (reg_set s i v) j w = reg_set (reg_set s j w) i v.
Proof.
  intros Hi Hj Hne. unfold reg_set. simpl. f_equal.
  apply list_insert_insert_ne. lia.
Qed.

Lemma scu_locked_diag_spec (s : AspeedSCUState) (reg : Z) :
  PROT_KEY < reg < CPU2_BASE_SEG1 ->
  scu_locked_diag s reg
  = if reg_get s PROT_KEY =? 0 then [LOG_GUEST_ERROR ScuLocked] else [].
Proof.
  intros [H0 H1]. unfold scu_locked_diag.
  apply Z.ltb_lt in H0, H1. rewrite H0, H1. reflexivity.
Qed.

Lemma ast2400_write_spec (s : AspeedSCUState) (offset v size : Z) :
  offset_ok offset ->
  PROT_KEY < TO_REG offset <= BMC_DEV_ID ->
  let reg := TO_REG offset in
  aspeed_ast2400_scu_write s offset v size
  = (if ast2400_ro_case reg then s else reg_set s reg (wrap32 v),
     scu_locked_diag s reg ++ [trace_aspeed_scu_write offset size v]
     ++ if ast2400_ro_case reg
        then [LOG_GUEST_ERROR (ReadOnlyWrite offset)] else []).
Proof.
  intros Hok [H0 H1] reg. destruct (offset_ok_reg _ Hok) as [Hint _].
  unfold aspeed_ast2400_scu_write. rewrite Hint. fold reg.
  unfold PROT_KEY, BMC_DEV_ID in *.
  rewrite in_file_2400 by lia.
  replace (reg =? 0) with false by (symmetry; apply Z.eqb_neq; lia).
  destruct (ast2400_ro_case reg).
  - rewrite <- app_assoc. reflexivity.
  - rewrite app_nil_r. reflexivity.
Qed.

Lemma ast2500_write_spec (s : AspeedSCUState) (offset v size : Z) :
  offset_ok offset ->
  PROT_KEY < TO_REG offset <= BMC_DEV_ID ->
  let reg := TO_REG offset in
  aspeed_ast2500_scu_write s offset v size
  = (if reg =? HW_STRAP1 then
       reg_set s HW_STRAP1 (wrap32 (Z.lor (reg_get s HW_STRAP1) v))
     else if reg =? SILICON_REV then
       reg_set s HW_STRAP1
         (wrap32 (Z.land (reg_get s HW_STRAP1) (Z.lnot v mod 2 ^ 64)))
     else if ast2500_ro_case reg then s
     else reg_set s reg (wrap32 v),
     scu_locked_diag s reg ++ [trace_aspeed_scu_write offset size v]
     ++ if negb (reg =? HW_STRAP1) && negb (reg =? SILICON_REV)
           && ast2500_ro_case reg
        then [LOG_GUEST_ERROR (ReadOnlyWrite offset)] else []).
Proof.
  intros Hok [H0 H1] reg. destruct (offset_ok_reg _ Hok) as [Hint _].
  unfold aspeed_ast2500_scu_write. rewrite Hint. fold reg.
  unfold PROT_KEY, BMC_DEV_ID in *.
  rewrite in_file_2400 by lia.
  replace (reg =? 0) with false by (symmetry; apply Z.eqb_neq; lia).
  destruct (reg =? HW_STRAP1); [simpl; rewrite ?app_nil_r; reflexivity|].
  destruct (reg =? SILICON_REV); [simpl; rewrite ?app_nil_r; reflexivity|].
  destruct (ast2500_ro_case reg); simpl.
  - rewrite <- app_assoc. reflexivity.
  - rewrite ?app_nil_r. reflexivity.
Qed.

(** C9. On the AST2500, a write of [v] to HW_STRAP1 ORs [v] into that
    register, and a write of [v] addressed to SILICON_REV clears the bits
    of [v] in HW_STRAP1 and leaves the SILICON_REV slot as it was; no
    other slot changes.  The other two generations do not alias: on the
    AST2400 the first write replaces HW_STRAP1 and the second is
    discarded, and on the AST2600 a write to its silicon-revision register
    is discarded. *)
Theorem ast2500_strap_or_and_alias
    (s : AspeedSCUState) (offset v size : Z) :
  scu_state_ok s ->
  offset_ok offset ->
  let old := reg_get s HW_STRAP1 in
  let s' := fst (aspeed_ast2500_scu_write s offset v size) in
  let sA := fst (aspeed_ast2400_scu_write s offset v size) in
  (TO_REG offset = HW_STRAP1 ->
     reg_get s' HW_STRAP1 = Z.lor old (wrap32 v)
     /\ regs s' = <[Z.to_nat HW_STRAP1 := Z.lor old (wrap32 v)]> (regs s)
     /\ (is_uint32 v -> reg_get s' HW_STRAP1 = Z.lor old v)
     /\ regs sA = <[Z.to_nat HW_STRAP1 := wrap32 v]> (regs s))
  /\ (TO_REG offset = SILICON_REV ->
     reg_get s' HW_STRAP1 = Z.land old (Z.lnot v)
     /\ regs s' = <[Z.to_nat HW_STRAP1 := Z.land old (Z.lnot v)]> (regs s)
     /\ reg_get s' SILICON_REV = reg_get s SILICON_REV
     /\ sA = s)
  /\ (TO_REG offset = AST2600_SILICON_REV ->
     fst (aspeed_ast2600_scu_write s offset v size) = s).
Proof.
  intros Hs Hok old s' sA.
  pose proof nr_regs_bounds as (Hn & _ & Hle).
  assert (Hfile : (Z.to_nat HW_STRAP1 < length (regs s))%nat)
    by (apply reg_in_file; [assumption | unfold HW_STRAP1; lia]).
  assert (Hold : is_uint32 old) by (apply state_ok_uint32; assumption).
  split; [|split]; intros Hreg.
  - assert (Hs' : s' = reg_set s HW_STRAP1 (Z.lor old (wrap32 v))).
    { subst s'. rewrite ast2500_write_spec
        by (assumption || (rewrite Hreg; vm_compute; split; congruence)).
      rewrite Hreg. simpl. rewrite lor_wrap32 by assumption. reflexivity. }
    assert (HsA : sA = reg_set s HW_STRAP1 (wrap32 v)).
    { subst sA. rewrite ast2400_write_spec
        by (assumption || (rewrite Hreg; vm_compute; split; congruence)).
      rewrite Hreg. reflexivity. }
    rewrite Hs', HsA. rewrite reg_get_set_eq by assumption.
    split; [reflexivity | split; [reflexivity | split; [|reflexivity]]].
    intros Hv. rewrite wrap32_small by assumption. reflexivity.
  - assert (Hs' : s' = reg_set s HW_STRAP1 (Z.land old (Z.lnot v))).
    { subst s'. rewrite ast2500_write_spec
        by (assumption || (rewrite Hreg; vm_compute; split; congruence)).
      rewrite Hreg. simpl. rewrite land_not64 by assumption. reflexivity. }
    assert (HsA : sA = s).
    { subst sA. rewrite ast2400_write_spec
        by (assumption || (rewrite Hreg; vm_compute; split; congruence)).
      rewrite Hreg. reflexivity. }
    rewrite Hs', HsA. rewrite reg_get_set_eq by assumption.
    split; [reflexivity | split; [reflexivity | split; [|reflexivity]]].
    apply reg_get_set_ne; vm_compute; congruence.
  - destruct (offset_ok_reg _ Hok) as [Hint _].
    unfold aspeed_ast2600_scu_write. rewrite Hint, Hreg.
    rewrite in_file_2600 by (vm_compute; discriminate). reflexivity.
Qed.

(** C1 (as the code has it). On the AST2400 and the AST2500, a write to
    a register strictly between PROT_KEY and CPU2_BASE_SEG1 issued while
    the key register holds 0 is logged as "SCU is locked" and then applied
    all the same: its effect on the register file is the one the same
    write has with the key register at 1, where no diagnostic is logged.
    In particular a plain register stores the written value in both
    cases. *)
Theorem locked_write_diagnosed_not_refused
    (rev : revision) (s : AspeedSCUState) (offset v size : Z) :
  rev <> AST2600 ->
  scu_state_ok s ->
  offset_ok offset ->
  PROT_KEY < TO_REG offset < CPU2_BASE_SEG1 ->
  reg_get s PROT_KEY = 0 ->
  let reg := TO_REG offset in
  let locked := scu_write rev s offset v size in
  let unlocked := scu_write rev (reg_set s PROT_KEY 1) offset v size in
  In (LOG_GUEST_ERROR ScuLocked) (snd locked)
  /\ ~ In (LOG_GUEST_ERROR ScuLocked) (snd unlocked)
  /\ fst unlocked = reg_set (fst locked) PROT_KEY 1
  /\ (plain_register rev reg = true ->
      reg_get (fst locked) reg = wrap32 v
      /\ regs (fst locked) = <[Z.to_nat reg := wrap32 v]> (regs s)
      /\ reg_get (fst unlocked) reg = wrap32 v).
Proof.
  intros Hrev Hs Hok Hrange Hkey reg locked unlocked.
  pose proof nr_regs_bounds as (Hn & _ & Hle).
  assert (Hrange' : PROT_KEY < TO_REG offset <= BMC_DEV_ID)
    by (unfold PROT_KEY, CPU2_BASE_SEG1, BMC_DEV_ID in *; lia).
  assert (Hreg : 0 < reg < 65) by exact Hrange.
  assert (Hkeyfile : (Z.to_nat PROT_KEY < length (regs s))%nat)
    by (apply reg_in_file; [assumption | unfold PROT_KEY; lia]).
  assert (Hregfile : (Z.to_nat reg < length (regs s))%nat)
    by (apply reg_in_file; [assumption | lia]).
  assert (Hunl : reg_get (reg_set s PROT_KEY 1) PROT_KEY = 1)
    by (apply reg_get_set_eq; assumption).
  assert (Hregfile' : (Z.to_nat reg < length (regs (reg_set s PROT_KEY 1)))%nat)
    by (rewrite regs_reg_set, length_insert; assumption).
  destruct rev; [| |congruence]; subst locked unlocked; unfold scu_write; simpl.
  - rewrite !ast2400_write_spec by assumption. fold reg.
    rewrite !scu_locked_diag_spec by assumption. rewrite Hkey, Hunl. simpl.
    destruct (ast2400_ro_case reg) eqn:Ero; simpl.
    + split; [tauto|]. split; [intuition discriminate|].
      split; [reflexivity | discriminate].
    + split; [tauto|]. split; [intuition discriminate|].
      split; [apply reg_set_commute; unfold PROT_KEY; lia|].
      intros _. rewrite !reg_get_set_eq by assumption. repeat split.
  - rewrite !ast2500_write_spec by assumption. fold reg.
    rewrite !scu_locked_diag_spec by assumption. rewrite Hkey, Hunl.
    rewrite (reg_get_set_ne s PROT_KEY HW_STRAP1) by (vm_compute; congruence).
    destruct (reg =? HW_STRAP1) eqn:E1; simpl.
    { split; [tauto|]. split; [intuition discriminate|].
      split; [apply reg_set_commute; vm_compute; congruence | discriminate]. }
    destruct (reg =? SILICON_REV) eqn:E2; simpl.
    { split; [tauto|]. split; [intuition discriminate|].
      split; [apply reg_set_commute; vm_compute; congruence | discriminate]. }
    destruct (ast2500_ro_case reg) eqn:Ero; simpl.
    + split; [tauto|]. split; [intuition discriminate|].
      split; [reflexivity | discriminate].
    + split; [tauto|]. split; [intuition discriminate|].
      split; [apply reg_set_commute; unfold PROT_KEY; lia|].
      intros _. rewrite !reg_get_set_eq by assumption. repeat split.
Qed.

(** *** Well-formedness is preserved *)

Lemma flag_uint32 (b : bool) : is_uint32 (if b then 1 else 0).
Proof. destruct b; split; (discriminate || reflexivity). Qed.

Lemma scu_write_ok (rev : revision) (s : AspeedSCUState) (offset v size : Z) :
  scu_state_ok s -> scu_state_ok (fst (scu_write rev s offset v size)).
Proof.
  intros Hs.
  destruct rev; unfold scu_write; simpl;
    unfold aspeed_ast2400_scu_write, aspeed_ast2500_scu_write,
      aspeed_ast2600_scu_write;
    repeat match goal with
           | |- context [if ?b then (_, _) else _] => destruct b; simpl
           end;
    try assumption;
    apply reg_set_ok;
    auto using flag_uint32, wrap32_range, lor_uint32, land_uint32_l,
      state_ok_uint32.
Qed.

Lemma scu_read_ok (rev : revision) (rnd : Z) (s : AspeedSCUState) (offset size : Z) :
  scu_state_ok s -> scu_state_ok (snd (fst (scu_read rev rnd s offset size))).
Proof.
  intros Hs.
  destruct rev; unfold scu_read; simpl;
    unfold aspeed_scu_read, aspeed_ast2600_scu_read;
    repeat match goal with
           | |- context [if ?b then _ else _] => destruct b; simpl
           end;
    try assumption; apply reg_set_ok; auto using wrap32_range.
Qed.

End Dispatch.

(** ** Reset *)

Section Reset.
Context {hdr : aspeed_scu_h}.

Lemma designator_value_absent (d : Z) (init : list (Z * Z)) (i : Z) :
  ~ In i (map fst init) -> designator_value d init i = d.
Proof.
  induction init as [|[j v] init IH]; simpl; intros Hni; [reflexivity|].
  destruct (Z.eqb_spec j i); [tauto|]. apply IH. tauto.
Qed.

(** Storing the designators one after the other yields, at every index,
    the value the table gives it. *)
Lemma foldl_designators_lookup (init : list (Z * Z)) :
  NoDup (map fst init) ->
  forall (acc : list Z) (i : Z),
    0 <= i ->
    Forall (fun p => 0 <= fst p /\ (Z.to_nat (fst p) < length acc)%nat) init ->
    default 0 (foldl (fun a p => <[Z.to_nat (fst p) := snd p]> a) acc init
               !! Z.to_nat i)
    = designator_value (default 0 (acc !! Z.to_nat i)) init i.
Proof.
  induction init as [|[j v] init IH]; intros Hnd acc i Hi Hr; simpl; [reflexivity|].
  apply NoDup_cons in Hnd as [Hj Hnd]. apply Forall_cons in Hr as [[Hj0 Hjl] Hr].
  simpl in *.
  rewrite IH; [|assumption|assumption|].
  - destruct (Z.eqb_spec j i) as [->|Hne].
    + rewrite list_lookup_insert_eq by assumption. simpl.
      apply designator_value_absent. rewrite <- list_elem_of_In. assumption.
    + rewrite list_lookup_insert_ne by lia. reflexivity.
  - rewrite length_insert. assumption.
Qed.

Lemma foldl_designators_length (init : list (Z * Z)) (acc : list Z) :
  length (foldl (fun a p => <[Z.to_nat (fst p) := snd p]> a) acc init) = length acc.
Proof.
  revert acc. induction init as [|p init IH]; intros acc; simpl; [reflexivity|].
  rewrite IH. apply length_insert.
Qed.

Lemma foldl_designators_uint32 (init : list (Z * Z)) (acc : list Z) :
  Forall (fun p => is_uint32 (snd p)) init ->
  Forall is_uint32 acc ->
  Forall is_uint32 (foldl (fun a p => <[Z.to_nat (fst p) := snd p]> a) acc init).
Proof.
  revert acc. induction init as [|p init IH]; intros acc Hi Ha; simpl; [assumption|].
  apply Forall_cons in Hi as [Hp Hi]. apply IH; [assumption|].
  apply Forall_insert; assumption.
Qed.

Lemma designated_init_length (n : Z) (init : list (Z * Z)) :
  length (designated_init n init) = Z.to_nat n.
Proof.
  unfold designated_init. rewrite foldl_designators_length. apply length_replicate.
Qed.

Lemma designators_okb_spec (bound : Z) (init : list (Z * Z)) :
  designators_okb bound init = true ->
  Forall (fun p => 0 <= fst p <= bound /\ is_uint32 (snd p)) init.
Proof.
  unfold designators_okb. rewrite forallb_forall, Forall_forall.
  intros H p Hp. rewrite list_elem_of_In in Hp. specialize (H p Hp).
  rewrite !andb_true_iff, is_uint32b_spec in H. unfold is_uint32 in *. lia.
Qed.

Lemma designated_init_lookup (n bound : Z) (init : list (Z * Z)) (i : Z) :
  NoDup (map fst init) ->
  designators_okb bound init = true ->
  bound < n ->
  0 <= i < n ->
  default 0 (designated_init n init !! Z.to_nat i) = reset_value init i.
Proof.
  intros Hnd Hok Hb Hi. unfold designated_init, reset_value.
  rewrite foldl_designators_lookup; [|assumption|lia|].
  - rewrite lookup_replicate_2 by lia. reflexivity.
  - apply designators_okb_spec in Hok.
    eapply Forall_impl; [exact Hok|]. simpl. intros p [Hp _].
    rewrite length_replicate. lia.
Qed.

Lemma designated_init_uint32 (n bound : Z) (init : list (Z * Z)) :
  designators_okb bound init = true -> Forall is_uint32 (designated_init n init).
Proof.
  intros Hok. apply designators_okb_spec in Hok. unfold designated_init.
  apply foldl_designators_uint32.
  - eapply Forall_impl; [exact Hok|]. simpl. tauto.
  - apply Forall_replicate. split; [discriminate|reflexivity].
Qed.

(** The three tables are well formed. *)
Lemma reset_table_nodup (rev : revision) : NoDup (map fst (reset_table rev)).
Proof. destruct rev; apply (bool_decide_unpack _); vm_compute; exact I. Qed.

Lemma reset_table_ok (rev : revision) :
  designators_okb (match rev with AST2600 => AST2600_CHIP_ID1 | _ => BMC_DEV_ID end)
                  (reset_table rev) = true.
Proof. destruct rev; vm_compute; reflexivity. Qed.

Lemma resets_spec (rev : revision) :
  resets (asc (scu_info rev)) = designated_init (scu_nr_regs rev) (reset_table rev).
Proof. destruct rev; reflexivity. Qed.

Lemma resets_lookup (rev : revision) (i : Z) :
  0 <= i < scu_nr_regs rev ->
  default 0 (resets (asc (scu_info rev)) !! Z.to_nat i)
  = reset_value (reset_table rev) i.
Proof.
  intros Hi. rewrite resets_spec.
  pose proof nr_regs_resets. pose proof nr_regs_ast2600_resets.
  eapply designated_init_lookup;
    [apply reset_table_nodup | apply reset_table_ok | | assumption].
  destruct rev; assumption.
Qed.

Lemma resets_length (rev : revision) :
  length (resets (asc (scu_info rev))) = Z.to_nat (scu_nr_regs rev).
Proof. rewrite resets_spec. apply designated_init_length. Qed.

Lemma resets_uint32 (rev : revision) : Forall is_uint32 (resets (asc (scu_info rev))).
Proof. rewrite resets_spec. eapply designated_init_uint32. apply reset_table_ok. Qed.

(** [memcpy] of the first [n] words. *)
Lemma memcpy_words_length (dst src : list Z) (n : Z) :
  length src = Z.to_nat n -> (Z.to_nat n <= length dst)%nat ->
  length (memcpy_words dst src n) = length dst.
Proof.
  intros Hs Hd. unfold memcpy_words.
  rewrite length_app, length_take, length_drop. lia.
Qed.

Lemma memcpy_words_lookup (dst src : list Z) (n : Z) (i : nat) :
  length src = Z.to_nat n -> (i < Z.to_nat n)%nat ->
  memcpy_words dst src n !! i = src !! i.
Proof.
  intros Hs Hi. unfold memcpy_words.
  rewrite lookup_app_l by (rewrite length_take; lia).
  apply lookup_take_lt. assumption.
Qed.

Lemma memcpy_words_drop (dst src : list Z) (n : Z) :
  length src = Z.to_nat n ->
  drop (Z.to_nat n) (memcpy_words dst src n) = drop (Z.to_nat n) dst.
Proof.
  intros Hs. unfold memcpy_words.
  apply drop_app_length'. rewrite length_take. lia.
Qed.

Lemma reg_get_set (s : AspeedSCUState) (i j v : Z) :
  0 <= i -> 0 <= j -> (Z.to_nat i < length (regs s))%nat ->
  reg_get (reg_set s i v) j = if i =? j then v else reg_get s j.
Proof.
  intros Hi Hj Hl. destruct (Z.eqb_spec i j) as [->|Hne].
  - apply reg_get_set_eq. assumption.
  - apply reg_get_set_ne; assumption.
Qed.

Lemma reg_get_memcpy (s : AspeedSCUState) (rev : revision) (i : Z) :
  0 <= i < scu_nr_regs rev ->
  reg_get (with_regs s (memcpy_words (regs s) (resets (asc (scu_info rev)))
                                     (scu_nr_regs rev))) i
  = reset_value (reset_table rev) i.
Proof.
  intros Hi. unfold reg_get. simpl.
  rewrite memcpy_words_lookup by (apply resets_length || lia).
  apply resets_lookup. assumption.
Qed.

Lemma memcpy_regs_length (s : AspeedSCUState) (rev : revision) :
  scu_state_ok s ->
  length (memcpy_words (regs s) (resets (asc (scu_info rev))) (scu_nr_regs rev))
  = Z.to_nat ASPEED_AST2600_SCU_NR_REGS.
Proof.
  intros (Hl & _). pose proof (scu_nr_regs_le rev).
  rewrite memcpy_words_length; [assumption | apply resets_length | lia].
Qed.

Ltac class_fields :=
  unfold scu_reset, scu_nr_regs in *;
  cbn [scu_info asc resets nr_regs dc_reset aspeed_2400_scu_info
       aspeed_2500_scu_info aspeed_2600_scu_info] in *.

Ltac seeded_regs :=
  unfold PROT_KEY, SILICON_REV, HW_STRAP1, HW_STRAP2, AST2600_SILICON_REV,
    AST2600_SILICON_REV2, AST2600_HW_STRAP1, AST2600_HW_STRAP2 in *.

Ltac reset_side Hl :=
  first
    [ lia
    | (vm_compute; congruence)
    | (repeat rewrite regs_reg_set, length_insert);
      simpl regs; rewrite Hl; seeded_regs; lia ].

Lemma scu_reset_props (rev : revision) (s : AspeedSCUState) :
  silicon_rev (scu_reset rev s) = silicon_rev s
  /\ hw_strap1 (scu_reset rev s) = hw_strap1 s
  /\ hw_strap2 (scu_reset rev s) = hw_strap2 s
  /\ hw_prot_key (scu_reset rev s) = hw_prot_key s.
Proof. destruct rev; repeat split. Qed.

Lemma scu_reset_lookup (rev : revision) (s : AspeedSCUState) (i : Z) :
  scu_state_ok s ->
  0 <= i < scu_nr_regs rev ->
  reg_get (scu_reset rev s) i = expected_after_reset rev s i.
Proof.
  intros Hs Hi. pose proof (scu_nr_regs_le rev) as Hn.
  pose proof nr_regs_bounds as Hb.
  pose proof (reg_get_memcpy s rev i Hi) as Hm.
  pose proof (memcpy_regs_length s rev Hs) as Hl.
  destruct rev; unfold expected_after_reset; class_fields;
    unfold aspeed_scu_reset, aspeed_ast2600_scu_reset; cbv zeta;
    class_fields;
    rewrite !reg_get_set by reset_side Hl;
    rewrite Hm; clear Hm Hl;
    cbn [hw_prot_key silicon_rev hw_strap1 hw_strap2 reg_set with_regs];
    repeat match goal with
           | |- context [?a =? i] => destruct (Z.eqb_spec a i)
           | |- context [i =? ?a] => destruct (Z.eqb_spec i a)
           end;
    try reflexivity; exfalso; seeded_regs; lia.
Qed.

Lemma state_eq (s1 s2 : AspeedSCUState) :
  regs s1 = regs s2 -> silicon_rev s1 = silicon_rev s2 ->
  hw_strap1 s1 = hw_strap1 s2 -> hw_strap2 s1 = hw_strap2 s2 ->
  hw_prot_key s1 = hw_prot_key s2 -> s1 = s2.
Proof. destruct s1, s2; cbn; intros; subst; reflexivity. Qed.

Lemma memcpy_words_absorb (dst dst' src : list Z) (n : Z) :
  drop (Z.to_nat n) dst' = drop (Z.to_nat n) dst ->
  memcpy_words dst' src n = memcpy_words dst src n.
Proof. unfold memcpy_words. intros ->. reflexivity. Qed.

(** The register file after reset: the table copied over the first
    [nr_regs] words, then the seeds. *)
Lemma regs_scu_reset (rev : revision) (s : AspeedSCUState) :
  let m := memcpy_words (regs s) (resets (asc (scu_info rev))) (scu_nr_regs rev) in
  regs (scu_reset rev s)
  = match rev with
    | AST2400 | AST2500 =>
        <[Z.to_nat PROT_KEY := hw_prot_key s]>
          (<[Z.to_nat HW_STRAP2 := hw_strap2 s]>
             (<[Z.to_nat HW_STRAP1 := hw_strap1 s]>
                (<[Z.to_nat SILICON_REV := silicon_rev s]> m)))
    | AST2600 =>
        <[Z.to_nat PROT_KEY := hw_prot_key s]>
          (<[Z.to_nat AST2600_HW_STRAP2 := hw_strap2 s]>
             (<[Z.to_nat AST2600_HW_STRAP1 := hw_strap1 s]>
                (<[Z.to_nat AST2600_SILICON_REV2 := silicon_rev s]>
                   (<[Z.to_nat AST2600_SILICON_REV := AST2600_A1_SILICON_REV]> m))))
    end.
Proof. destruct rev; reflexivity. Qed.

Lemma scu_reset_idempotent (rev : revision) (s : AspeedSCUState) :
  scu_reset rev (scu_reset rev s) = scu_reset rev s.
Proof.
  pose proof (scu_nr_regs_le rev) as Hn. pose proof (resets_length rev) as Hr.
  pose proof nr_regs_bounds as Hb.
  destruct (scu_reset_props rev (scu_reset rev s)) as (H1 & H2 & H3 & H4).
  apply state_eq; try assumption.
  destruct (scu_reset_props rev s) as (E1 & E2 & E3 & E4).
  rewrite (regs_scu_reset rev (scu_reset rev s)). cbv zeta.
  rewrite E1, E2, E3, E4.
  rewrite (memcpy_words_absorb (regs s) (regs (scu_reset rev s))).
  - symmetry. apply regs_scu_reset.
  - rewrite (regs_scu_reset rev s). cbv zeta.
    destruct rev;
      (rewrite !drop_insert_lt
         by (unfold scu_nr_regs in *; cbn [nr_regs asc scu_info
               aspeed_2400_scu_info aspeed_2500_scu_info aspeed_2600_scu_info] in *;
             seeded_regs; lia));
      apply memcpy_words_drop; assumption.
Qed.

Lemma scu_reset_ok (rev : revision) (s : AspeedSCUState) :
  scu_state_ok s -> scu_state_ok (scu_reset rev s).
Proof.
  intros Hs. pose proof (memcpy_regs_length s rev Hs) as Hl.
  assert (Hm : scu_state_ok
                 (with_regs s (memcpy_words (regs s) (resets (asc (scu_info rev)))
                                            (scu_nr_regs rev)))).
  { destruct Hs as (Hlen & Hr & Hp). split; [exact Hl|]. split; [|exact Hp].
    simpl. unfold memcpy_words. apply Forall_app. split.
    - apply Forall_take, resets_uint32.
    - apply Forall_drop. assumption. }
  destruct Hs as (_ & _ & Hrev & Hs1 & Hs2 & Hk).
  destruct rev; unfold scu_reset; simpl dc_reset;
    unfold aspeed_scu_reset, aspeed_ast2600_scu_reset; cbv zeta;
    repeat apply reg_set_ok; try assumption; apply a1_silicon_rev_uint32.
Qed.

(** C3. For each of the three revisions and any prior state, after reset
    every register below the register count holds the value the reset
    table of the revision gives its index (0 when the table has no entry),
    except the seeded registers: the silicon-revision register holds the
    configured silicon revision (on the AST2600 the primary revision
    register holds AST2600_A1_SILICON_REV and AST2600_SILICON_REV2 the
    configured one), the two strap registers hold the configured strap
    words and the key register the configured initial key.  The
    configuration itself is untouched, hence reset is idempotent. *)
Theorem reset_loads_table_and_seeds (rev : revision) (s : AspeedSCUState) :
  scu_state_ok s ->
  (forall i, 0 <= i < scu_nr_regs rev ->
     reg_get (scu_reset rev s) i = expected_after_reset rev s i)
  /\ (silicon_rev (scu_reset rev s) = silicon_rev s
      /\ hw_strap1 (scu_reset rev s) = hw_strap1 s
      /\ hw_strap2 (scu_reset rev s) = hw_strap2 s
      /\ hw_prot_key (scu_reset rev s) = hw_prot_key s)
  /\ scu_reset rev (scu_reset rev s) = scu_reset rev s.
Proof.
  intros Hs. split; [|split].
  - intros i Hi. apply scu_reset_lookup; assumption.
  - apply scu_reset_props.
  - apply scu_reset_idempotent.
Qed.

End Reset.

(** ** Reachable states *)

Section Invariants.
Context {hdr : aspeed_scu_h}.

Lemma constructed_ok (s : AspeedSCUState) : constructed s -> scu_state_ok s.
Proof.
  intros (Hr & Hp). unfold scu_state_ok. rewrite Hr, length_replicate.
  split; [reflexivity|]. split; [|exact Hp].
  apply Forall_replicate. split; [discriminate|reflexivity].
Qed.

Lemma scu_step_ok (rev : revision) (s s' : AspeedSCUState) :
  scu_step rev s s' -> scu_state_ok s -> scu_state_ok s'.
Proof.
  intros [s0|s0 rnd offset size _|s0 offset data size _] Hs.
  - apply scu_reset_ok. assumption.
  - apply scu_read_ok. assumption.
  - apply scu_write_ok. assumption.
Qed.

Lemma reachable_ok (rev : revision) (s : AspeedSCUState) :
  reachable rev s -> scu_state_ok s.
Proof.
  induction 1 as [s Hc|s s' _ IH Hstep].
  - apply constructed_ok. assumption.
  - eapply scu_step_ok; eassumption.
Qed.

(** Reads leave the key register and the configuration alone. *)
Lemma scu_read_key (rev : revision) (rnd : Z) (s : AspeedSCUState) (offset size : Z) :
  let s' := snd (fst (scu_read rev rnd s offset size)) in
  reg_get s' PROT_KEY = reg_get s PROT_KEY /\ hw_prot_key s' = hw_prot_key s.
Proof.
  destruct rev; unfold scu_read; simpl;
    unfold aspeed_scu_read, aspeed_ast2600_scu_read;
    repeat match goal with
           | |- context [if ?b then _ else _] => destruct b; simpl
           end;
    split; try reflexivity;
    apply reg_get_set_ne; vm_compute; congruence.
Qed.

(** A write either leaves the key register alone or stores 0 or 1. *)
Lemma scu_write_key (rev : revision) (s : AspeedSCUState) (offset v size : Z) :
  scu_state_ok s ->
  offset_ok offset ->
  let s' := fst (scu_write rev s offset v size) in
  (reg_get s' PROT_KEY = reg_get s PROT_KEY
   \/ reg_get s' PROT_KEY = 0 \/ reg_get s' PROT_KEY = 1)
  /\ hw_prot_key s' = hw_prot_key s.
Proof.
  intros Hs Hok. destruct (offset_ok_reg _ Hok) as [Hint Hnn].
  assert (Hkeyfile : (Z.to_nat PROT_KEY < length (regs s))%nat).
  { apply reg_in_file; [assumption|]. pose proof nr_regs_bounds.
    unfold PROT_KEY. lia. }
  assert (Hflag : forall b : bool,
             reg_get (reg_set s PROT_KEY (if b then 1 else 0)) PROT_KEY = 0
             \/ reg_get (reg_set s PROT_KEY (if b then 1 else 0)) PROT_KEY = 1)
    by (intros b; rewrite reg_get_set_eq by assumption; destruct b; tauto).
  destruct rev; unfold scu_write; simpl;
    unfold aspeed_ast2400_scu_write, aspeed_ast2500_scu_write,
      aspeed_ast2600_scu_write;
    rewrite Hint; set (reg := TO_REG offset) in *.
  - destruct (ASPEED_SCU_NR_REGS <=? reg); simpl; [tauto|].
    destruct (Z.eqb_spec reg PROT_KEY) as [->|Hne]; simpl; [split; [right; apply Hflag | reflexivity]|].
    destruct (ast2400_ro_case reg); simpl; [tauto|].
    split; [left|reflexivity].
    apply reg_get_set_ne; unfold PROT_KEY in *; lia.
  - destruct (ASPEED_SCU_NR_REGS <=? reg); simpl; [tauto|].
    destruct (Z.eqb_spec reg PROT_KEY) as [->|Hne]; simpl; [split; [right; apply Hflag | reflexivity]|].
    destruct (reg =? HW_STRAP1); simpl;
      [split; [left; apply reg_get_set_ne; vm_compute; congruence | reflexivity]|].
    destruct (reg =? SILICON_REV); simpl;
      [split; [left; apply reg_get_set_ne; vm_compute; congruence | reflexivity]|].
    destruct (ast2500_ro_case reg); simpl; [tauto|].
    split; [left|reflexivity].
    apply reg_get_set_ne; unfold PROT_KEY in *; lia.
  - destruct (ASPEED_AST2600_SCU_NR_REGS <=? reg); simpl; [tauto|].
    destruct (Z.eqb_spec reg AST2600_PROT_KEY) as [->|Hne]; simpl;
      [split; [right; apply Hflag | reflexivity]|].
    assert (Hset : reg_get (reg_set s reg (Z.lor (reg_get s reg) (wrap32 v))) PROT_KEY
                   = reg_get s PROT_KEY)
      by (apply reg_get_set_ne; unfold PROT_KEY, AST2600_PROT_KEY in *; lia).
    destruct (ast2600_strap_case reg); simpl.
    { destruct (negb (reg_get s (reg + 2) =? 0)); simpl; tauto. }
    destruct (ast2600_w1s_case reg); simpl; [tauto|].
    destruct (ast2600_w1c_case reg) eqn:Ec; simpl.
    { split; [left|reflexivity].
      destruct (ast2600_w1c_case_inv _ Ec) as [H|[H|[H|[H|[H|H]]]]]; rewrite H;
        apply reg_get_set_ne; vm_compute; congruence. }
    destruct (ast2600_ro_case reg); simpl; [tauto|].
    split; [left|reflexivity].
    apply reg_get_set_ne; unfold PROT_KEY, AST2600_PROT_KEY in *; lia.
Qed.

(** C2 (as the code has it). In every reachable state of every revision
    the key register holds 0, 1 or the configured initial key state
    [hw_prot_key], which reset copies into it as it is; so it holds
    exactly 0 or 1 whenever the configured key state is itself 0 or 1. *)
Theorem prot_key_register_values (rev : revision) (s : AspeedSCUState) :
  reachable rev s ->
  (reg_get s PROT_KEY = 0 \/ reg_get s PROT_KEY = 1
   \/ reg_get s PROT_KEY = hw_prot_key s)
  /\ (hw_prot_key s = 0 \/ hw_prot_key s = 1 ->
      reg_get s PROT_KEY = 0 \/ reg_get s PROT_KEY = 1).
Proof.
  intros Hreach.
  assert (Hinv : reg_get s PROT_KEY = 0 \/ reg_get s PROT_KEY = 1
                 \/ reg_get s PROT_KEY = hw_prot_key s).
  { induction Hreach as [s (Hr & _)|s s' Hreach IH Hstep].
    - left. unfold reg_get. rewrite Hr.
      destruct (replicate _ _ !! _) as [x|] eqn:E; [|reflexivity].
      apply lookup_replicate_1 in E as [-> _]. reflexivity.
    - pose proof (reachable_ok _ _ Hreach) as Hs.
      destruct Hstep as [s|s rnd offset size _|s offset data size Hok].
      + right. right.
        rewrite scu_reset_lookup
          by (assumption || (pose proof (scu_nr_regs_le rev); unfold PROT_KEY; lia)).
        destruct (scu_reset_props rev s) as (_ & _ & _ & ->).
        destruct rev; reflexivity.
      + destruct (scu_read_key rev rnd s offset size) as [-> ->]. assumption.
      + destruct (scu_write_key rev s offset data size Hs Hok) as [[-> | H] ->];
          tauto. }
  split; [assumption|]. intros [H|H]; rewrite H in Hinv; tauto.
Qed.

End Invariants.

(** ** H-PLL and APB frequency *)

Section Frequency.
Context {hdr : aspeed_scu_h}.

Lemma clkin_values (s : AspeedSCUState) :
  aspeed_scu_get_clkin s = 25000000 \/ aspeed_scu_get_clkin s = 48000000
  \/ aspeed_scu_get_clkin s = 24000000.
Proof.
  unfold aspeed_scu_get_clkin.
  destruct (negb _); [tauto|]. destruct (negb _); tauto.
Qed.

Lemma clkin_uint32 (s : AspeedSCUState) : wrap32 (aspeed_scu_get_clkin s * 1) = aspeed_scu_get_clkin s.
Proof.
  rewrite Z.mul_1_r. apply wrap32_small. unfold is_uint32.
  destruct (clkin_values s) as [-> | [-> | ->]]; split; (discriminate || reflexivity).
Qed.

Lemma apb_divider_values (rev : revision) :
  apb_divider (asc (scu_info rev)) = match rev with AST2400 => 2 | _ => 4 end.
Proof. destruct rev; reflexivity. Qed.

(** C6 (as the code has it), for the AST2400 and the AST2500, whose
    H-PLL parameter register is [HPLL_PARAM] and whose clock selection
    register is [CLK_SEL].  [get_apb_freq] is 0 when the "off" bit of
    the H-PLL parameter register is set.  When the "off" bit is clear
    and the "bypass" bit is set (on the AST2400: and the "programmed"
    bit is set, since otherwise the strapped frequency table is used),
    the H-PLL output is exactly the input clock selected by the strap
    bits (25 MHz, 48 MHz or the 24 MHz default), and [get_apb_freq] is
    that clock divided by the PCLK divider plus one and by the APB
    divider of the revision (2 or 4): at most half the input clock.
    Nothing is stated about the AST2600, whose H-PLL parameter and clock
    selection registers are [AST2600_HPLL_PARAM] and [AST2600_CLK_SEL]. *)
Theorem apb_freq_off_and_bypass (rev : revision) (s : AspeedSCUState)
    (Hrev : rev = AST2400 \/ rev = AST2500) :
  let hpll_reg := reg_get s HPLL_PARAM in
  let clkin := aspeed_scu_get_clkin s in
  (Z.land hpll_reg (h_pll_off rev) <> 0 -> scu_get_apb_freq rev s = 0)
  /\ (Z.land hpll_reg (h_pll_off rev) = 0 ->
      Z.land hpll_reg (h_pll_bypass_en rev) <> 0 ->
      (rev = AST2400 -> Z.land hpll_reg SCU_AST2400_H_PLL_PROGRAMMED <> 0) ->
      calc_hpll (asc (scu_info rev)) s hpll_reg = clkin
      /\ (clkin = 25000000 \/ clkin = 48000000 \/ clkin = 24000000)
      /\ scu_get_apb_freq rev s
         = clkin / (SCU_CLK_GET_PCLK_DIV (reg_get s CLK_SEL) + 1)
           / apb_divider (asc (scu_info rev))
      /\ 2 * scu_get_apb_freq rev s <= clkin).
Proof.
  intros hpll_reg clkin. split.
  - intros Hoff. apply Z.eqb_neq in Hoff.
    unfold scu_get_apb_freq, aspeed_scu_get_apb_freq. fold hpll_reg.
    destruct Hrev as [-> | ->]; simpl calc_hpll;
      unfold aspeed_2400_scu_calc_hpll, aspeed_2500_scu_calc_hpll;
      simpl in Hoff; rewrite Hoff; reflexivity.
  - intros Hoff Hbyp Hprog. apply Z.eqb_eq in Hoff. apply Z.eqb_neq in Hbyp.
    assert (Hpll : calc_hpll (asc (scu_info rev)) s hpll_reg = clkin).
    { destruct Hrev as [-> | ->]; simpl calc_hpll;
        unfold aspeed_2400_scu_calc_hpll, aspeed_2500_scu_calc_hpll;
        simpl in Hoff, Hbyp; rewrite Hoff, Hbyp; simpl.
      - specialize (Hprog eq_refl). apply Z.eqb_neq in Hprog. rewrite Hprog. simpl.
        apply clkin_uint32.
      - apply clkin_uint32. }
    pose proof (pclk_div_range (reg_get s CLK_SEL)) as Hdiv.
    assert (Hfreq : scu_get_apb_freq rev s
                    = clkin / (SCU_CLK_GET_PCLK_DIV (reg_get s CLK_SEL) + 1)
                      / apb_divider (asc (scu_info rev))).
    { unfold scu_get_apb_freq, aspeed_scu_get_apb_freq. fold hpll_reg.
      rewrite Hpll. rewrite wrap32_small by (unfold is_uint32; lia). reflexivity. }
    split; [assumption|]. split; [apply clkin_values|]. split; [assumption|].
    rewrite Hfreq.
    assert (Hc : 0 < clkin) by (destruct (clkin_values s) as [H|[H|H]]; subst clkin; rewrite H; reflexivity).
    set (d := SCU_CLK_GET_PCLK_DIV (reg_get s CLK_SEL) + 1) in *.
    assert (Hq : clkin / d <= clkin)
      by (apply Z.div_le_upper_bound; nia).
    assert (Hq0 : 0 <= clkin / d) by (apply Z.div_pos; lia).
    rewrite apb_divider_values.
    destruct Hrev as [-> | ->].
    + pose proof (Z.mul_div_le (clkin / d) 2 ltac:(lia)). lia.
    + pose proof (Z.mul_div_le (clkin / d) 4 ltac:(lia)). lia.
Qed.

End Frequency.

(** * The model on concrete inputs

    Everything below is evaluated under [qemu_aspeed_scu_h]. *)

Section Concrete.
#[local] Existing Instance qemu_aspeed_scu_h.

Ltac state_ok := apply scu_state_okb_ok; vm_compute; reflexivity.
Ltac closed_offset_ok := split; vm_compute; discriminate.

(** ** Out-of-bounds accesses (C10) *)

(** C10 at an input: the AST2400 at offset [register_count * 4]. *)
Lemma out_of_bounds_access_inert_witness :
  let s := scu_reset AST2400 (power_on 0x02010303 0) in
  scu_read AST2400 7 s 0x1A8 4
    = (0, s, [LOG_GUEST_ERROR (OutOfBoundsRead 0x1A8)])
  /\ scu_write AST2400 s 0x1A8 0xFFFFFFFF 4
    = (s, [LOG_GUEST_ERROR (OutOfBoundsWrite 0x1A8)]).
Proof.
  apply (out_of_bounds_access_inert AST2400 7 _ 0x1A8 4 0xFFFFFFFF).
  - closed_offset_ok.
  - vm_compute. discriminate.
Defined.

(** ** The protection key (C4, C2, C1) *)

(** C4 at an input: the unlock constant written to a reset AST2600. *)
Lemma prot_key_write_stores_flag_witness :
  let s := scu_reset AST2600 (power_on 0x05030303 0) in
  let s' := fst (scu_write AST2600 s 0x00 0x1688A8A8 4) in
  reg_get s' PROT_KEY = 1
  /\ regs s' = <[Z.to_nat PROT_KEY := 1]> (regs s)
  /\ (forall i, 0 <= i -> i <> PROT_KEY -> reg_get s' i = reg_get s i)
  /\ (0x1688A8A8 <> 0 -> 0x1688A8A8 <> 1 -> reg_get s' PROT_KEY <> 0x1688A8A8).
Proof.
  refine (prot_key_write_stores_flag AST2600
            (scu_reset AST2600 (power_on 0x05030303 0)) 0x00 0x1688A8A8 4
            _ _ _ _).
  - state_ok.
  - closed_offset_ok.
  - reflexivity.
  - intros _. split; vm_compute; congruence.
Defined.

(** C2, counterexample.  A board that boots unlocked configures
    [hw-prot-key] with the unlock constant; reset copies it into the key
    register, which then holds neither 0 nor 1. *)
Lemma prot_key_register_holds_raw_key :
  let s := scu_reset AST2500 (power_on 0x04010303 0x1688A8A8) in
  reachable AST2500 s
  /\ reg_get s PROT_KEY = 0x1688A8A8
  /\ reg_get s PROT_KEY <> 0 /\ reg_get s PROT_KEY <> 1.
Proof.
  split.
  - apply (reach_step _ (power_on 0x04010303 0x1688A8A8));
      [apply reach_constructed | apply step_reset].
    split; [reflexivity|]. repeat split; vm_compute; congruence.
  - repeat split; vm_compute; congruence.
Qed.

(** C2 at an input: an AST2500 that boots unlocked, after a write of a
    wrong key. *)
Lemma prot_key_register_values_witness :
  let s := fst (scu_write AST2500
                  (scu_reset AST2500 (power_on 0x04010303 0x1688A8A8))
                  0x00 0xDEADBEEF 4) in
  (reg_get s PROT_KEY = 0 \/ reg_get s PROT_KEY = 1
   \/ reg_get s PROT_KEY = hw_prot_key s)
  /\ (hw_prot_key s = 0 \/ hw_prot_key s = 1 ->
      reg_get s PROT_KEY = 0 \/ reg_get s PROT_KEY = 1).
Proof.
  apply (prot_key_register_values AST2500).
  apply (reach_step _ (scu_reset AST2500 (power_on 0x04010303 0x1688A8A8)));
    [apply (reach_step _ (power_on 0x04010303 0x1688A8A8));
       [apply reach_constructed | apply step_reset] |].
  - split; [reflexivity|]. repeat split; vm_compute; congruence.
  - apply step_write. closed_offset_ok.
Defined.

(** C1, counterexample.  On both older generations a write to
    SYS_RST_CTRL while the key register holds 0 goes through: the register
    changes from its reset value to the written value. *)
Lemma locked_write_changes_register :
  let sA := scu_reset AST2400 (power_on 0x02010303 0) in
  let sB := scu_reset AST2500 (power_on 0x04010303 0) in
  (scu_state_ok sA /\ offset_ok 0x04
   /\ PROT_KEY < TO_REG 0x04 < CPU2_CTRL
   /\ reg_get sA PROT_KEY = 0
   /\ reg_get sA SYS_RST_CTRL = 0xFFCFFEDC
   /\ reg_get (fst (scu_write AST2400 sA 0x04 0x5 4)) SYS_RST_CTRL = 0x5
   /\ regs (fst (scu_write AST2400 sA 0x04 0x5 4)) <> regs sA)
  /\ (scu_state_ok sB
      /\ reg_get sB PROT_KEY = 0
      /\ reg_get sB SYS_RST_CTRL = 0xFFCFFEDC
      /\ reg_get (fst (scu_write AST2500 sB 0x04 0x5 4)) SYS_RST_CTRL = 0x5
      /\ regs (fst (scu_write AST2500 sB 0x04 0x5 4)) <> regs sB).
Proof.
  split.
  - split; [state_ok|]. split; [closed_offset_ok|].
    repeat split; vm_compute; congruence.
  - split; [state_ok|]. repeat split; vm_compute; congruence.
Qed.

(** C1 at an input: the same write to a locked AST2400. *)
Lemma locked_write_diagnosed_not_refused_witness :
  let s := scu_reset AST2400 (power_on 0x02010303 0) in
  let locked := scu_write AST2400 s 0x04 0x5 4 in
  let unlocked := scu_write AST2400 (reg_set s PROT_KEY 1) 0x04 0x5 4 in
  In (LOG_GUEST_ERROR ScuLocked) (snd locked)
  /\ ~ In (LOG_GUEST_ERROR ScuLocked) (snd unlocked)
  /\ fst unlocked = reg_set (fst locked) PROT_KEY 1
  /\ (plain_register AST2400 (TO_REG 0x04) = true ->
      reg_get (fst locked) (TO_REG 0x04) = wrap32 0x5
      /\ regs (fst locked) = <[Z.to_nat (TO_REG 0x04) := wrap32 0x5]> (regs s)
      /\ reg_get (fst unlocked) (TO_REG 0x04) = wrap32 0x5).
Proof.
  apply (locked_write_diagnosed_not_refused AST2400
           (scu_reset AST2400 (power_on 0x02010303 0)) 0x04 0x5 4).
  - discriminate.
  - state_ok.
  - closed_offset_ok.
  - split; reflexivity.
  - reflexivity.
Defined.

(** ** Reset (C3) *)

(** C3 at an input: an AST2600 with a scribbled register. *)
Lemma reset_loads_table_and_seeds_witness :
  let s := reg_set (power_on 0x05030303 0x1688A8A8) AST2600_SDRAM_HANDSHAKE 0xABCD in
  (forall i, 0 <= i < scu_nr_regs AST2600 ->
     reg_get (scu_reset AST2600 s) i = expected_after_reset AST2600 s i)
  /\ (silicon_rev (scu_reset AST2600 s) = silicon_rev s
      /\ hw_strap1 (scu_reset AST2600 s) = hw_strap1 s
      /\ hw_strap2 (scu_reset AST2600 s) = hw_strap2 s
      /\ hw_prot_key (scu_reset AST2600 s) = hw_prot_key s)
  /\ scu_reset AST2600 (scu_reset AST2600 s) = scu_reset AST2600 s.
Proof.
  apply (reset_loads_table_and_seeds AST2600). state_ok.
Defined.

(** A few registers after an AST2600 reset, by evaluation. *)
Example ast2600_reset_readback :
  let s := scu_reset AST2600 (power_on 0x05030303 0x1688A8A8) in
  reg_get s AST2600_SILICON_REV = 0x05010303
  /\ reg_get s AST2600_SILICON_REV2 = 0x05030303
  /\ reg_get s AST2600_SYS_RST_CTRL = 0xF7C3FED8
  /\ reg_get s AST2600_HPLL_PARAM = 0x1000405F
  /\ reg_get s AST2600_CLK_SEL = 0
  /\ reg_get s PROT_KEY = 0x1688A8A8.
Proof. repeat split. Qed.

(** ** AST2600 W1S / W1C and strap registers (C5, C7, C8) *)

(** C5 at an input: 0xD8 written to AST2600_SYS_RST_CTRL_CLR after reset. *)
Lemma ast2600_w1c_clears_set_register_witness :
  let s := scu_reset AST2600 (power_on 0x05030303 0) in
  let clr := TO_REG 0x44 in
  let set := clr - 1 in
  let s' := fst (aspeed_ast2600_scu_write s 0x44 0xD8 4) in
  reg_get s' set = Z.land (reg_get s set) (Z.lnot 0xD8)
  /\ regs s' = <[Z.to_nat set := Z.land (reg_get s set) (Z.lnot 0xD8)]> (regs s)
  /\ reg_get s' clr = reg_get s clr
  /\ (forall rnd,
       let s1 := fst (aspeed_ast2600_scu_write s (4 * AST2600_SYS_RST_CTRL) 0x1 4) in
       let s2 := fst (aspeed_ast2600_scu_write s1 (4 * AST2600_SYS_RST_CTRL_CLR) 0x1 4) in
       let r := fst (fst (aspeed_ast2600_scu_read rnd s2 (4 * AST2600_SYS_RST_CTRL) 4)) in
       Z.testbit r 0 = false
       /\ forall n, n <> 0 ->
            Z.testbit r n = Z.testbit (reg_get s AST2600_SYS_RST_CTRL) n).
Proof.
  refine (ast2600_w1c_clears_set_register
            (scu_reset AST2600 (power_on 0x05030303 0)) 0x44 0xD8 4 _ _ _).
  - state_ok.
  - closed_offset_ok.
  - reflexivity.
Defined.

Example ast2600_w1c_readback :
  let s := scu_reset AST2600 (power_on 0x05030303 0) in
  reg_get s AST2600_SYS_RST_CTRL = 0xF7C3FED8
  /\ reg_get (fst (aspeed_ast2600_scu_write s 0x44 0xD8 4)) AST2600_SYS_RST_CTRL
     = 0xF7C3FE00.
Proof. split; reflexivity. Qed.

(** C7 at an input: HW_STRAP1 written with the protection register at 1
    and at 0. *)
Lemma ast2600_strap_write_gated_witness :
  let s := scu_reset AST2600 (power_on 0x05030303 0) in
  let s_prot := fst (aspeed_ast2600_scu_write s 0x508 0x1 4) in
  fst (aspeed_ast2600_scu_write s_prot 0x500 0x3 4) = s_prot
  /\ reg_get (fst (aspeed_ast2600_scu_write s 0x500 0x3 4)) AST2600_HW_STRAP1
     = Z.lor (reg_get s AST2600_HW_STRAP1) 0x3.
Proof.
  intros s s_prot. split.
  - refine (proj1 (proj1 (ast2600_strap_write_gated s_prot 0x500 0x3 4
                     AST2600_HW_STRAP1 AST2600_HW_STRAP1_CLR AST2600_HW_STRAP1_PROT
                     _ _ _ _) _)).
    + state_ok.
    + closed_offset_ok.
    + left. reflexivity.
    + reflexivity.
    + vm_compute. discriminate.
  - refine (proj1 (proj2 (ast2600_strap_write_gated s 0x500 0x3 4
                     AST2600_HW_STRAP1 AST2600_HW_STRAP1_CLR AST2600_HW_STRAP1_PROT
                     _ _ _ _) _)).
    + state_ok.
    + closed_offset_ok.
    + left. reflexivity.
    + reflexivity.
    + reflexivity.
Defined.

(** C8 at an input: HW_STRAP2 holds 0x7 and is protected; the set write
    is ignored, the clear write takes bit 1 away. *)
Lemma ast2600_strap_clear_not_gated_witness :
  let s0 := scu_reset AST2600 (power_on 0x05030303 0) in
  let s1 := fst (aspeed_ast2600_scu_write s0 0x510 0x7 4) in
  let s := fst (aspeed_ast2600_scu_write s1 0x518 0x1 4) in
  fst (aspeed_ast2600_scu_write s 0x510 0x8 4) = s
  /\ let s' := fst (aspeed_ast2600_scu_write s 0x514 0x2 4) in
     reg_get s' AST2600_HW_STRAP2 = Z.land (reg_get s AST2600_HW_STRAP2) (Z.lnot 0x2)
     /\ regs s' = <[Z.to_nat AST2600_HW_STRAP2 :=
                      Z.land (reg_get s AST2600_HW_STRAP2) (Z.lnot 0x2)]> (regs s)
     /\ reg_get s' AST2600_HW_STRAP2_PROT = reg_get s AST2600_HW_STRAP2_PROT.
Proof.
  intros s0 s1 s.
  pose proof (ast2600_strap_clear_not_gated s 0x510 0x514 0x2 4
                AST2600_HW_STRAP2 AST2600_HW_STRAP2_CLR AST2600_HW_STRAP2_PROT) as H.
  split.
  - refine (proj1 (ast2600_strap_clear_not_gated s 0x510 0x514 0x8 4
                     AST2600_HW_STRAP2 AST2600_HW_STRAP2_CLR AST2600_HW_STRAP2_PROT
                     _ _ _ _ _ _ _)).
    + state_ok.
    + closed_offset_ok.
    + closed_offset_ok.
    + right. left. reflexivity.
    + reflexivity.
    + reflexivity.
    + vm_compute. discriminate.
  - apply H.
    + state_ok.
    + closed_offset_ok.
    + closed_offset_ok.
    + right. left. reflexivity.
    + reflexivity.
    + reflexivity.
    + vm_compute. discriminate.
Defined.

Example ast2600_strap_clear_readback :
  let s0 := scu_reset AST2600 (power_on 0x05030303 0) in
  let s1 := fst (aspeed_ast2600_scu_write s0 0x510 0x7 4) in
  let s := fst (aspeed_ast2600_scu_write s1 0x518 0x1 4) in
  reg_get s AST2600_HW_STRAP2 = 0x7
  /\ reg_get s AST2600_HW_STRAP2_PROT = 0x1
  /\ reg_get (fst (aspeed_ast2600_scu_write s 0x510 0x8 4)) AST2600_HW_STRAP2 = 0x7
  /\ reg_get (fst (aspeed_ast2600_scu_write s 0x514 0x2 4)) AST2600_HW_STRAP2 = 0x5.
Proof. repeat split. Qed.

(** ** AST2500 strap aliasing (C9) *)

(** C9 at an input: HW_STRAP1 holds 0x6. *)
Lemma ast2500_strap_or_and_alias_witness :
  let s0 := scu_reset AST2500 (power_on 0x04010303 0x1688A8A8) in
  let s := fst (aspeed_ast2500_scu_write s0 0x70 0x6 4) in
  reg_get (fst (aspeed_ast2500_scu_write s 0x70 0x9 4)) HW_STRAP1
    = Z.lor (reg_get s HW_STRAP1) 0x9
  /\ reg_get (fst (aspeed_ast2500_scu_write s 0x7C 0x2 4)) HW_STRAP1
    = Z.land (reg_get s HW_STRAP1) (Z.lnot 0x2)
  /\ reg_get (fst (aspeed_ast2500_scu_write s 0x7C 0x2 4)) SILICON_REV
    = reg_get s SILICON_REV
  /\ fst (aspeed_ast2400_scu_write s 0x7C 0x2 4) = s.
Proof.
  intros s0 s.
  assert (Hs : scu_state_ok s) by state_ok.
  assert (H70 : offset_ok 0x70) by closed_offset_ok.
  assert (H7C : offset_ok 0x7C) by closed_offset_ok.
  destruct (ast2500_strap_or_and_alias s 0x70 0x9 4 Hs H70) as (Hor & _ & _).
  destruct (ast2500_strap_or_and_alias s 0x7C 0x2 4 Hs H7C) as (_ & Hand & _).
  destruct (Hor eq_refl) as (_ & _ & Hor' & _).
  destruct (Hand eq_refl) as (Ha & _ & Hb & Hc).
  split; [apply Hor'; split; vm_compute; congruence|].
  split; [exact Ha|]. split; [exact Hb | exact Hc].
Defined.

Example ast2500_strap_readback :
  let s0 := scu_reset AST2500 (power_on 0x04010303 0x1688A8A8) in
  let s := fst (aspeed_ast2500_scu_write s0 0x70 0x6 4) in
  reg_get s HW_STRAP1 = 0x6
  /\ reg_get (fst (aspeed_ast2500_scu_write s 0x70 0x9 4)) HW_STRAP1 = 0xF
  /\ reg_get (fst (aspeed_ast2500_scu_write s 0x7C 0x2 4)) HW_STRAP1 = 0x4
  /\ reg_get (fst (aspeed_ast2400_scu_write s 0x70 0x9 4)) HW_STRAP1 = 0x9.
Proof. repeat split. Qed.

(** ** APB frequency (C6) *)

(** C6, counterexample.  An AST2500 whose H-PLL is put in bypass (off
    bit clear): the H-PLL output is the 24 MHz input clock, but
    [get_apb_freq] returns it divided by the PCLK divider (7 + 1 after
    reset) and the APB divider 4.  And an AST2400 in bypass without the
    "programmed" bit takes its H-PLL frequency from the strap table. *)
Lemma apb_freq_bypass_is_divided :
  (let s0 := scu_reset AST2500 (power_on 0x04010303 0) in
   let s1 := fst (scu_write AST2500 s0 0x00 0x1688A8A8 4) in
   let s := fst (scu_write AST2500 s1 0x24 0x100000 4) in
   Z.land (reg_get s HPLL_PARAM) (h_pll_off AST2500) = 0
   /\ Z.land (reg_get s HPLL_PARAM) (h_pll_bypass_en AST2500) <> 0
   /\ aspeed_scu_get_clkin s = 24000000
   /\ scu_get_apb_freq AST2500 s = 750000)
  /\ (let a0 := scu_reset AST2400 (power_on 0x02010303 0x1688A8A8) in
      let a := fst (scu_write AST2400 a0 0x24 0x20000 4) in
      Z.land (reg_get a HPLL_PARAM) (h_pll_off AST2400) = 0
      /\ Z.land (reg_get a HPLL_PARAM) (h_pll_bypass_en AST2400) <> 0
      /\ aspeed_scu_get_clkin a = 24000000
      /\ aspeed_2400_scu_calc_hpll a (reg_get a HPLL_PARAM) = 384000000).
Proof. split; repeat split; vm_compute; congruence. Qed.

(** C6 at an input: the AST2500 above with the H-PLL off, and in bypass. *)
Lemma apb_freq_off_and_bypass_witness :
  let s0 := scu_reset AST2500 (power_on 0x04010303 0) in
  let s1 := fst (scu_write AST2500 s0 0x00 0x1688A8A8 4) in
  let s := fst (scu_write AST2500 s1 0x24 0x100000 4) in
  let s_off := fst (scu_write AST2500 s1 0x24 0x180000 4) in
  scu_get_apb_freq AST2500 s_off = 0
  /\ aspeed_2500_scu_calc_hpll s (reg_get s HPLL_PARAM) = aspeed_scu_get_clkin s
  /\ scu_get_apb_freq AST2500 s
     = aspeed_scu_get_clkin s / (SCU_CLK_GET_PCLK_DIV (reg_get s CLK_SEL) + 1) / 4.
Proof.
  intros s0 s1 s s_off.
  destruct (apb_freq_off_and_bypass AST2500 s_off (or_intror eq_refl)) as [Hoff _].
  destruct (apb_freq_off_and_bypass AST2500 s (or_intror eq_refl)) as [_ Hbyp].
  split; [apply Hoff; vm_compute; discriminate|].
  destruct Hbyp as (H1 & _ & H2 & _).
  - reflexivity.
  - vm_compute. discriminate.
  - discriminate.
  - split; [exact H1 | exact H2].
Defined.

End Concrete.

(** * Further properties of the access paths *)

Section Accesses.
Context {hdr : aspeed_scu_h}.

Lemma insert_reg_get (s : AspeedSCUState) (t : Z) :
  <[Z.to_nat t := reg_get s t]> (regs s) = regs s.
Proof.
  apply list_insert_id'. intros Hlt. unfold reg_get.
  destruct (lookup_lt_is_Some_2 (regs s) (Z.to_nat t) Hlt) as [x Hx].
  rewrite Hx. reflexivity.
Qed.

Lemma insert_reg_get_set (s : AspeedSCUState) (t w : Z) :
  <[Z.to_nat t := reg_get (reg_set s t w) t]> (regs s) = regs (reg_set s t w).
Proof.
  rewrite regs_reg_set.
  destruct (Nat.lt_ge_cases (Z.to_nat t) (length (regs s))) as [Hlt|Hge].
  - rewrite reg_get_set_eq by assumption. reflexivity.
  - rewrite !list_insert_ge by assumption. reflexivity.
Qed.

Lemma ast2600_w1c_target (reg : Z) :
  ast2600_w1c_case reg = true -> 16 <= reg - 1 < 365.
Proof.
  intros H.
  destruct (ast2600_w1c_case_inv _ H) as [E|[E|[E|[E|[E|E]]]]]; rewrite E;
    vm_compute; split; congruence.
Qed.

(** The shape of every write: either nothing is assigned, or exactly the
    slot {!write_target} is, inside the register count of the revision. *)
Lemma scu_write_shape (rev : revision) (s : AspeedSCUState) (offset v size : Z) :
  offset_ok offset ->
  let t := write_target rev (TO_REG offset) in
  fst (scu_write rev s offset v size) = s
  \/ (TO_REG offset < scu_nr_regs rev /\ 0 <= t < scu_nr_regs rev
      /\ exists w, fst (scu_write rev s offset v size) = reg_set s t w).
Proof.
  intros Hok t. destruct (offset_ok_reg _ Hok) as [Hint Hnn].
  pose proof nr_regs_bounds as (Hb1 & Hb2 & Hb3).
  subst t. destruct rev; unfold scu_write, scu_nr_regs, write_target; simpl;
    unfold aspeed_ast2400_scu_write, aspeed_ast2500_scu_write,
      aspeed_ast2600_scu_write;
    rewrite Hint; set (reg := TO_REG offset) in *.
  - destruct (Z.leb_spec ASPEED_SCU_NR_REGS reg); simpl; [tauto|].
    destruct (reg =? PROT_KEY); simpl; [right; eauto with lia|].
    destruct (ast2400_ro_case reg); simpl; [tauto|]. right. eauto with lia.
  - destruct (Z.leb_spec ASPEED_SCU_NR_REGS reg); simpl; [tauto|].
    destruct (Z.eqb_spec reg SILICON_REV) as [E|E].
    + rewrite E. simpl. right. unfold SILICON_REV, HW_STRAP1 in *.
      split; [lia|]. split; [lia|]. eauto.
    + destruct (reg =? PROT_KEY); simpl; [right; eauto with lia|].
      destruct (Z.eqb_spec reg HW_STRAP1) as [E1|E1]; simpl.
      { rewrite E1. right. unfold HW_STRAP1 in *. eauto with lia. }
      destruct (ast2500_ro_case reg); simpl; [tauto|]. right. eauto with lia.
  - destruct (Z.leb_spec ASPEED_AST2600_SCU_NR_REGS reg); simpl; [tauto|].
    destruct (ast2600_w1c_case reg) eqn:Ec.
    + pose proof (ast2600_w1c_target _ Ec) as Ht.
      destruct (ast2600_w1c_case_inv _ Ec) as [E|[E|[E|[E|[E|E]]]]]; rewrite E;
        simpl; right; rewrite E in Ht; (split; [lia|]); (split; [lia|]); eauto.
    + destruct (reg =? AST2600_PROT_KEY); simpl; [right; eauto with lia|].
      destruct (ast2600_strap_case reg); simpl.
      { destruct (negb _); simpl; [tauto|]. right. eauto with lia. }
      destruct (ast2600_w1s_case reg); simpl; [right; eauto with lia|].
      destruct (ast2600_ro_case reg); simpl; [tauto|]. right. eauto with lia.
Qed.

Lemma scu_write_config (rev : revision) (s : AspeedSCUState) (offset v size : Z) :
  let s' := fst (scu_write rev s offset v size) in
  silicon_rev s' = silicon_rev s /\ hw_strap1 s' = hw_strap1 s
  /\ hw_strap2 s' = hw_strap2 s /\ hw_prot_key s' = hw_prot_key s.
Proof.
  destruct rev; unfold scu_write; simpl;
    unfold aspeed_ast2400_scu_write, aspeed_ast2500_scu_write,
      aspeed_ast2600_scu_write;
    repeat match goal with
           | |- context [if ?b then (_, _) else _] => destruct b; simpl
           end;
    repeat split.
Qed.

(** X1. For every revision, a write changes at most one slot of the
    register file, the one {!write_target} names for the addressed
    register (the register itself, HW_STRAP1 for the AST2500 SILICON_REV
    alias, the register one word below for an AST2600 W1C register); every
    other register and the four configuration words are as before. *)
Theorem write_changes_one_slot
    (rev : revision) (s : AspeedSCUState) (offset v size : Z) :
  offset_ok offset ->
  let s' := fst (scu_write rev s offset v size) in
  let t := write_target rev (TO_REG offset) in
  regs s' = <[Z.to_nat t := reg_get s' t]> (regs s)
  /\ (forall i, 0 <= i -> i <> t -> reg_get s' i = reg_get s i)
  /\ silicon_rev s' = silicon_rev s /\ hw_strap1 s' = hw_strap1 s
  /\ hw_strap2 s' = hw_strap2 s /\ hw_prot_key s' = hw_prot_key s.
Proof.
  intros Hok s' t.
  split; [|split; [|apply scu_write_config]].
  - destruct (scu_write_shape rev s offset v size Hok) as [E|(_ & _ & w & E)];
      subst s' t; rewrite E.
    + symmetry. apply insert_reg_get.
    + symmetry. apply insert_reg_get_set.
  - intros i Hi Hne.
    destruct (scu_write_shape rev s offset v size Hok) as [E|(_ & Ht & w & E)];
      subst s' t; rewrite E; [reflexivity|].
    apply reg_get_set_ne; [lia | assumption | congruence].
Qed.

(** *** Reads *)

Lemma rng_data_reg_bounds (rev : revision) : 0 <= rng_data_reg rev < scu_nr_regs rev.
Proof.
  pose proof nr_regs_bounds.
  destruct rev; unfold rng_data_reg, scu_nr_regs, RNG_DATA, AST2600_RNG_DATA;
    simpl; lia.
Qed.

(** The out-of-bounds branch of the two read functions. *)
Lemma out_of_bounds_read_inert
    (rev : revision) (rnd : Z) (s : AspeedSCUState) (offset size : Z) :
  offset_ok offset ->
  scu_nr_regs rev <= TO_REG offset ->
  scu_read rev rnd s offset size
    = (0, s, [LOG_GUEST_ERROR (OutOfBoundsRead offset)]).
Proof.
  intros Hok Hge. destruct (offset_ok_reg _ Hok) as [Hreg _].
  destruct rev; unfold scu_read, scu_nr_regs in *; simpl in *;
    unfold aspeed_scu_read, aspeed_ast2600_scu_read;
    rewrite Hreg; apply Z.leb_le in Hge; rewrite Hge; reflexivity.
Qed.

(** The shape of every read below the register count. *)
Lemma scu_read_spec (rev : revision) (rnd : Z) (s : AspeedSCUState) (offset size : Z) :
  offset_ok offset ->
  TO_REG offset < scu_nr_regs rev ->
  let reg := TO_REG offset in
  let s' := if reg =? rng_data_reg rev
            then reg_set s (rng_data_reg rev) (wrap32 rnd) else s in
  scu_read rev rnd s offset size
  = (match rev with
     | AST2600 =>
         if ast2600_pll_ext_case reg then Z.lor (reg_get s reg) (BIT 31)
         else reg_get s' reg
     | _ => reg_get s' reg
     end,
     s',
     match rev with
     | AST2600 => []
     | _ => if reg =? WAKEUP_EN
            then [LOG_GUEST_ERROR (WriteOnlyRead offset)] else []
     end).
Proof.
  intros Hok Hlt reg s'. destruct (offset_ok_reg _ Hok) as [Hint _].
  apply Z.leb_gt in Hlt. subst s' reg.
  destruct rev; unfold scu_read, scu_nr_regs, rng_data_reg in *; simpl in *;
    unfold aspeed_scu_read, aspeed_ast2600_scu_read, ast2600_pll_ext_case;
    rewrite Hint, Hlt; set (reg := TO_REG offset).
  - destruct (Z.eqb_spec reg RNG_DATA) as [E|E]; [rewrite E; reflexivity|].
    destruct (reg =? WAKEUP_EN); reflexivity.
  - destruct (Z.eqb_spec reg RNG_DATA) as [E|E]; [rewrite E; reflexivity|].
    destruct (reg =? WAKEUP_EN); reflexivity.
  - destruct (Z.eqb_spec reg AST2600_RNG_DATA) as [E|E].
    + rewrite E. reflexivity.
    + destruct ((reg =? AST2600_HPLL_EXT) || (reg =? AST2600_EPLL_EXT)
                || (reg =? AST2600_MPLL_EXT)); reflexivity.
Qed.

(** X2. For every revision, a read of any register other than the
    random-data register leaves the whole state as it was, in or out of
    bounds.  Below the register count it returns the stored word (on the
    AST2600 PLL-extension registers: the stored word with BIT(31) ORed in),
    and the only diagnostic is the write-only one for WAKEUP_EN on the two
    older generations, whose stored word is returned all the same. *)
Theorem read_of_other_than_rng_is_pure
    (rev : revision) (rnd : Z) (s : AspeedSCUState) (offset size : Z) :
  offset_ok offset ->
  TO_REG offset <> rng_data_reg rev ->
  let reg := TO_REG offset in
  let r := scu_read rev rnd s offset size in
  snd (fst r) = s
  /\ (reg < scu_nr_regs rev ->
      fst (fst r)
      = match rev with
        | AST2600 =>
            if ast2600_pll_ext_case reg then Z.lor (reg_get s reg) (BIT 31)
            else reg_get s reg
        | _ => reg_get s reg
        end
      /\ snd r
         = match rev with
           | AST2600 => []
           | _ => if reg =? WAKEUP_EN
                  then [LOG_GUEST_ERROR (WriteOnlyRead offset)] else []
           end).
Proof.
  intros Hok Hne reg r. apply Z.eqb_neq in Hne.
  destruct (Z_lt_le_dec reg (scu_nr_regs rev)) as [Hlt|Hge].
  - subst r reg. rewrite scu_read_spec by assumption. cbv zeta. rewrite Hne.
    split; [reflexivity|]. intros _. split; reflexivity.
  - split; [|intros; lia]. subst r reg.
    rewrite (out_of_bounds_read_inert rev rnd s offset size Hok Hge).
    reflexivity.
Qed.

Lemma scu_read_other_state
    (rev : revision) (rnd : Z) (s : AspeedSCUState) (offset size : Z) :
  offset_ok offset ->
  TO_REG offset <> rng_data_reg rev ->
  snd (fst (scu_read rev rnd s offset size)) = s.
Proof.
  intros Hok Hne. apply Z.eqb_neq in Hne.
  destruct (Z_lt_le_dec (TO_REG offset) (scu_nr_regs rev)) as [Hlt|Hge].
  - rewrite scu_read_spec by assumption. cbv zeta. rewrite Hne. reflexivity.
  - rewrite (out_of_bounds_read_inert rev rnd s offset size Hok Hge). reflexivity.
Qed.

(** X3. For every revision, a read of the random-data register draws one
    value, stores its low 32 bits in the register (and nowhere else) and
    returns them, without any diagnostic.  An immediately following read
    returns the next draw, and a read of any other register in between
    leaves the last draw in the register. *)
Theorem rng_data_read_draws_and_stores
    (rev : revision) (rnd : Z) (s : AspeedSCUState) (offset size : Z) :
  scu_state_ok s ->
  offset_ok offset ->
  TO_REG offset = rng_data_reg rev ->
  let r := scu_read rev rnd s offset size in
  let s1 := snd (fst r) in
  fst (fst r) = wrap32 rnd
  /\ s1 = reg_set s (rng_data_reg rev) (wrap32 rnd)
  /\ reg_get s1 (rng_data_reg rev) = wrap32 rnd
  /\ snd r = []
  /\ (forall rnd2 size2,
        fst (fst (scu_read rev rnd2 s1 offset size2)) = wrap32 rnd2)
  /\ (forall rnd' offset' size',
        offset_ok offset' -> TO_REG offset' <> rng_data_reg rev ->
        reg_get (snd (fst (scu_read rev rnd' s1 offset' size'))) (rng_data_reg rev)
        = wrap32 rnd).
Proof.
  intros Hs Hok Hreg r s1.
  pose proof (rng_data_reg_bounds rev) as Hb.
  pose proof (scu_nr_regs_le rev) as Hn.
  assert (Hfile : forall s0, scu_state_ok s0 ->
            (Z.to_nat (rng_data_reg rev) < length (regs s0))%nat)
    by (intros s0 H0; apply reg_in_file; [assumption|lia]).
  assert (Hread : forall rnd0 s0 size0, scu_state_ok s0 ->
            scu_read rev rnd0 s0 offset size0
            = (wrap32 rnd0, reg_set s0 (rng_data_reg rev) (wrap32 rnd0), [])).
  { intros rnd0 s0 size0 H0.
    rewrite scu_read_spec by (assumption || (rewrite Hreg; lia)).
    cbv zeta. rewrite Hreg, Z.eqb_refl.
    rewrite reg_get_set_eq by (apply Hfile; assumption).
    destruct rev; reflexivity. }
  assert (Hs1 : s1 = reg_set s (rng_data_reg rev) (wrap32 rnd))
    by (subst s1 r; rewrite Hread by assumption; reflexivity).
  assert (Hok1 : scu_state_ok s1)
    by (rewrite Hs1; apply reg_set_ok; [assumption | apply wrap32_range]).
  split; [subst r; rewrite Hread by assumption; reflexivity|].
  split; [assumption|].
  split; [rewrite Hs1; apply reg_get_set_eq, Hfile; assumption|].
  split; [subst r; rewrite Hread by assumption; reflexivity|].
  split.
  - intros rnd2 size2. rewrite Hread by assumption. reflexivity.
  - intros rnd' offset' size' Hok' Hne'.
    rewrite scu_read_other_state by assumption.
    rewrite Hs1. apply reg_get_set_eq, Hfile. assumption.
Qed.

(** *** Plain, read-only and PLL-extension registers *)

Lemma ro_case_bounds (rev : revision) (reg : Z) :
  read_only_register rev reg = true -> PROT_KEY < reg < scu_nr_regs rev.
Proof.
  pose proof nr_regs_bounds as (Hb1 & Hb2 & Hb3).
  destruct rev; unfold read_only_register, ast2400_ro_case, ast2500_ro_case,
    ast2600_ro_case, in_case_range, scu_nr_regs; simpl;
    rewrite !orb_true_iff, ?andb_true_iff, !Z.eqb_eq, ?Z.leb_le;
    unfold PROT_KEY, SILICON_REV, FREQ_CNTR_EVAL, VGA_SCRATCH1, VGA_SCRATCH8,
      RNG_DATA, FREE_CNTR4, FREE_CNTR4_EXT, CHIP_ID0, CHIP_ID1,
      AST2600_RNG_DATA, AST2600_SILICON_REV, AST2600_SILICON_REV2,
      AST2600_CHIP_ID0, AST2600_CHIP_ID1; lia.
Qed.

Lemma ast2500_ro_not_alias (reg : Z) :
  ast2500_ro_case reg = true -> (reg =? HW_STRAP1) = false /\ (reg =? SILICON_REV) = false.
Proof.
  unfold ast2500_ro_case, in_case_range.
  rewrite !orb_true_iff, ?andb_true_iff, !Z.eqb_eq, ?Z.leb_le, !Z.eqb_neq.
  unfold HW_STRAP1, SILICON_REV, FREQ_CNTR_EVAL, VGA_SCRATCH1, VGA_SCRATCH8,
    RNG_DATA, FREE_CNTR4, FREE_CNTR4_EXT, CHIP_ID0, CHIP_ID1. lia.
Qed.

Lemma ast2600_ro_not_other (reg : Z) :
  ast2600_ro_case reg = true ->
  ast2600_strap_case reg = false /\ ast2600_w1s_case reg = false
  /\ ast2600_w1c_case reg = false.
Proof.
  unfold ast2600_ro_case. rewrite !orb_true_iff, !Z.eqb_eq.
  intros [[[[-> | ->] | ->] | ->] | ->]; repeat split.
Qed.

(** X4. For every revision, a write to a register of the read-only
    [case] group leaves the whole state as it was, whatever the key
    register holds, and the write path logs the read-only diagnostic for
    exactly these registers. *)
Theorem read_only_write_discarded
    (rev : revision) (s : AspeedSCUState) (offset v size : Z) :
  offset_ok offset ->
  let reg := TO_REG offset in
  (read_only_register rev reg = true -> fst (scu_write rev s offset v size) = s)
  /\ (In (LOG_GUEST_ERROR (ReadOnlyWrite offset)) (snd (scu_write rev s offset v size))
      <-> read_only_register rev reg = true).
Proof.
  intros Hok reg. destruct (offset_ok_reg _ Hok) as [Hint Hnn].
  assert (Hlock' : forall (l : bool) d, In (LOG_GUEST_ERROR (ReadOnlyWrite offset))
                    ((if l then [LOG_GUEST_ERROR ScuLocked] else [])
                     ++ [trace_aspeed_scu_write offset size d]) -> False)
    by (intros [|] d; simpl; intuition discriminate).
  destruct (read_only_register rev reg) eqn:Ero.
  - pose proof (ro_case_bounds _ _ Ero) as [Hlo Hhi]. apply Z.leb_gt in Hhi.
    assert (Hkey : (reg =? PROT_KEY) = false)
      by (apply Z.eqb_neq; lia).
    destruct rev; unfold scu_write, scu_nr_regs, read_only_register in *;
      simpl in *;
      unfold aspeed_ast2400_scu_write, aspeed_ast2500_scu_write,
        aspeed_ast2600_scu_write;
      rewrite Hint; fold reg; rewrite Hhi.
    + rewrite Hkey, Ero. simpl. split; [intros _; reflexivity|].
      split; [intros _; reflexivity|].
      intros _. rewrite in_app_iff. right. left. reflexivity.
    + destruct (ast2500_ro_not_alias _ Ero) as [E1 E2].
      rewrite Hkey, E1, E2, Ero. simpl. split; [intros _; reflexivity|].
      split; [intros _; reflexivity|].
      intros _. rewrite in_app_iff. right. left. reflexivity.
    + destruct (ast2600_ro_not_other _ Ero) as (E1 & E2 & E3).
      change AST2600_PROT_KEY with PROT_KEY.
      rewrite Hkey, E1, E2, E3, Ero. simpl. split; [intros _; reflexivity|].
      split; [intros _; reflexivity|].
      intros _. rewrite in_app_iff. right. left. reflexivity.
  - split; [discriminate|]. split; [|discriminate]. intros Hin. exfalso.
    destruct rev; unfold scu_write, read_only_register, scu_locked_diag in *;
      simpl in *;
      unfold aspeed_ast2400_scu_write, aspeed_ast2500_scu_write,
        aspeed_ast2600_scu_write, scu_locked_diag in Hin;
      rewrite Hint in Hin; fold reg in Hin; rewrite ?Ero in Hin;
      repeat match type of Hin with
             | context [if ?b then (_, _) else _] => destruct b; simpl in Hin
             end;
      try (apply Hlock' in Hin; assumption);
      simpl in Hin; intuition discriminate.
Qed.

Lemma scu_write_plain (rev : revision) (s : AspeedSCUState) (offset v size : Z) :
  offset_ok offset ->
  PROT_KEY < TO_REG offset < scu_nr_regs rev ->
  plain_register rev (TO_REG offset) = true ->
  fst (scu_write rev s offset v size) = reg_set s (TO_REG offset) (wrap32 v).
Proof.
  intros Hok [Hlo Hhi] Hplain. destruct (offset_ok_reg _ Hok) as [Hint _].
  apply Z.leb_gt in Hhi.
  assert (Hkey : (TO_REG offset =? PROT_KEY) = false) by (apply Z.eqb_neq; lia).
  destruct rev; unfold scu_write, scu_nr_regs, plain_register in *; simpl in *;
    unfold aspeed_ast2400_scu_write, aspeed_ast2500_scu_write,
      aspeed_ast2600_scu_write;
    rewrite Hint, Hhi; change AST2600_PROT_KEY with PROT_KEY; rewrite Hkey;
    apply negb_true_iff in Hplain.
  - rewrite Hplain. reflexivity.
  - apply orb_false_iff in Hplain as [Hplain E3].
    apply orb_false_iff in Hplain as [E1 E2].
    rewrite E1, E2, E3. reflexivity.
  - apply orb_false_iff in Hplain as [Hplain E4].
    apply orb_false_iff in Hplain as [Hplain E3].
    apply orb_false_iff in Hplain as [E1 E2].
    rewrite E1, E2, E3, E4. reflexivity.
Qed.

Lemma plain_not_rng (rev : revision) (reg : Z) :
  plain_register rev reg = true -> reg <> rng_data_reg rev.
Proof.
  intros Hplain ->. destruct rev; discriminate.
Qed.

(** X5. For every revision and whatever the key register holds, a write
    to a plain register (one outside every special [case] group, above the
    key register and below the register count) stores the low 32 bits of
    the value in that register only, and a read of the register then
    returns them and changes nothing.  (On the AST2600 the PLL-extension
    registers are left out here: their read adds the lock bit.) *)
Theorem plain_register_round_trip
    (rev : revision) (rnd : Z) (s : AspeedSCUState) (offset v size size' : Z) :
  scu_state_ok s ->
  offset_ok offset ->
  PROT_KEY < TO_REG offset < scu_nr_regs rev ->
  plain_register rev (TO_REG offset) = true ->
  (rev = AST2600 -> ast2600_pll_ext_case (TO_REG offset) = false) ->
  let reg := TO_REG offset in
  let s1 := fst (scu_write rev s offset v size) in
  let r := scu_read rev rnd s1 offset size' in
  regs s1 = <[Z.to_nat reg := wrap32 v]> (regs s)
  /\ fst (fst r) = wrap32 v
  /\ snd (fst r) = s1.
Proof.
  intros Hs Hok Hrange Hplain Hext reg s1 r.
  pose proof (scu_nr_regs_le rev) as Hn.
  assert (Hs1 : s1 = reg_set s reg (wrap32 v))
    by (subst s1 reg; apply scu_write_plain; assumption).
  assert (Hne : (reg =? rng_data_reg rev) = false)
    by (apply Z.eqb_neq, plain_not_rng; assumption).
  assert (Hfile : (Z.to_nat reg < length (regs s))%nat)
    by (apply reg_in_file; [assumption | unfold PROT_KEY in *; subst reg; lia]).
  split; [rewrite Hs1; reflexivity|].
  subst r. rewrite scu_read_spec by (assumption || (subst reg; lia)).
  cbv zeta. fold reg. rewrite Hne, Hs1.
  rewrite reg_get_set_eq by assumption.
  split; [|reflexivity].
  destruct rev; try reflexivity.
  specialize (Hext eq_refl). fold reg in Hext. rewrite Hext. reflexivity.
Qed.

Lemma ast2600_pll_ext_inv (reg : Z) :
  ast2600_pll_ext_case reg = true ->
  reg = AST2600_HPLL_EXT \/ reg = AST2600_EPLL_EXT \/ reg = AST2600_MPLL_EXT.
Proof.
  unfold ast2600_pll_ext_case. rewrite !orb_true_iff, !Z.eqb_eq. tauto.
Qed.

Lemma testbit_BIT31 (n : Z) : Z.testbit (BIT 31) n = (n =? 31).
Proof.
  unfold BIT. destruct (Z_lt_le_dec n 0).
  - rewrite Z.testbit_neg_r by lia. symmetry. apply Z.eqb_neq. lia.
  - rewrite Z.shiftl_1_l, Z.pow2_bits_eqb by lia. apply Z.eqb_sym.
Qed.

(** X6. On the AST2600, a read of a PLL-extension register (HPLL, EPLL,
    MPLL) returns the stored word with bit 31 set and every other bit as
    stored, and leaves the state as it was: the lock bit is not stored.
    The registers are plainly writable, so after a write of [v] the
    register holds the low 32 bits of [v] and reads back as those with
    bit 31 set. *)
Theorem ast2600_pll_ext_reads_locked
    (rnd : Z) (s : AspeedSCUState) (offset v size : Z) :
  scu_state_ok s ->
  offset_ok offset ->
  ast2600_pll_ext_case (TO_REG offset) = true ->
  let reg := TO_REG offset in
  let r := aspeed_ast2600_scu_read rnd s offset size in
  let s' := fst (aspeed_ast2600_scu_write s offset v size) in
  snd (fst r) = s
  /\ Z.testbit (fst (fst r)) 31 = true
  /\ (forall n, n <> 31 -> Z.testbit (fst (fst r)) n = Z.testbit (reg_get s reg) n)
  /\ reg_get s' reg = wrap32 v
  /\ fst (fst (aspeed_ast2600_scu_read rnd s' offset size)) = Z.lor (wrap32 v) (BIT 31).
Proof.
  intros Hs Hok Hext reg r s'.
  pose proof nr_regs_bounds as (_ & Hn & _).
  assert (Hrange : PROT_KEY < reg < scu_nr_regs AST2600).
  { unfold scu_nr_regs; simpl.
    destruct (ast2600_pll_ext_inv _ Hext) as [E|[E|E]]; subst reg; rewrite E;
      unfold PROT_KEY, AST2600_HPLL_EXT, AST2600_EPLL_EXT, AST2600_MPLL_EXT; lia. }
  assert (Hplain : plain_register AST2600 reg = true)
    by (destruct (ast2600_pll_ext_inv _ Hext) as [E|[E|E]]; subst reg; rewrite E;
        reflexivity).
  assert (Hread : forall s0, scu_read AST2600 rnd s0 offset size
                             = (Z.lor (reg_get s0 reg) (BIT 31), s0, [])).
  { intros s0. rewrite scu_read_spec by (assumption || lia). cbv zeta.
    unfold reg. rewrite Hext.
    destruct (ast2600_pll_ext_inv _ Hext) as [E|[E|E]]; rewrite E; reflexivity. }
  assert (Hs' : s' = reg_set s reg (wrap32 v))
    by (apply (scu_write_plain AST2600); assumption).
  assert (Hfile : (Z.to_nat reg < length (regs s))%nat)
    by (apply reg_in_file; [assumption|];
        unfold scu_nr_regs, PROT_KEY in Hrange; simpl in Hrange; lia).
  change (aspeed_ast2600_scu_read rnd s offset size)
    with (scu_read AST2600 rnd s offset size) in r.
  change (aspeed_ast2600_scu_read rnd s' offset size)
    with (scu_read AST2600 rnd s' offset size).
  subst r. rewrite !Hread. simpl fst. simpl snd.
  split; [reflexivity|].
  split; [rewrite Z.lor_spec, testbit_BIT31; apply orb_true_r|].
  split.
  - intros n Hn31. rewrite Z.lor_spec, testbit_BIT31.
    apply Z.eqb_neq in Hn31. rewrite Hn31. apply orb_false_r.
  - rewrite Hs', reg_get_set_eq by assumption. split; reflexivity.
Qed.

(** *** The lock diagnostic and the key register *)

(** X7. The "SCU is locked" diagnostic is logged by a write exactly when
    the addressed register is above the key register and below the
    register count, the key register holds 0 and, on the two older
    generations, the register is below CPU2_BASE_SEG1: writes to the key
    register itself, out-of-bounds writes and, on the AST2400 and AST2500,
    writes from CPU2_BASE_SEG1 on are never diagnosed as locked. *)
Theorem scu_locked_logged_iff
    (rev : revision) (s : AspeedSCUState) (offset v size : Z) :
  offset_ok offset ->
  let reg := TO_REG offset in
  In (LOG_GUEST_ERROR ScuLocked) (snd (scu_write rev s offset v size))
  <-> (PROT_KEY < reg < scu_nr_regs rev
       /\ reg_get s PROT_KEY = 0
       /\ (rev = AST2600 \/ reg < CPU2_BASE_SEG1)).
Proof.
  intros Hok reg. destruct (offset_ok_reg _ Hok) as [Hint Hnn].
  destruct rev; unfold scu_write, scu_nr_regs; simpl;
    unfold aspeed_ast2400_scu_write, aspeed_ast2500_scu_write,
      aspeed_ast2600_scu_write, scu_locked_diag;
    rewrite Hint; fold reg;
    match goal with
    | |- context [?n <=? reg] => destruct (Z.leb_spec n reg)
    end;
    destruct (Z.ltb_spec PROT_KEY reg);
    try destruct (Z.ltb_spec reg CPU2_BASE_SEG1);
    destruct (Z.eqb_spec (reg_get s PROT_KEY) 0); simpl;
    repeat match goal with
           | |- context [if ?b then (_, _) else _] => destruct b; simpl
           end;
    rewrite ?in_app_iff; simpl;
    intuition (try discriminate; try lia; try congruence).
Qed.

(** X8. For every revision, what a write to any register other than
    the key register does to the register file does not depend on the key
    register: the write applied to the state with the key register set to
    [k] gives the state of the write applied first, with the key register
    set to [k]. *)
Theorem write_effect_independent_of_key
    (rev : revision) (s : AspeedSCUState) (offset v size k : Z) :
  offset_ok offset ->
  TO_REG offset <> PROT_KEY ->
  fst (scu_write rev (reg_set s PROT_KEY k) offset v size)
  = reg_set (fst (scu_write rev s offset v size)) PROT_KEY k.
Proof.
  intros Hok Hne. destruct (offset_ok_reg _ Hok) as [Hint Hnn].
  assert (Hpos : 0 < TO_REG offset) by (unfold PROT_KEY in Hne; lia).
  assert (Hget : forall j, 0 < j ->
            reg_get (reg_set s PROT_KEY k) j = reg_get s j)
    by (intros j Hj; apply reg_get_set_ne; unfold PROT_KEY; lia).
  assert (Hcomm : forall j w, 0 < j ->
            reg_set (reg_set s PROT_KEY k) j w = reg_set (reg_set s j w) PROT_KEY k)
    by (intros j w Hj; apply reg_set_commute; unfold PROT_KEY; lia).
  apply Z.eqb_neq in Hne.
  destruct rev; unfold scu_write; simpl;
    unfold aspeed_ast2400_scu_write, aspeed_ast2500_scu_write,
      aspeed_ast2600_scu_write;
    rewrite Hint; set (reg := TO_REG offset) in *;
    change AST2600_PROT_KEY with PROT_KEY; rewrite ?Hne.
  - destruct (ASPEED_SCU_NR_REGS <=? reg); simpl; [reflexivity|].
    destruct (ast2400_ro_case reg); simpl; [reflexivity|]. apply Hcomm. assumption.
  - destruct (ASPEED_SCU_NR_REGS <=? reg); simpl; [reflexivity|].
    rewrite (Hget HW_STRAP1) by reflexivity.
    destruct (reg =? HW_STRAP1); simpl; [apply Hcomm; reflexivity|].
    destruct (reg =? SILICON_REV); simpl; [apply Hcomm; reflexivity|].
    destruct (ast2500_ro_case reg); simpl; [reflexivity|]. apply Hcomm. assumption.
  - destruct (ASPEED_AST2600_SCU_NR_REGS <=? reg); simpl; [reflexivity|].
    rewrite (Hget reg) by assumption. rewrite (Hget (reg + 2)) by lia.
    destruct (ast2600_strap_case reg); simpl.
    { destruct (negb _); simpl; [reflexivity|]. apply Hcomm. assumption. }
    destruct (ast2600_w1s_case reg); simpl; [apply Hcomm; assumption|].
    destruct (ast2600_w1c_case reg) eqn:Ec; simpl.
    { pose proof (ast2600_w1c_target _ Ec).
      rewrite (Hget (reg - 1)) by lia. apply Hcomm. lia. }
    destruct (ast2600_ro_case reg); simpl; [reflexivity|]. apply Hcomm. assumption.
Qed.

(** X9. The write and read paths look at the offset only through its
    word index and never at the access size: two writes of the same value
    anywhere inside the same word, with any sizes, leave the same state,
    and two reads there return the same value and state.  (So on the
    AST2400, which takes 1- and 2-byte accesses, a byte write replaces the
    whole word.) *)
Theorem access_ignores_size_and_byte_lane
    (rev : revision) (rnd : Z) (s : AspeedSCUState) (o1 o2 v size1 size2 : Z) :
  offset_ok o1 ->
  offset_ok o2 ->
  TO_REG o1 = TO_REG o2 ->
  fst (scu_write rev s o1 v size1) = fst (scu_write rev s o2 v size2)
  /\ fst (scu_read rev rnd s o1 size1) = fst (scu_read rev rnd s o2 size2).
Proof.
  intros Hok1 Hok2 Heq.
  destruct (offset_ok_reg _ Hok1) as [Hint1 _].
  destruct (offset_ok_reg _ Hok2) as [Hint2 _].
  split.
  - destruct rev; unfold scu_write; simpl;
      unfold aspeed_ast2400_scu_write, aspeed_ast2500_scu_write,
        aspeed_ast2600_scu_write;
      rewrite Hint1, Hint2, Heq;
      repeat match goal with
             | |- context [if ?b then (_, _) else _] => destruct b; simpl
             end;
      reflexivity.
  - destruct rev; unfold scu_read; simpl;
      unfold aspeed_scu_read, aspeed_ast2600_scu_read;
      rewrite Hint1, Hint2, Heq;
      repeat match goal with
             | |- context [if ?b then _ else _] => destruct b; simpl
             end;
      reflexivity.
Qed.

(** *** AST2600: composing W1S and W1C writes *)

Lemma ast2600_w1s_has_clear (reg : Z) :
  ast2600_w1s_case reg = true ->
  ast2600_w1c_case (reg + 1) = true /\ 0 < reg < 365.
Proof.
  intros H. destruct (ast2600_w1s_case_inv _ H) as [E|[E|[E|E]]]; rewrite E;
    (split; [reflexivity | vm_compute; split; congruence]).
Qed.

Lemma lor_land_absorb (a b : Z) : Z.land (Z.lor a b) a = a.
Proof.
  apply Z.bits_inj'. intros n _. rewrite Z.land_spec, Z.lor_spec.
  destruct (Z.testbit a n), (Z.testbit b n); reflexivity.
Qed.

Lemma land_land_absorb (a b : Z) : Z.land (Z.land a b) a = Z.land a b.
Proof.
  apply Z.bits_inj'. intros n _. rewrite !Z.land_spec.
  destruct (Z.testbit a n), (Z.testbit b n); reflexivity.
Qed.

Lemma set_then_clear (old v : Z) :
  is_uint32 old ->
  Z.land (Z.lor old (wrap32 v)) (Z.lnot v) = Z.land old (Z.lnot v).
Proof.
  intros Ho. apply Z.bits_inj'. intros n Hn.
  rewrite !Z.land_spec, Z.lor_spec, Z.lnot_spec, wrap32_testbit by assumption.
  destruct (Z.ltb_spec n 32).
  - destruct (Z.testbit old n), (Z.testbit v n); reflexivity.
  - rewrite uint32_testbit_high by (assumption || lia). reflexivity.
Qed.

Lemma clear_then_set (old v : Z) :
  is_uint32 old ->
  Z.lor (Z.land old (Z.lnot v)) (wrap32 v) = Z.lor old (wrap32 v).
Proof.
  intros Ho. apply Z.bits_inj'. intros n Hn.
  rewrite !Z.lor_spec, Z.land_spec, Z.lnot_spec, wrap32_testbit by assumption.
  destruct (Z.ltb_spec n 32).
  - destruct (Z.testbit old n), (Z.testbit v n); reflexivity.
  - rewrite uint32_testbit_high by (assumption || lia). reflexivity.
Qed.

Lemma reg_set_twice (s : AspeedSCUState) (i v w : Z) :
  reg_set (reg_set s i v) i w = reg_set s i w.
Proof. unfold reg_set. simpl. f_equal. apply list_insert_insert_eq. Qed.

(** X10. On the AST2600, for each of the four W1S registers (system
    reset control 1 and 2, clock stop control 1 and 2) and its clear
    register one word above: a set write ORs the low 32 bits of the value
    in and clears no bit; a clear write sets no bit; each of the two is
    idempotent; set-then-clear of [v] leaves [old & ~v], and
    clear-then-set of [v] leaves [old | v]. *)
Theorem ast2600_w1s_w1c_compose
    (s : AspeedSCUState) (off_set off_clr v size : Z) :
  scu_state_ok s ->
  offset_ok off_set ->
  offset_ok off_clr ->
  ast2600_w1s_case (TO_REG off_set) = true ->
  TO_REG off_clr = TO_REG off_set + 1 ->
  let set := TO_REG off_set in
  let old := reg_get s set in
  let W := fun s0 => fst (aspeed_ast2600_scu_write s0 off_set v size) in
  let C := fun s0 => fst (aspeed_ast2600_scu_write s0 off_clr v size) in
  reg_get (W s) set = Z.lor old (wrap32 v)
  /\ Z.land (reg_get (W s) set) old = old
  /\ Z.land (reg_get (C s) set) old = reg_get (C s) set
  /\ W (W s) = W s
  /\ C (C s) = C s
  /\ reg_get (C (W s)) set = Z.land old (Z.lnot v)
  /\ reg_get (W (C s)) set = Z.lor old (wrap32 v).
Proof.
  intros Hs Hoks Hokc Hcase Hclr set old W C.
  destruct (ast2600_w1s_has_clear _ Hcase) as [Hc Hrange].
  pose proof nr_regs_bounds as (_ & Hn & _).
  assert (HW : forall s0, W s0 = reg_set s0 set (Z.lor (reg_get s0 set) (wrap32 v)))
    by (intros s0; apply ast2600_write_w1s; assumption).
  assert (HC : forall s0, scu_state_ok s0 ->
            C s0 = reg_set s0 set (Z.land (reg_get s0 set) (Z.lnot v))).
  { intros s0 H0. unfold C.
    rewrite ast2600_write_w1c by (assumption || (rewrite Hclr; assumption)).
    rewrite Hclr. replace (TO_REG off_set + 1 - 1) with set by (subst set; lia).
    rewrite land_not32 by (apply state_ok_uint32; assumption). reflexivity. }
  assert (Hfile : forall s0, scu_state_ok s0 ->
            (Z.to_nat set < length (regs s0))%nat)
    by (intros s0 H0; apply reg_in_file; [assumption | subst set; lia]).
  assert (Hold : is_uint32 old) by (apply state_ok_uint32; assumption).
  assert (HWok : scu_state_ok (W s)).
  { rewrite HW. apply reg_set_ok; [assumption|].
    apply lor_uint32; [assumption | apply wrap32_range]. }
  assert (HCok : scu_state_ok (C s)).
  { rewrite HC by assumption. apply reg_set_ok; [assumption|].
    apply land_uint32_l. assumption. }
  assert (HWget : reg_get (W s) set = Z.lor old (wrap32 v))
    by (rewrite HW; apply reg_get_set_eq, Hfile; assumption).
  assert (HCget : reg_get (C s) set = Z.land old (Z.lnot v))
    by (rewrite HC by assumption; apply reg_get_set_eq, Hfile; assumption).
  split; [assumption|].
  split; [rewrite HWget; apply lor_land_absorb|].
  split; [rewrite HCget; apply land_land_absorb|].
  split.
  { rewrite (HW (W s)), HWget, (HW s), reg_set_twice. fold old.
    rewrite <- Z.lor_assoc, Z.lor_diag. reflexivity. }
  split.
  { rewrite (HC (C s)) by assumption. rewrite HCget, (HC s) by assumption.
    rewrite reg_set_twice. fold old.
    rewrite <- Z.land_assoc, Z.land_diag. reflexivity. }
  split.
  - rewrite (HC (W s)) by assumption.
    rewrite reg_get_set_eq by (apply Hfile; assumption).
    rewrite HWget. apply set_then_clear. assumption.
  - rewrite (HW (C s)).
    rewrite reg_get_set_eq by (apply Hfile; assumption).
    rewrite HCget. apply clear_then_set. assumption.
Qed.

(** X11. On the AST2600 the protection register of a strap register is
    an ordinary register, so protection follows the last value written to
    it: after a write of [p] it holds the low 32 bits of [p]; a following
    write to the strap register is ignored when those are nonzero and ORed
    in when they are zero, so writing 0 lifts the protection again. *)
Theorem ast2600_strap_protection_follows_last_write
    (s : AspeedSCUState) (off_prot off_strap p v size strap clr prot : Z) :
  scu_state_ok s ->
  offset_ok off_prot ->
  offset_ok off_strap ->
  In (strap, clr, prot) ast2600_strap_regs ->
  TO_REG off_prot = prot ->
  TO_REG off_strap = strap ->
  let s1 := fst (aspeed_ast2600_scu_write s off_prot p size) in
  let s2 := fst (aspeed_ast2600_scu_write s1 off_strap v size) in
  reg_get s1 prot = wrap32 p
  /\ reg_get s1 strap = reg_get s strap
  /\ (wrap32 p <> 0 -> s2 = s1)
  /\ (wrap32 p = 0 -> reg_get s2 strap = Z.lor (reg_get s strap) (wrap32 v)).
Proof.
  intros Hs Hokp Hoks Hin Hprot Hstrap s1 s2.
  destruct (ast2600_strap_regs_inv _ _ _ Hin) as (Hcases & _ & Hpr).
  pose proof nr_regs_bounds as (_ & Hn & _).
  assert (Hrange : 320 <= strap <= 324)
    by (destruct Hcases as [-> | ->]; vm_compute; split; congruence).
  assert (Hs1 : s1 = reg_set s prot (wrap32 p)).
  { subst s1. rewrite <- Hprot.
    apply (scu_write_plain AST2600); try assumption.
    - rewrite Hprot, Hpr. unfold scu_nr_regs, PROT_KEY. simpl. lia.
    - rewrite Hprot, Hpr. destruct Hcases as [-> | ->]; reflexivity. }
  assert (Hfile : forall j, 0 <= j <= 326 -> (Z.to_nat j < length (regs s))%nat)
    by (intros j Hj; apply reg_in_file; [assumption | lia]).
  assert (Hg1 : reg_get s1 prot = wrap32 p)
    by (rewrite Hs1; apply reg_get_set_eq, Hfile; lia).
  assert (Hg2 : reg_get s1 strap = reg_get s strap)
    by (rewrite Hs1; apply reg_get_set_ne; lia).
  split; [assumption|]. split; [assumption|].
  subst s2. rewrite ast2600_write_strap by (assumption || (rewrite Hstrap; assumption)).
  rewrite Hstrap, <- Hpr, Hg1. split.
  - intros Hp. apply Z.eqb_neq in Hp. rewrite Hp. reflexivity.
  - intros Hp. rewrite Hp. simpl.
    rewrite reg_get_set_eq
      by (rewrite Hs1, regs_reg_set, length_insert; apply Hfile; lia).
    rewrite Hg2. reflexivity.
Qed.

End Accesses.

(** * Runs of the device *)

Section Runs.
Context {hdr : aspeed_scu_h}.

Ltac seeded_regs :=
  unfold PROT_KEY, SILICON_REV, HW_STRAP1, HW_STRAP2, AST2600_SILICON_REV,
    AST2600_SILICON_REV2, AST2600_HW_STRAP1, AST2600_HW_STRAP2 in *.

Lemma scu_reset_tail (rev : revision) (s : AspeedSCUState) :
  drop (Z.to_nat (scu_nr_regs rev)) (regs (scu_reset rev s))
  = drop (Z.to_nat (scu_nr_regs rev)) (regs s).
Proof.
  pose proof (scu_nr_regs_le rev) as Hn. pose proof (resets_length rev) as Hr.
  pose proof nr_regs_bounds as Hb.
  rewrite (regs_scu_reset rev s). cbv zeta.
  destruct rev;
    (rewrite !drop_insert_lt
       by (unfold scu_nr_regs in *; cbn [nr_regs asc scu_info
             aspeed_2400_scu_info aspeed_2500_scu_info aspeed_2600_scu_info] in *;
           seeded_regs; lia));
    apply memcpy_words_drop; assumption.
Qed.

Lemma reg_set_tail (s : AspeedSCUState) (n t w : Z) :
  0 <= t < n ->
  drop (Z.to_nat n) (regs (reg_set s t w)) = drop (Z.to_nat n) (regs s).
Proof. intros Ht. rewrite regs_reg_set. apply drop_insert_lt. lia. Qed.

Lemma scu_read_shape (rev : revision) (rnd : Z) (s : AspeedSCUState) (offset size : Z) :
  offset_ok offset ->
  snd (fst (scu_read rev rnd s offset size)) = s
  \/ snd (fst (scu_read rev rnd s offset size))
     = reg_set s (rng_data_reg rev) (wrap32 rnd).
Proof.
  intros Hok.
  destruct (Z_lt_le_dec (TO_REG offset) (scu_nr_regs rev)) as [Hlt|Hge].
  - rewrite scu_read_spec by assumption. cbv zeta.
    destruct (TO_REG offset =? rng_data_reg rev); [right|left]; reflexivity.
  - left. rewrite (out_of_bounds_read_inert rev rnd s offset size Hok Hge).
    reflexivity.
Qed.

(** What one operation keeps. *)
Lemma scu_step_frame (rev : revision) (s s' : AspeedSCUState) :
  scu_step rev s s' ->
  (silicon_rev s' = silicon_rev s /\ hw_strap1 s' = hw_strap1 s
   /\ hw_strap2 s' = hw_strap2 s /\ hw_prot_key s' = hw_prot_key s)
  /\ drop (Z.to_nat (scu_nr_regs rev)) (regs s')
     = drop (Z.to_nat (scu_nr_regs rev)) (regs s).
Proof.
  intros [s0|s0 rnd offset size Hok|s0 offset data size Hok].
  - split; [apply scu_reset_props | apply scu_reset_tail].
  - destruct (scu_read_shape rev rnd s0 offset size Hok) as [-> | ->].
    + repeat split.
    + split; [repeat split|]. apply reg_set_tail, rng_data_reg_bounds.
  - split; [apply scu_write_config|].
    destruct (scu_write_shape rev s0 offset data size Hok) as [-> | (_ & Ht & w & ->)].
    + reflexivity.
    + apply reg_set_tail. assumption.
Qed.

Lemma scu_run_frame (rev : revision) (s s' : AspeedSCUState) :
  scu_run rev s s' ->
  scu_state_ok s ->
  scu_state_ok s'
  /\ (silicon_rev s' = silicon_rev s /\ hw_strap1 s' = hw_strap1 s
      /\ hw_strap2 s' = hw_strap2 s /\ hw_prot_key s' = hw_prot_key s)
  /\ drop (Z.to_nat (scu_nr_regs rev)) (regs s')
     = drop (Z.to_nat (scu_nr_regs rev)) (regs s).
Proof.
  induction 1 as [s|s s' s'' _ IH Hstep]; intros Hs.
  - split; [assumption|]. repeat split.
  - destruct (IH Hs) as (Hok & (H1 & H2 & H3 & H4) & Hd).
    destruct (scu_step_frame _ _ _ Hstep) as ((E1 & E2 & E3 & E4) & Ed).
    split; [eapply scu_step_ok; eassumption|].
    split; [repeat split; congruence | congruence].
Qed.

(** X12. Along any sequence of resets, reads and writes of any revision,
    starting from any well-formed state: the register file keeps its
    length and every word stays within 32 bits; the four configuration
    words (silicon revision, strap words, initial key state) never change;
    and no word at or beyond the register count of the revision is ever
    modified (on the AST2400 and AST2500 these are the words of
    [s->regs] that only the AST2600 uses). *)
Theorem run_keeps_configuration_and_bounds
    (rev : revision) (s s' : AspeedSCUState) :
  scu_run rev s s' ->
  scu_state_ok s ->
  scu_state_ok s'
  /\ (silicon_rev s' = silicon_rev s /\ hw_strap1 s' = hw_strap1 s
      /\ hw_strap2 s' = hw_strap2 s /\ hw_prot_key s' = hw_prot_key s)
  /\ (forall i, scu_nr_regs rev <= i -> reg_get s' i = reg_get s i).
Proof.
  intros Hrun Hs.
  destruct (scu_run_frame _ _ _ Hrun Hs) as (Hok & Hcfg & Hd).
  split; [assumption|]. split; [assumption|].
  intros i Hi. unfold reg_get.
  pose proof (scu_nr_regs_le rev) as Hn.
  replace (Z.to_nat i)
    with (Z.to_nat (scu_nr_regs rev) + (Z.to_nat i - Z.to_nat (scu_nr_regs rev)))%nat
    by lia.
  rewrite <- !lookup_drop, Hd. reflexivity.
Qed.

(** X13. Reset erases the history: whatever sequence of resets, reads
    and writes led from a well-formed state [s] to [s'], resetting [s']
    gives exactly the state that resetting [s] gives. *)
Theorem reset_erases_history (rev : revision) (s s' : AspeedSCUState) :
  scu_run rev s s' ->
  scu_state_ok s ->
  scu_reset rev s' = scu_reset rev s.
Proof.
  intros Hrun Hs.
  destruct (scu_run_frame _ _ _ Hrun Hs) as (_ & (H1 & H2 & H3 & H4) & Hd).
  destruct (scu_reset_props rev s') as (E1 & E2 & E3 & E4).
  destruct (scu_reset_props rev s) as (F1 & F2 & F3 & F4).
  apply state_eq; try congruence.
  rewrite (regs_scu_reset rev s'), (regs_scu_reset rev s). cbv zeta.
  rewrite H1, H2, H3, H4.
  rewrite (memcpy_words_absorb (regs s) (regs s')) by assumption.
  reflexivity.
Qed.

End Runs.

(** * Further properties of the frequency query *)

Section Clocks.
Context {hdr : aspeed_scu_h}.

(** The query looks at two registers and one configuration word only. *)
Lemma apb_freq_depends (rev : revision) (s1 s2 : AspeedSCUState) :
  reg_get s1 HPLL_PARAM = reg_get s2 HPLL_PARAM ->
  reg_get s1 CLK_SEL = reg_get s2 CLK_SEL ->
  hw_strap1 s1 = hw_strap1 s2 ->
  scu_get_apb_freq rev s1 = scu_get_apb_freq rev s2.
Proof.
  intros H1 H2 H3. unfold scu_get_apb_freq, aspeed_scu_get_apb_freq.
  rewrite H1, H2.
  destruct rev; simpl calc_hpll;
    unfold aspeed_2400_scu_calc_hpll, aspeed_2500_scu_calc_hpll,
      aspeed_scu_get_clkin; rewrite H3; reflexivity.
Qed.

(** X14. For every revision, the APB frequency is computed from the
    words at HPLL_PARAM (offset 0x24) and CLK_SEL (offset 0x08) and from
    the configured strap word only.  No read changes it, and no write
    changes it unless the slot it assigns is one of these two: in
    particular not a write to a strap register, and on the AST2600 not a
    write to AST2600_HPLL_PARAM or AST2600_CLK_SEL. *)
Theorem apb_freq_frame
    (rev : revision) (rnd : Z) (s : AspeedSCUState) (offset v size : Z) :
  offset_ok offset ->
  scu_get_apb_freq rev (snd (fst (scu_read rev rnd s offset size)))
  = scu_get_apb_freq rev s
  /\ (write_target rev (TO_REG offset) <> HPLL_PARAM ->
      write_target rev (TO_REG offset) <> CLK_SEL ->
      scu_get_apb_freq rev (fst (scu_write rev s offset v size))
      = scu_get_apb_freq rev s).
Proof.
  intros Hok. split.
  - destruct (scu_read_shape rev rnd s offset size Hok) as [-> | ->];
      [reflexivity|].
    apply apb_freq_depends; try reflexivity;
      apply reg_get_set_ne; destruct rev; vm_compute; congruence.
  - intros Hh Hc.
    destruct (scu_write_shape rev s offset v size Hok) as [-> | (_ & Ht & w & ->)];
      [reflexivity|].
    apply apb_freq_depends; try reflexivity;
      apply reg_get_set_ne; try lia; try (vm_compute; congruence);
      congruence.
Qed.

Lemma land_ones_range (x k : Z) : 0 <= k -> 0 <= Z.land x (Z.ones k) < 2 ^ k.
Proof.
  intros Hk. rewrite Z.land_ones by assumption. apply Z.mod_pos_bound.
  apply Z.pow_pos_nonneg; lia.
Qed.

(** X15. The AST2500 formula (also used by the AST2600), PLL neither
    off nor in bypass: with P = bits 18:13, M = bits 12:5 and N = bits 4:0
    of the parameter register, the two truncating divisions amount to the
    single one [(M + 1) / ((N + 1) * (P + 1))]; this multiplier lies
    between 0 and 256 and is 0 exactly when [M + 1 < (N + 1) * (P + 1)];
    the result is the input clock times the multiplier, reduced modulo
    2^32, and is exact whenever the multiplier is at most 89. *)
Theorem ast2500_hpll_formula (s : AspeedSCUState) (hpll_reg : Z) :
  Z.land hpll_reg SCU_H_PLL_OFF = 0 ->
  Z.land hpll_reg SCU_H_PLL_BYPASS_EN = 0 ->
  let p := Z.land (Z.shiftr hpll_reg 13) 0x3f in
  let m := Z.land (Z.shiftr hpll_reg 5) 0xff in
  let n := Z.land hpll_reg 0x1f in
  let mult := (m + 1) / ((n + 1) * (p + 1)) in
  let clkin := aspeed_scu_get_clkin s in
  aspeed_2500_scu_calc_hpll s hpll_reg = wrap32 (clkin * mult)
  /\ 0 <= mult <= 256
  /\ (mult = 0 <-> m + 1 < (n + 1) * (p + 1))
  /\ (mult <= 89 -> aspeed_2500_scu_calc_hpll s hpll_reg = clkin * mult).
Proof.
  intros Hoff Hbyp p m n mult clkin.
  assert (Hp : 0 <= p < 64) by (exact (land_ones_range _ 6 ltac:(lia))).
  assert (Hm : 0 <= m < 256) by (exact (land_ones_range _ 8 ltac:(lia))).
  assert (Hn : 0 <= n < 32) by (exact (land_ones_range _ 5 ltac:(lia))).
  assert (Hd : 0 < (n + 1) * (p + 1)) by nia.
  assert (Hcalc : aspeed_2500_scu_calc_hpll s hpll_reg = wrap32 (clkin * mult)).
  { unfold aspeed_2500_scu_calc_hpll. apply Z.eqb_eq in Hoff, Hbyp.
    rewrite Hoff, Hbyp. simpl negb. cbv iota.
    fold p m n clkin. rewrite Z.div_div by lia. reflexivity. }
  assert (Hlo : 0 <= mult) by (apply Z.div_pos; lia).
  assert (Hhi : mult <= 256).
  { subst mult. apply Z.div_le_upper_bound; [assumption|]. nia. }
  split; [assumption|]. split; [lia|]. split.
  - split.
    + intros H0. destruct (Z_lt_le_dec (m + 1) ((n + 1) * (p + 1))) as [|Hge];
        [assumption|].
      assert (1 <= mult) by (subst mult; apply Z.div_le_lower_bound; lia). lia.
    + intros Hlt. subst mult. apply Z.div_small. lia.
  - intros H89. rewrite Hcalc. apply wrap32_small. unfold is_uint32.
    destruct (clkin_values s) as [E|[E|E]]; subst clkin; rewrite E; nia.
Qed.

(** X16. The AST2400 formula with the PLL on and the "programmed" bit
    clear: the frequency is taken from the strap table, whatever else the
    parameter register holds; it is one of 400, 375, 350, 425 MHz when the
    25 MHz strap bit is set and one of 384, 360, 336, 408 MHz otherwise,
    hence always between 336 and 425 MHz. *)
Theorem ast2400_strapped_hpll (s : AspeedSCUState) (hpll_reg : Z) :
  Z.land hpll_reg SCU_AST2400_H_PLL_OFF = 0 ->
  Z.land hpll_reg SCU_AST2400_H_PLL_PROGRAMMED = 0 ->
  let f := aspeed_2400_scu_calc_hpll s hpll_reg in
  (Z.land (hw_strap1 s) SCU_HW_STRAP_CLK_25M_IN <> 0 ->
   In f [400000000; 375000000; 350000000; 425000000])
  /\ (Z.land (hw_strap1 s) SCU_HW_STRAP_CLK_25M_IN = 0 ->
      In f [384000000; 360000000; 336000000; 408000000])
  /\ 336000000 <= f <= 425000000.
Proof.
  intros Hoff Hprog f.
  pose proof (h_pll_clk_range (hw_strap1 s)) as Hsel.
  assert (Hf : f = wrap32 (nth (Z.to_nat (SCU_AST2400_HW_STRAP_GET_H_PLL_CLK (hw_strap1 s)))
                               (nth (if negb (Z.land (hw_strap1 s) SCU_HW_STRAP_CLK_25M_IN =? 0)
                                     then 1%nat else 0%nat) hpll_ast2400_freqs []) 0
                           * 1000000)).
  { subst f. unfold aspeed_2400_scu_calc_hpll. apply Z.eqb_eq in Hoff, Hprog.
    rewrite Hoff, Hprog. simpl negb. cbv iota.
    rewrite (Z.mod_small _ (2 ^ 8)) by lia. reflexivity. }
  assert (Hcases : SCU_AST2400_HW_STRAP_GET_H_PLL_CLK (hw_strap1 s) = 0
                   \/ SCU_AST2400_HW_STRAP_GET_H_PLL_CLK (hw_strap1 s) = 1
                   \/ SCU_AST2400_HW_STRAP_GET_H_PLL_CLK (hw_strap1 s) = 2
                   \/ SCU_AST2400_HW_STRAP_GET_H_PLL_CLK (hw_strap1 s) = 3) by lia.
  assert (H25 : Z.land (hw_strap1 s) SCU_HW_STRAP_CLK_25M_IN <> 0 ->
                In f [400000000; 375000000; 350000000; 425000000]).
  { intros H. apply Z.eqb_neq in H. rewrite Hf, H.
    destruct Hcases as [E|[E|[E|E]]]; rewrite E; vm_compute; tauto. }
  assert (H24 : Z.land (hw_strap1 s) SCU_HW_STRAP_CLK_25M_IN = 0 ->
                In f [384000000; 360000000; 336000000; 408000000]).
  { intros H. apply Z.eqb_eq in H. rewrite Hf, H.
    destruct Hcases as [E|[E|[E|E]]]; rewrite E; vm_compute; tauto. }
  split; [assumption|]. split; [assumption|].
  destruct (Z.eq_dec (Z.land (hw_strap1 s) SCU_HW_STRAP_CLK_25M_IN) 0) as [E|E].
  - specialize (H24 E). simpl in H24. lia.
  - specialize (H25 E). simpl in H25. lia.
Qed.

End Clocks.

(** * Realize, and the SCU of the AST2600 SoC *)

Section RealizeFacts.
Context {hdr : aspeed_scu_h} {revs : aspeed_silicon_revs_h}.

Lemma silicon_rev_loop_spec (rest : list Z) (silicon_rev : Z) :
  silicon_rev_loop rest silicon_rev = true <-> In silicon_rev rest.
Proof.
  induction rest as [|r rest IH]; simpl.
  - split; [discriminate | tauto].
  - destruct (Z.eqb_spec silicon_rev r) as [->|Hne].
    + tauto.
    + rewrite IH. split; [tauto|]. intros [H|H]; [congruence | assumption].
Qed.

(** X17. [is_supported_silicon_rev] answers true exactly for the six
    identifiers of [aspeed_silicon_revs], and [aspeed_scu_realize] of any
    of the three SCU types fails with the unknown-revision error exactly
    when the configured silicon revision is none of them; the check does
    not look at the type, so any recognised revision is accepted by any
    type.  On success the MMIO window has the type's access functions and
    SCU_IO_REGION_SIZE bytes, and every offset inside the window has a
    word index that fits the [int] the access functions compute. *)
Theorem realize_checks_silicon_rev (rev : revision) (s : AspeedSCUState) :
  (is_supported_silicon_rev (silicon_rev s) = true
   <-> In (silicon_rev s) aspeed_silicon_revs)
  /\ (In (silicon_rev s) aspeed_silicon_revs ->
      aspeed_scu_realize (asc (scu_info rev)) s
      = inr {| mr_ops := ops (asc (scu_info rev));
               mr_size := SCU_IO_REGION_SIZE |})
  /\ (~ In (silicon_rev s) aspeed_silicon_revs ->
      aspeed_scu_realize (asc (scu_info rev)) s
      = inl (UnknownSiliconRevision (silicon_rev s)))
  /\ (forall mr offset,
        aspeed_scu_realize (asc (scu_info rev)) s = inr mr ->
        0 <= offset < mr_size mr -> offset_ok offset).
Proof.
  pose proof (silicon_rev_loop_spec aspeed_silicon_revs (silicon_rev s)) as Hspec.
  fold (is_supported_silicon_rev (silicon_rev s)) in Hspec.
  split; [exact Hspec|]. unfold aspeed_scu_realize. split; [|split].
  - intros Hin. apply Hspec in Hin. rewrite Hin. reflexivity.
  - intros Hnin. destruct (is_supported_silicon_rev (silicon_rev s)) eqn:E.
    + exfalso. apply Hnin, Hspec. reflexivity.
    + reflexivity.
  - intros mr offset Hmr Hoff.
    destruct (negb _); [discriminate|].
    injection Hmr as <-. simpl in Hoff. apply window_offset_ok. assumption.
Qed.

(** X18. The SCU that the AST2600 SoC creates is configured with
    [sc->silicon_rev] = AST2600_A1_SILICON_REV, which is a recognised
    revision: whatever strap words and initial key state the board sets,
    realize succeeds, and after reset both the primary and the secondary
    revision register hold AST2600_A1_SILICON_REV, the strap registers the
    board's strap words and the key register the board's key state. *)
Theorem ast2600_soc_scu_realizes_and_reports_a1 (strap1 strap2 prot_key : Z) :
  is_uint32 strap1 -> is_uint32 strap2 -> is_uint32 prot_key ->
  let s := aspeed_soc_ast2600_scu strap1 strap2 prot_key in
  aspeed_scu_realize (asc (scu_info AST2600)) s
  = inr {| mr_ops := aspeed_ast2600_scu_ops; mr_size := SCU_IO_REGION_SIZE |}
  /\ reg_get (scu_reset AST2600 s) AST2600_SILICON_REV = AST2600_A1_SILICON_REV
  /\ reg_get (scu_reset AST2600 s) AST2600_SILICON_REV2 = AST2600_A1_SILICON_REV
  /\ reg_get (scu_reset AST2600 s) AST2600_HW_STRAP1 = strap1
  /\ reg_get (scu_reset AST2600 s) AST2600_HW_STRAP2 = strap2
  /\ reg_get (scu_reset AST2600 s) PROT_KEY = prot_key.
Proof.
  intros H1 H2 Hk s.
  pose proof nr_regs_bounds as (_ & Hn & _).
  assert (Hs : scu_state_ok s).
  { apply constructed_ok. split; [reflexivity|].
    split; [apply a1_silicon_rev_uint32|]. repeat split; (apply H1 || apply H2 || apply Hk). }
  split.
  - unfold aspeed_scu_realize.
    assert (Hsup : is_supported_silicon_rev (silicon_rev s) = true).
    { apply silicon_rev_loop_spec. simpl. tauto. }
    rewrite Hsup. reflexivity.
  - rewrite !scu_reset_lookup
      by (assumption
          || (unfold scu_nr_regs, AST2600_SILICON_REV, AST2600_SILICON_REV2,
                AST2600_HW_STRAP1, AST2600_HW_STRAP2, PROT_KEY; simpl; lia)).
    repeat split.
Qed.

End RealizeFacts.

Section Affinity.
Context {cpu_h : arm_cpu_h}.

Lemma aff1_disjoint (cpu : Z) :
  0 <= cpu < 2 ^ ARM_AFF1_SHIFT ->
  Z.land (Z.shiftl 0xf ARM_AFF1_SHIFT) cpu = 0.
Proof.
  intros Hc. pose proof aff1_shift_range as Hk.
  apply Z.bits_inj'. intros n Hn. rewrite Z.land_spec, Z.bits_0.
  destruct (Z_lt_le_dec n ARM_AFF1_SHIFT).
  - rewrite Z.shiftl_spec_low by assumption. reflexivity.
  - assert (Z.testbit cpu n = false) as ->; [|apply andb_false_r].
    destruct (Z.eq_dec cpu 0) as [->|Hnz]; [apply Z.bits_0|].
    apply Z.bits_above_log2; [lia|].
    assert (Z.log2 cpu < ARM_AFF1_SHIFT) by (apply Z.log2_lt_pow2; lia). lia.
Qed.

(** X19. For a CPU index below [2 ^ ARM_AFF1_SHIFT],
    [aspeed_calc_affinity] returns the index in the bits below
    ARM_AFF1_SHIFT and the cluster id 0xf above them, so distinct CPUs
    get distinct affinities. *)
Theorem aspeed_calc_affinity_fields (cpu : Z) :
  0 <= cpu < 2 ^ ARM_AFF1_SHIFT ->
  aspeed_calc_affinity cpu = 0xf * 2 ^ ARM_AFF1_SHIFT + cpu
  /\ aspeed_calc_affinity cpu mod 2 ^ ARM_AFF1_SHIFT = cpu
  /\ aspeed_calc_affinity cpu / 2 ^ ARM_AFF1_SHIFT = 0xf
  /\ (forall cpu', 0 <= cpu' < 2 ^ ARM_AFF1_SHIFT ->
        aspeed_calc_affinity cpu' = aspeed_calc_affinity cpu -> cpu' = cpu).
Proof.
  intros Hc. pose proof aff1_shift_range as Hk.
  assert (Hval : forall c, 0 <= c < 2 ^ ARM_AFF1_SHIFT ->
            aspeed_calc_affinity c = 0xf * 2 ^ ARM_AFF1_SHIFT + c).
  { intros c Hcc. unfold aspeed_calc_affinity.
    rewrite <- Z.lxor_lor, <- Z.add_nocarry_lxor by (apply aff1_disjoint; assumption).
    rewrite Z.shiftl_mul_pow2 by lia.
    assert (Hpow : 0 < 2 ^ ARM_AFF1_SHIFT <= 2 ^ 27).
    { split; [apply Z.pow_pos_nonneg; lia|].
      apply Z.pow_le_mono_r; lia. }
    unfold to_int. rewrite (Z.mod_small (_ + 2 ^ 31)) by lia.
    rewrite Z.mod_small by lia. lia. }
  assert (Hpos : 0 < 2 ^ ARM_AFF1_SHIFT) by (apply Z.pow_pos_nonneg; lia).
  rewrite (Hval cpu Hc). split; [reflexivity|]. split; [|split].
  - rewrite Z.add_comm, Z.mod_add by lia. apply Z.mod_small. assumption.
  - rewrite Z.add_comm, Z.div_add by lia. rewrite Z.div_small by assumption.
    reflexivity.
  - intros cpu' Hc' Heq. rewrite (Hval cpu' Hc') in Heq. lia.
Qed.

End Affinity.

(** * The further properties on concrete inputs *)

Section ConcreteFurther.
#[local] Existing Instance qemu_aspeed_scu_h.
#[local] Existing Instance qemu_aspeed_silicon_revs_h.
#[local] Existing Instance qemu_arm_cpu_h.

Ltac state_ok := apply scu_state_okb_ok; vm_compute; reflexivity.
Ltac closed_offset_ok := split; vm_compute; discriminate.

(** X1 at an input: on the AST2500 a write addressed to SILICON_REV
    assigns HW_STRAP1. *)
Lemma write_changes_one_slot_witness :
  let s := fst (scu_write AST2500 (scu_reset AST2500 (power_on 0x04010303 0))
                  0x70 0x6 4) in
  let s' := fst (scu_write AST2500 s 0x7C 0x2 4) in
  regs s' = <[Z.to_nat HW_STRAP1 := reg_get s' HW_STRAP1]> (regs s)
  /\ (forall i, 0 <= i -> i <> HW_STRAP1 -> reg_get s' i = reg_get s i)
  /\ silicon_rev s' = silicon_rev s /\ hw_strap1 s' = hw_strap1 s
  /\ hw_strap2 s' = hw_strap2 s /\ hw_prot_key s' = hw_prot_key s.
Proof.
  intros s. refine (write_changes_one_slot AST2500 s 0x7C 0x2 4 _).
  closed_offset_ok.
Defined.

(** X2 at an input: WAKEUP_EN read on the AST2400. *)
Lemma read_of_other_than_rng_is_pure_witness :
  let s := scu_reset AST2400 (power_on 0x02010303 0) in
  let r := scu_read AST2400 7 s 0xC0 4 in
  snd (fst r) = s
  /\ fst (fst r) = reg_get s WAKEUP_EN
  /\ snd r = [LOG_GUEST_ERROR (WriteOnlyRead 0xC0)].
Proof.
  intros s r.
  destruct (read_of_other_than_rng_is_pure AST2400 7 s 0xC0 4) as [H1 H2].
  - closed_offset_ok.
  - vm_compute. discriminate.
  - split; [exact H1|]. apply H2. reflexivity.
Defined.

(** X3 at an input: the AST2600 random-data register. *)
Lemma rng_data_read_draws_and_stores_witness :
  let s := scu_reset AST2600 (power_on 0x05030303 0) in
  let r := scu_read AST2600 0x1DEADBEEF s 0x540 4 in
  fst (fst r) = 0xDEADBEEF
  /\ reg_get (snd (fst r)) AST2600_RNG_DATA = 0xDEADBEEF
  /\ snd r = []
  /\ fst (fst (scu_read AST2600 0x1234 (snd (fst r)) 0x540 4)) = 0x1234.
Proof.
  intros s r.
  destruct (rng_data_read_draws_and_stores AST2600 0x1DEADBEEF s 0x540 4)
    as (H1 & _ & H3 & H4 & H5 & _).
  - state_ok.
  - closed_offset_ok.
  - reflexivity.
  - split; [exact H1|]. split; [exact H3|]. split; [exact H4|].
    exact (H5 0x1234 4).
Defined.

(** X4 at an input: AST2600_CHIP_ID0. *)
Lemma read_only_write_discarded_witness :
  let s := scu_reset AST2600 (power_on 0x05030303 0x1688A8A8) in
  fst (scu_write AST2600 s 0x5B0 0xFFFFFFFF 4) = s
  /\ In (LOG_GUEST_ERROR (ReadOnlyWrite 0x5B0))
        (snd (scu_write AST2600 s 0x5B0 0xFFFFFFFF 4)).
Proof.
  intros s.
  destruct (read_only_write_discarded AST2600 s 0x5B0 0xFFFFFFFF 4) as [H1 H2].
  - closed_offset_ok.
  - split; [apply H1; reflexivity | apply H2; reflexivity].
Defined.

(** X5 at an input: MISC_CTRL1 of a locked AST2400. *)
Lemma plain_register_round_trip_witness :
  let s := scu_reset AST2400 (power_on 0x02010303 0) in
  let s1 := fst (scu_write AST2400 s 0x2C 0x1ABCD0123 4) in
  let r := scu_read AST2400 7 s1 0x2C 4 in
  regs s1 = <[Z.to_nat (TO_REG 0x2C) := wrap32 0x1ABCD0123]> (regs s)
  /\ fst (fst r) = wrap32 0x1ABCD0123
  /\ snd (fst r) = s1.
Proof.
  intros s. refine (plain_register_round_trip AST2400 7 s 0x2C 0x1ABCD0123 4 4 _ _ _ _ _).
  - state_ok.
  - closed_offset_ok.
  - split; reflexivity.
  - reflexivity.
  - discriminate.
Defined.

(** X6 at an input: AST2600_HPLL_EXT. *)
Lemma ast2600_pll_ext_reads_locked_witness :
  let s := scu_reset AST2600 (power_on 0x05030303 0) in
  let r := aspeed_ast2600_scu_read 7 s 0x204 4 in
  let s' := fst (aspeed_ast2600_scu_write s 0x204 0x31 4) in
  snd (fst r) = s
  /\ Z.testbit (fst (fst r)) 31 = true
  /\ (forall n, n <> 31 ->
        Z.testbit (fst (fst r)) n = Z.testbit (reg_get s (TO_REG 0x204)) n)
  /\ reg_get s' (TO_REG 0x204) = wrap32 0x31
  /\ fst (fst (aspeed_ast2600_scu_read 7 s' 0x204 4)) = Z.lor (wrap32 0x31) (BIT 31).
Proof.
  intros s. refine (ast2600_pll_ext_reads_locked 7 s 0x204 0x31 4 _ _ _).
  - state_ok.
  - closed_offset_ok.
  - reflexivity.
Defined.

(** X7 at an input: CPU2_BASE_SEG1 of a locked AST2500. *)
Lemma scu_locked_logged_iff_witness :
  let s := scu_reset AST2500 (power_on 0x04010303 0) in
  In (LOG_GUEST_ERROR ScuLocked) (snd (scu_write AST2500 s 0x104 0x1 4))
  <-> (PROT_KEY < TO_REG 0x104 < scu_nr_regs AST2500
       /\ reg_get s PROT_KEY = 0
       /\ (AST2500 = AST2600 \/ TO_REG 0x104 < CPU2_BASE_SEG1)).
Proof.
  intros s. refine (scu_locked_logged_iff AST2500 s 0x104 0x1 4 _).
  closed_offset_ok.
Defined.

Example scu_locked_logged_examples :
  let s := scu_reset AST2500 (power_on 0x04010303 0) in
  snd (scu_write AST2500 s 0x104 0x1 4) = [trace_aspeed_scu_write 0x104 4 0x1]
  /\ snd (scu_write AST2500 s 0x100 0x1 4)
     = [LOG_GUEST_ERROR ScuLocked; trace_aspeed_scu_write 0x100 4 0x1]
  /\ snd (scu_write AST2600 (scu_reset AST2600 (power_on 0x05030303 0)) 0x104 0x1 4)
     = [LOG_GUEST_ERROR ScuLocked; trace_aspeed_scu_write 0x104 4 0x1].
Proof. repeat split. Qed.

(** X8 at an input: AST2600_SYS_RST_CTRL, key register 0 or 1. *)
Lemma write_effect_independent_of_key_witness :
  let s := scu_reset AST2600 (power_on 0x05030303 0) in
  fst (scu_write AST2600 (reg_set s PROT_KEY 1) 0x40 0x7 4)
  = reg_set (fst (scu_write AST2600 s 0x40 0x7 4)) PROT_KEY 1.
Proof.
  intros s. refine (write_effect_independent_of_key AST2600 s 0x40 0x7 4 1 _ _).
  - closed_offset_ok.
  - vm_compute. discriminate.
Defined.

(** X9 at an input: a one-byte write to the last byte of MISC_CTRL1 on
    the AST2400 against a four-byte write to the word. *)
Lemma access_ignores_size_and_byte_lane_witness :
  let s := scu_reset AST2400 (power_on 0x02010303 0x1688A8A8) in
  fst (scu_write AST2400 s 0x2F 0xAB 1) = fst (scu_write AST2400 s 0x2C 0xAB 4)
  /\ fst (scu_read AST2400 7 s 0x2F 1) = fst (scu_read AST2400 7 s 0x2C 4).
Proof.
  intros s. refine (access_ignores_size_and_byte_lane AST2400 7 s 0x2F 0x2C 0xAB 1 4 _ _ _).
  - closed_offset_ok.
  - closed_offset_ok.
  - reflexivity.
Defined.

Example byte_write_replaces_word :
  let s := scu_reset AST2400 (power_on 0x02010303 0x1688A8A8) in
  reg_get s MISC_CTRL2 = 0x23
  /\ reg_get (fst (scu_write AST2400 s 0x4F 0xAB 1)) MISC_CTRL2 = 0xAB.
Proof. split; reflexivity. Qed.

(** X10 at an input: AST2600_CLK_STOP_CTRL and its clear register. *)
Lemma ast2600_w1s_w1c_compose_witness :
  let s := scu_reset AST2600 (power_on 0x05030303 0) in
  let set := TO_REG 0x80 in
  let old := reg_get s set in
  let W := fun s0 => fst (aspeed_ast2600_scu_write s0 0x80 0x75 4) in
  let C := fun s0 => fst (aspeed_ast2600_scu_write s0 0x84 0x75 4) in
  reg_get (W s) set = Z.lor old (wrap32 0x75)
  /\ Z.land (reg_get (W s) set) old = old
  /\ Z.land (reg_get (C s) set) old = reg_get (C s) set
  /\ W (W s) = W s
  /\ C (C s) = C s
  /\ reg_get (C (W s)) set = Z.land old (Z.lnot 0x75)
  /\ reg_get (W (C s)) set = Z.lor old (wrap32 0x75).
Proof.
  intros s. refine (ast2600_w1s_w1c_compose s 0x80 0x84 0x75 4 _ _ _ _ _).
  - state_ok.
  - closed_offset_ok.
  - closed_offset_ok.
  - reflexivity.
  - reflexivity.
Defined.

(** X11 at an input: HW_STRAP1 protected, then released. *)
Lemma ast2600_strap_protection_follows_last_write_witness :
  let s := scu_reset AST2600 (power_on 0x05030303 0) in
  let s_prot := fst (aspeed_ast2600_scu_write s 0x508 0x1 4) in
  let s_open := fst (aspeed_ast2600_scu_write s_prot 0x508 0x0 4) in
  fst (aspeed_ast2600_scu_write s_prot 0x500 0x3 4) = s_prot
  /\ reg_get (fst (aspeed_ast2600_scu_write s_open 0x500 0x3 4)) AST2600_HW_STRAP1
     = Z.lor (reg_get s_prot AST2600_HW_STRAP1) (wrap32 0x3).
Proof.
  intros s s_prot s_open. split.
  - refine (proj1 (proj2 (proj2
      (ast2600_strap_protection_follows_last_write s 0x508 0x500 0x1 0x3 4
         AST2600_HW_STRAP1 AST2600_HW_STRAP1_CLR AST2600_HW_STRAP1_PROT
         _ _ _ _ _ _))) _).
    + state_ok.
    + closed_offset_ok.
    + closed_offset_ok.
    + left. reflexivity.
    + reflexivity.
    + reflexivity.
    + vm_compute. discriminate.
  - refine (proj2 (proj2 (proj2
      (ast2600_strap_protection_follows_last_write s_prot 0x508 0x500 0x0 0x3 4
         AST2600_HW_STRAP1 AST2600_HW_STRAP1_CLR AST2600_HW_STRAP1_PROT
         _ _ _ _ _ _))) _).
    + state_ok.
    + closed_offset_ok.
    + closed_offset_ok.
    + left. reflexivity.
    + reflexivity.
    + reflexivity.
    + reflexivity.
Defined.

(** A run of the AST2500: reset, unlock, a W1S-like strap write, a random
    read. *)
Lemma example_run :
  let s0 := power_on 0x04010303 0 in
  let s1 := scu_reset AST2500 s0 in
  let s2 := fst (scu_write AST2500 s1 0x00 0x1688A8A8 4) in
  let s3 := fst (scu_write AST2500 s2 0x70 0x6 4) in
  let s4 := snd (fst (scu_read AST2500 0x55AA s3 0x78 4)) in
  scu_run AST2500 s0 s4.
Proof.
  intros s0 s1 s2 s3 s4.
  apply (run_step _ _ s3); [|apply step_read; closed_offset_ok].
  apply (run_step _ _ s2); [|apply step_write; closed_offset_ok].
  apply (run_step _ _ s1); [|apply step_write; closed_offset_ok].
  apply (run_step _ _ s0); [apply run_nil | apply step_reset].
Qed.

(** X12 at an input: the run above. *)
Lemma run_keeps_configuration_and_bounds_witness :
  let s0 := power_on 0x04010303 0 in
  let s1 := scu_reset AST2500 s0 in
  let s2 := fst (scu_write AST2500 s1 0x00 0x1688A8A8 4) in
  let s3 := fst (scu_write AST2500 s2 0x70 0x6 4) in
  let s4 := snd (fst (scu_read AST2500 0x55AA s3 0x78 4)) in
  scu_state_ok s4
  /\ (silicon_rev s4 = silicon_rev s0 /\ hw_strap1 s4 = hw_strap1 s0
      /\ hw_strap2 s4 = hw_strap2 s0 /\ hw_prot_key s4 = hw_prot_key s0)
  /\ (forall i, scu_nr_regs AST2500 <= i -> reg_get s4 i = reg_get s0 i).
Proof.
  intros s0 s1 s2 s3 s4.
  refine (run_keeps_configuration_and_bounds AST2500 s0 s4 _ _).
  - exact example_run.
  - state_ok.
Defined.

(** X13 at an input: the run above. *)
Lemma reset_erases_history_witness :
  let s0 := power_on 0x04010303 0 in
  let s1 := scu_reset AST2500 s0 in
  let s2 := fst (scu_write AST2500 s1 0x00 0x1688A8A8 4) in
  let s3 := fst (scu_write AST2500 s2 0x70 0x6 4) in
  let s4 := snd (fst (scu_read AST2500 0x55AA s3 0x78 4)) in
  scu_reset AST2500 s4 = scu_reset AST2500 s0.
Proof.
  intros s0 s1 s2 s3 s4.
  refine (reset_erases_history AST2500 s0 s4 _ _).
  - exact example_run.
  - state_ok.
Defined.

(** X14 at an input: on the AST2600 a write to AST2600_HPLL_PARAM
    (offset 0x200) does not move the APB frequency. *)
Lemma apb_freq_frame_witness :
  let s := scu_reset AST2600 (power_on 0x05030303 0x1688A8A8) in
  scu_get_apb_freq AST2600 (snd (fst (scu_read AST2600 7 s 0x200 4)))
  = scu_get_apb_freq AST2600 s
  /\ scu_get_apb_freq AST2600 (fst (scu_write AST2600 s 0x200 0x00100000 4))
     = scu_get_apb_freq AST2600 s.
Proof.
  intros s.
  destruct (apb_freq_frame AST2600 7 s 0x200 0x00100000 4) as [H1 H2].
  - closed_offset_ok.
  - split; [exact H1|]. apply H2; vm_compute; discriminate.
Defined.

Example ast2600_apb_freq_reads_old_offsets :
  let s := scu_reset AST2600 (power_on 0x05030303 0x1688A8A8) in
  scu_get_apb_freq AST2600 s = 6000000
  /\ scu_get_apb_freq AST2600 (fst (scu_write AST2600 s 0x200 0x00100000 4)) = 6000000
  /\ scu_get_apb_freq AST2600 (fst (scu_write AST2600 s 0x200 0x00080000 4)) = 6000000
  /\ scu_get_apb_freq AST2600 (fst (scu_write AST2600 s 0x24 0x00080000 4)) = 0.
Proof. repeat split. Qed.

(** X15 at an input: the AST2500 reset value of the parameter register,
    M = 32, N = 0, P = 0, on a 24 MHz input clock. *)
Lemma ast2500_hpll_formula_witness :
  let s := scu_reset AST2500 (power_on 0x04010303 0) in
  aspeed_2500_scu_calc_hpll s 0x93000400 = 24000000 * 33.
Proof.
  intros s.
  destruct (ast2500_hpll_formula s 0x93000400) as (_ & _ & _ & H).
  - reflexivity.
  - reflexivity.
  - apply H. vm_compute. discriminate.
Defined.

(** X16 at an input: the AST2400 reset value of the parameter register. *)
Lemma ast2400_strapped_hpll_witness :
  let s := scu_reset AST2400 (power_on 0x02010303 0) in
  let f := aspeed_2400_scu_calc_hpll s 0x291 in
  (Z.land (hw_strap1 s) SCU_HW_STRAP_CLK_25M_IN <> 0 ->
   In f [400000000; 375000000; 350000000; 425000000])
  /\ (Z.land (hw_strap1 s) SCU_HW_STRAP_CLK_25M_IN = 0 ->
      In f [384000000; 360000000; 336000000; 408000000])
  /\ 336000000 <= f <= 425000000.
Proof.
  intros s. refine (ast2400_strapped_hpll s 0x291 _ _); reflexivity.
Defined.

(** X17 at an input: an AST2500 SCU realizes with a recognised revision
    and not with 0, the default of the property. *)
Lemma realize_checks_silicon_rev_witness :
  aspeed_scu_realize (asc (scu_info AST2500)) (power_on 0x04010303 0)
  = inr {| mr_ops := aspeed_ast2500_scu_ops; mr_size := SCU_IO_REGION_SIZE |}
  /\ aspeed_scu_realize (asc (scu_info AST2500)) (power_on 0 0)
     = inl (UnknownSiliconRevision 0)
  /\ offset_ok 0xFFF.
Proof.
  destruct (realize_checks_silicon_rev AST2500 (power_on 0x04010303 0))
    as (_ & Hok & _ & Hwin).
  destruct (realize_checks_silicon_rev AST2500 (power_on 0 0))
    as (_ & _ & Hbad & _).
  split; [apply Hok; simpl; tauto|].
  split; [apply Hbad; simpl; intuition discriminate|].
  apply (Hwin {| mr_ops := aspeed_ast2500_scu_ops; mr_size := SCU_IO_REGION_SIZE |}).
  - apply Hok. simpl. tauto.
  - split; vm_compute; congruence.
Defined.

(** X18 at an input: strap words and key state of a board. *)
Lemma ast2600_soc_scu_realizes_and_reports_a1_witness :
  let s := aspeed_soc_ast2600_scu 0x000000C0 0x00000003 0x1688A8A8 in
  aspeed_scu_realize (asc (scu_info AST2600)) s
  = inr {| mr_ops := aspeed_ast2600_scu_ops; mr_size := SCU_IO_REGION_SIZE |}
  /\ reg_get (scu_reset AST2600 s) AST2600_SILICON_REV = AST2600_A1_SILICON_REV
  /\ reg_get (scu_reset AST2600 s) AST2600_SILICON_REV2 = AST2600_A1_SILICON_REV
  /\ reg_get (scu_reset AST2600 s) AST2600_HW_STRAP1 = 0x000000C0
  /\ reg_get (scu_reset AST2600 s) AST2600_HW_STRAP2 = 0x00000003
  /\ reg_get (scu_reset AST2600 s) PROT_KEY = 0x1688A8A8.
Proof.
  refine (ast2600_soc_scu_realizes_and_reports_a1 0x000000C0 0x00000003 0x1688A8A8 _ _ _);
    split; vm_compute; congruence.
Defined.

(** X19 at an input: the two CPUs of the SoC. *)
Lemma aspeed_calc_affinity_fields_witness :
  aspeed_calc_affinity 0 = 0xF00 /\ aspeed_calc_affinity 1 = 0xF01
  /\ aspeed_calc_affinity 1 mod 2 ^ ARM_AFF1_SHIFT = 1
  /\ aspeed_calc_affinity 1 / 2 ^ ARM_AFF1_SHIFT = 0xf.
Proof.
  destruct (aspeed_calc_affinity_fields 0) as (H0 & _); [split; vm_compute; congruence|].
  destruct (aspeed_calc_affinity_fields 1) as (H1 & H2 & H3 & _);
    [split; vm_compute; congruence|].
  split; [exact H0|]. split; [exact H1|]. split; [exact H2 | exact H3].
Defined.

End ConcreteFurther.
